(** * ENDOCHAIN: a shallow embedding of the LEI-V core, the audit chain,
      the glyph geometry, the fusion engine, the EVG endpoint and the RSL
      placement calculator, with the properties stated about them. *)

From Stdlib Require Import ZArith QArith Qcanon Qround Qabs Qpower Field Lqa.
From Stdlib Require Import String Ascii List Lia.
From stdpp Require Import gmap strings pretty.
Import ListNotations.

Local Open Scope Z_scope.
Local Open Scope Q_scope.

(** ** Python values that cross module boundaries *)

(** Outcome of a call that may raise. *)
Inductive result (X A : Type) : Type :=
| Ok (a : A)
| Raise (x : X).
Arguments Ok {X A} a.
Arguments Raise {X A} x.

#[global] Instance result_ret {X} : MRet (result X) := fun _ a => Ok a.
#[global] Instance result_bind {X} : MBind (result X) := fun _ _ k r =>
  match r with
  | Ok a => k a
  | Raise x => Raise x
  end.

Inductive exn : Type :=
| ValueError (msg : string)
| InvalidOperation
| ZeroDivisionError
| OverflowError
| TypeError
| AttributeError.

(** ** Binary and decimal rounding of exact rationals

    [float], [Decimal] and mpmath's [mpf] all hold rationals of a special
    shape; the conversions between them are roundings, written here on [Q]. *)
Module Rounding.

(** Nearest integer, ties to even (IEEE 754 and [ROUND_HALF_EVEN]). *)
Definition round_half_even (q : Q) : Z :=
  let f := Qfloor q in
  match Qcompare (q - inject_Z f) (1 # 2) with
  | Lt => f
  | Gt => (f + 1)%Z
  | Eq => if Z.even f then f else (f + 1)%Z
  end.

(** [ilog2 q] is the integer [e] with [2^e <= q < 2^(e+1)], for [q > 0]. *)
Definition ilog2 (q : Q) : Z :=
  let e := (Z.log2 (Qnum q) - Z.log2 (Zpos (Qden q)))%Z in
  if Qle_bool (Qpower 2 e) q then e else (e - 1)%Z.

Fixpoint ilog10_up (fuel : nat) (q : Q) (e : Z) : Z :=
  match fuel with
  | O => e
  | S k => if Qle_bool (Qpower 10 (e + 1)) q then ilog10_up k q (e + 1)%Z else e
  end.

(** [ilog10 q] is the integer [e] with [10^e <= q < 10^(e+1)], for [q > 0]:
    an estimate from the binary logarithm, corrected upwards. *)
Definition ilog10 (q : Q) : Z :=
  ilog10_up 4 q ((ilog2 q * 30103) / 100000 - 1)%Z.

(** Rounding at a fixed scale: the multiple of [b^s] nearest to [q]. *)
Definition round_at (b : Q) (s : Z) (q : Q) : Q :=
  Qred (inject_Z (round_half_even (q / Qpower b s)) * Qpower b s).

(** Rounding to [p] significant bits (mpmath's [round_nearest]). *)
Definition round_bin (p : Z) (q : Q) : Q :=
  if Qeq_bool q 0 then 0
  else round_at 2 (ilog2 (Qabs q) - p + 1) q.

(** Rounding to [d] significant decimal digits. *)
Definition round_dec (d : Z) (q : Q) : Q :=
  if Qeq_bool q 0 then 0
  else round_at 10 (ilog10 (Qabs q) - d + 1) q.

End Rounding.

(** ** Python floats (IEEE 754 binary64)

    A float is a finite rational, an infinity or NaN.  The sign of zero is
    not represented: no operation modelled here observes it. *)
Module PyFloat.
Import Rounding.

Inductive pyfloat : Type :=
| FFin (q : Q)
| FInf (neg : bool)
| FNaN.

Definition emin : Z := (-1074)%Z.
(** Largest finite double, [(2^53 - 1) * 2^971]. *)
Definition max_float : Q := inject_Z (2 ^ 53 - 1) * Qpower 2 971.

(** Correct rounding of a rational to binary64: 53 significant bits, the
    fixed scale [2^-1074] in the subnormal range, overflow to infinity. *)
Definition fl (q : Q) : pyfloat :=
  if Qeq_bool q 0 then FFin 0
  else
    let s := Z.max (ilog2 (Qabs q) - 52) emin in
    let r := round_at 2 s q in
    if Qle_bool (Qabs r) max_float then FFin r
    else FInf (negb (Qle_bool 0 q)).

Definition is_zero (a : pyfloat) : bool :=
  match a with FFin q => Qeq_bool q 0 | _ => false end.

Definition is_neg (a : pyfloat) : bool :=
  match a with
  | FFin q => negb (Qle_bool 0 q)
  | FInf n => n
  | FNaN => false
  end.

Definition fopp (a : pyfloat) : pyfloat :=
  match a with
  | FFin q => FFin (- q)
  | FInf n => FInf (negb n)
  | FNaN => FNaN
  end.

Definition fabs (a : pyfloat) : pyfloat :=
  match a with
  | FFin q => FFin (Qabs q)
  | FInf _ => FInf false
  | FNaN => FNaN
  end.

Definition fadd (a b : pyfloat) : pyfloat :=
  match a, b with
  | FNaN, _ | _, FNaN => FNaN
  | FFin x, FFin y => fl (x + y)
  | FInf n, FFin _ | FFin _, FInf n => FInf n
  | FInf n, FInf m => if Bool.eqb n m then FInf n else FNaN
  end.

Definition fsub (a b : pyfloat) : pyfloat := fadd a (fopp b).

Definition fmul (a b : pyfloat) : pyfloat :=
  match a, b with
  | FNaN, _ | _, FNaN => FNaN
  | FFin x, FFin y => fl (x * y)
  | FInf n, c | c, FInf n =>
      if is_zero c then FNaN else FInf (xorb n (is_neg c))
  end.

(** [a / b]; Python raises [ZeroDivisionError] ([None] here) whenever the
    divisor is zero. *)
Definition fdiv (a b : pyfloat) : option pyfloat :=
  if is_zero b then None
  else Some
    match a, b with
    | FNaN, _ | _, FNaN => FNaN
    | FFin x, FFin y => fl (x / y)
    | FInf n, FFin y => FInf (xorb n (is_neg b))
    | FFin _, FInf _ => FFin 0
    | FInf _, FInf _ => FNaN
    end.

(** [a < b]: false as soon as a NaN is involved. *)
Definition flt (a b : pyfloat) : bool :=
  match a, b with
  | FNaN, _ | _, FNaN => false
  | FFin x, FFin y => negb (Qle_bool y x)
  | FFin _, FInf m => negb m
  | FInf n, FFin _ => n
  | FInf n, FInf m => n && negb m
  end.

Definition fle (a b : pyfloat) : bool :=
  match a, b with
  | FNaN, _ | _, FNaN => false
  | FFin x, FFin y => Qle_bool x y
  | FFin _, FInf m => negb m
  | FInf n, FFin _ => n
  | FInf n, FInf m => n || negb m
  end.

Definition fgt (a b : pyfloat) : bool := flt b a.

Definition feq (a b : pyfloat) : bool :=
  match a, b with
  | FFin x, FFin y => Qeq_bool x y
  | FInf n, FInf m => Bool.eqb n m
  | _, _ => false
  end.

(** [a <= b] for a float [a] and an exact bound [b]. *)
Definition at_most (a : pyfloat) (b : Q) : bool :=
  match a with
  | FFin q => Qle_bool q b
  | FInf n => n
  | FNaN => false
  end.

(** A float that is not negative (a NaN counts: it is not below zero). *)
Definition not_negative (a : pyfloat) : Prop :=
  match a with
  | FFin q => 0 <= q
  | FInf n => n = false
  | FNaN => True
  end.

(** Python's [min(a, b)]: the first argument unless the second is smaller. *)
Definition fmin (a b : pyfloat) : pyfloat := if flt b a then b else a.

(** A float literal of the source text. *)
Definition lit (q : Q) : pyfloat := fl q.

(** *** [repr]: the shortest decimal that reads back as the same float *)

Definition reads_back (f c : Q) : bool := feq (fl c) (FFin f).

Definition repr_candidate (d : Z) (f : Q) : option Q :=
  let s := (ilog10 (Qabs f) - d + 1)%Z in
  let lo := Qred (inject_Z (Qfloor (f / Qpower 10 s)) * Qpower 10 s) in
  let hi := Qred (lo + Qpower 10 s) in
  let near := round_at 10 s f in
  if reads_back f near then Some near
  else if reads_back f lo then Some lo
  else if reads_back f hi then Some hi
  else None.

Fixpoint shortest_repr (fuel : nat) (d : Z) (f : Q) : Q :=
  match fuel with
  | O => f
  | S k =>
      match repr_candidate d f with
      | Some c => c
      | None => shortest_repr k (d + 1)%Z f
      end
  end.

(** The number denoted by [str(f)] for a finite [f]: at most 17 digits. *)
Definition repr_value (f : Q) : Q :=
  if Qeq_bool f 0 then 0 else shortest_repr 17 1 f.

End PyFloat.

(** ** SHA-256 and HMAC-SHA-256 ([hashlib.sha256], [hmac.new])

    Messages are lists of byte values; words are 32-bit integers in [Z]. *)
Module Sha256.
Local Open Scope Z_scope.

Definition wrap (x : Z) : Z := x mod 2 ^ 32.
Definition rotr (n x : Z) : Z :=
  Z.lor (Z.shiftr x n) (wrap (Z.shiftl x (32 - n))).
Definition Ch (x y z : Z) : Z :=
  Z.lxor (Z.land x y) (Z.land (Z.lxor x (2 ^ 32 - 1)) z).
Definition Maj (x y z : Z) : Z :=
  Z.lxor (Z.lxor (Z.land x y) (Z.land x z)) (Z.land y z).
Definition bsig0 (x : Z) : Z := Z.lxor (Z.lxor (rotr 2 x) (rotr 13 x)) (rotr 22 x).
Definition bsig1 (x : Z) : Z := Z.lxor (Z.lxor (rotr 6 x) (rotr 11 x)) (rotr 25 x).
Definition ssig0 (x : Z) : Z := Z.lxor (Z.lxor (rotr 7 x) (rotr 18 x)) (Z.shiftr x 3).
Definition ssig1 (x : Z) : Z := Z.lxor (Z.lxor (rotr 17 x) (rotr 19 x)) (Z.shiftr x 10).

(** The round constants are the first 32 fractional bits of the cube
    roots of the first 64 primes, the initial state those of the square
    roots of the first 8. *)
Definition primes64 : list Z :=
  [2; 3; 5; 7; 11; 13; 17; 19; 23; 29; 31; 37; 41; 43; 47; 53; 59; 61; 67;
   71; 73; 79; 83; 89; 97; 101; 103; 107; 109; 113; 127; 131; 137; 139;
   149; 151; 157; 163; 167; 173; 179; 181; 191; 193; 197; 199; 211; 223;
   227; 229; 233; 239; 241; 251; 257; 263; 269; 271; 277; 281; 283; 293;
   307; 311].

Fixpoint icbrt_bits (bits : nat) (n acc : Z) : Z :=
  match bits with
  | O => acc
  | S b =>
      let c := acc + 2 ^ Z.of_nat b in
      if c * c * c <=? n then icbrt_bits b n c else icbrt_bits b n acc
  end.

Definition K : list Z := Eval vm_compute in
    map (fun p => wrap (icbrt_bits 36 (p * 2 ^ 96) 0)) primes64.

Definition H0 : list Z := Eval vm_compute in
    map (fun p => wrap (Z.sqrt (p * 2 ^ 64))) (firstn 8 primes64).

(** Big-endian bytes of the low [8 * n] bits of [x]. *)
Fixpoint be_bytes (n : nat) (x : Z) : list Z :=
  match n with
  | O => []
  | S k => Z.land (Z.shiftr x (8 * Z.of_nat k)) 255 :: be_bytes k x
  end.

Definition be_word (bs : list Z) : Z :=
  fold_left (fun acc b => acc * 256 + b) bs 0.

Definition pad (msg : list Z) : list Z :=
  let len := Z.of_nat (length msg) in
  msg ++ [128] ++ repeat 0 (Z.to_nat ((55 - len) mod 64))
      ++ be_bytes 8 (8 * len).

Fixpoint chunks {A} (n : nat) (count : nat) (l : list A) : list (list A) :=
  match count with
  | O => []
  | S c => firstn n l :: chunks n c (skipn n l)
  end.

Definition schedule (block : list Z) : list Z :=
  fold_left
    (fun W t =>
       W ++ [wrap (ssig1 (nth (t - 2) W 0) + nth (t - 7) W 0
                   + ssig0 (nth (t - 15) W 0) + nth (t - 16) W 0)])
    (seq 16 48) (map be_word (chunks 4 16 block)).

Record state : Type := State8 {
  sa : Z; sb : Z; sc : Z; sd : Z; se : Z; sf : Z; sg : Z; sh : Z
}.

Definition round (s : state) (kw : Z * Z) : state :=
  let t1 := sh s + bsig1 (se s) + Ch (se s) (sf s) (sg s) + fst kw + snd kw in
  let t2 := bsig0 (sa s) + Maj (sa s) (sb s) (sc s) in
  State8 (wrap (t1 + t2)) (sa s) (sb s) (sc s)
         (wrap (sd s + t1)) (se s) (sf s) (sg s).

Definition compress (s : state) (block : list Z) : state :=
  let r := fold_left round (combine K (schedule block)) s in
  State8 (wrap (sa s + sa r)) (wrap (sb s + sb r)) (wrap (sc s + sc r))
         (wrap (sd s + sd r)) (wrap (se s + se r)) (wrap (sf s + sf r))
         (wrap (sg s + sg r)) (wrap (sh s + sh r)).

Definition init : state :=
  State8 (nth 0 H0 0) (nth 1 H0 0) (nth 2 H0 0) (nth 3 H0 0)
         (nth 4 H0 0) (nth 5 H0 0) (nth 6 H0 0) (nth 7 H0 0).

Definition hash (msg : list Z) : state :=
  let p := pad msg in
  fold_left compress (chunks 64 (length p / 64) p) init.

Definition words (s : state) : list Z :=
  [sa s; sb s; sc s; sd s; se s; sf s; sg s; sh s].

(** [digest()]: the 32 bytes of the final state. *)
Definition digest (msg : list Z) : list Z :=
  flat_map (be_bytes 4) (words (hash msg)).

Definition hex_digit (n : Z) : ascii :=
  match Z.land n 15 with
  | 0 => "0" | 1 => "1" | 2 => "2" | 3 => "3" | 4 => "4" | 5 => "5"
  | 6 => "6" | 7 => "7" | 8 => "8" | 9 => "9" | 10 => "a" | 11 => "b"
  | 12 => "c" | 13 => "d" | 14 => "e" | _ => "f"
  end%char.

Definition word_hex (w : Z) (rest : string) : string :=
  String (hex_digit (Z.shiftr w 28)) (String (hex_digit (Z.shiftr w 24))
 (String (hex_digit (Z.shiftr w 20)) (String (hex_digit (Z.shiftr w 16))
 (String (hex_digit (Z.shiftr w 12)) (String (hex_digit (Z.shiftr w 8))
 (String (hex_digit (Z.shiftr w 4)) (String (hex_digit w) rest))))))).

Definition state_hex (s : state) : string :=
  word_hex (sa s) (word_hex (sb s) (word_hex (sc s) (word_hex (sd s)
 (word_hex (se s) (word_hex (sf s) (word_hex (sg s) (word_hex (sh s)
  EmptyString))))))).

Definition is_hex (c : ascii) : bool :=
  existsb (Ascii.eqb c) (list_ascii_of_string "0123456789abcdef").

(** A 64-character lower-case hexadecimal string. *)
Definition is_hexdigest (s : string) : bool :=
  (String.length s =? 64)%nat && forallb is_hex (list_ascii_of_string s).

Definition bytes_of_string (s : string) : list Z :=
  map (fun c => Z.of_N (N_of_ascii c)) (list_ascii_of_string s).

(** [hashlib.sha256(msg).hexdigest()] *)
Definition sha256_hex (msg : list Z) : string := state_hex (hash msg).

(** [hmac.new(key, msg, hashlib.sha256).hexdigest()] *)
Definition hmac_sha256_hex (key msg : list Z) : string :=
  let k0 := if (64 <? length key)%nat then digest key else key in
  let k := k0 ++ repeat 0 (64 - length k0) in
  let inner := digest (map (Z.lxor 54) k ++ msg) in
  state_hex (hash (map (Z.lxor 92) k ++ inner)).

End Sha256.

(** ** [decimal.Decimal] under [getcontext().prec = 100] *)
Module PyDecimal.
Import Rounding PyFloat.

Inductive Decimal : Type :=
| DFin (q : Q)
| DInf (neg : bool)
| DNaN.

Definition prec : Z := 100%Z.

(** [Decimal(str(f))] *)
Definition of_float_str (f : pyfloat) : Decimal :=
  match f with
  | FFin q => DFin (repr_value q)
  | FInf n => DInf n
  | FNaN => DNaN
  end.

(** [float(d)] *)
Definition to_float (d : Decimal) : pyfloat :=
  match d with
  | DFin q => fl q
  | DInf n => FInf n
  | DNaN => FNaN
  end.

(** [a < b]; comparing a NaN signals [InvalidOperation]. *)
Definition lt (a b : Decimal) : result exn bool :=
  match a, b with
  | DNaN, _ | _, DNaN => Raise InvalidOperation
  | DFin x, DFin y => Ok (negb (Qle_bool y x))
  | DFin _, DInf m => Ok (negb m)
  | DInf n, DFin _ => Ok n
  | DInf n, DInf m => Ok (n && negb m)
  end.

(** [a - b], rounded to the context precision. *)
Definition sub (a b : Decimal) : result exn Decimal :=
  match a, b with
  | DNaN, _ | _, DNaN => Ok DNaN
  | DFin x, DFin y => Ok (DFin (round_dec prec (x - y)))
  | DInf n, DFin _ => Ok (DInf n)
  | DFin _, DInf m => Ok (DInf (negb m))
  | DInf n, DInf m => if Bool.eqb n m then Raise InvalidOperation else Ok (DInf n)
  end.

(** [a == b] *)
Definition eqb (a b : Decimal) : bool :=
  match a, b with
  | DFin x, DFin y => Qeq_bool x y
  | DInf n, DInf m => Bool.eqb n m
  | _, _ => false
  end.

End PyDecimal.

(** ** Dynamically typed values, and the library functions left abstract *)

Definition datetime : Type := Z.
Bind Scope Z_scope with datetime.

#[warnings="-register-all"]
Inductive pyval : Type :=
| PNone
| PBool (b : bool)
| PInt (z : Z)
| PFloat (f : PyFloat.pyfloat)
| PDecimal (d : PyDecimal.Decimal)
| PStr (s : string)
| PList (l : list pyval)
| PDict (d : list (string * pyval)).

(** A [dict] with string keys, in insertion order. *)
Definition pydict : Type := list (string * pyval).

Fixpoint dict_get (k : string) (d : pydict) : option pyval :=
  match d with
  | [] => None
  | (k', v) :: rest => if String.eqb k k' then Some v else dict_get k rest
  end.

Definition dict_has (k : string) (d : pydict) : bool :=
  match dict_get k d with Some _ => true | None => false end.

Definition dict_keys (d : pydict) : list string := map fst d.

(** What the standard library does with text: [json.dumps(v,
    sort_keys=True, default=str)], [str(v)] and [datetime.isoformat()]. *)
Class PyRuntime : Type := {
  json_dumps : pyval -> string;
  py_str : pyval -> string;
  isoformat : datetime -> string
}.

(** A stand-in runtime, precise enough to run the model on examples. *)
Fixpoint show (v : pyval) : string :=
  match v with
  | PNone => "null"
  | PBool b => if b then "true" else "false"
  | PInt z => pretty z
  | PFloat _ => "<float>"
  | PDecimal _ => "<Decimal>"
  | PStr s => s
  | PList l =>
      "[" ++ (fix items (l : list pyval) : string :=
                match l with
                | [] => ""
                | x :: rest => show x ++ "," ++ items rest
                end) l ++ "]"
  | PDict d =>
      "{" ++ (fix items (d : list (string * pyval)) : string :=
                match d with
                | [] => ""
                | (k, x) :: rest => k ++ ":" ++ show x ++ "," ++ items rest
                end) d ++ "}"
  end%string.

Definition example_runtime : PyRuntime :=
  {| json_dumps := show; py_str := show; isoformat := pretty |}.

(** ** core/audit.py *)
Module Audit.
Import Sha256.

Record AuditEntry : Type := {
  entry_hash : string;
  previous_hash : string;
  timestamp : datetime;
  data_type : pyval;
  data_summary : string
}.

Record AuditHasher : Type := {
  _secret_key : option (list Z);
  _chain : list AuditEntry;
  _last_hash : string
}.

(** ["0" * 64] *)
Definition GENESIS_HASH : string := string_of_list_ascii (repeat "0"%char 64).
Definition CITATION : string := "Viduya Family Legacy Glyph © 2025".

(** [AuditHasher(secret_key)] *)
Definition new (secret_key : option (list Z)) : AuditHasher :=
  {| _secret_key := secret_key; _chain := []; _last_hash := GENESIS_HASH |}.

Section WithRuntime.
Context {RT : PyRuntime}.

Definition _serialize_for_hash (data : pydict) : string :=
  json_dumps (PDict data).

Definition _generate_summary (data : pydict) : string :=
  match dict_get "patient_id" data, dict_get "lei_v" data with
  | Some pid, Some v =>
      ("LEI-V=" ++ py_str v ++ " for patient " ++ py_str pid)%string
  | _, _ =>
      ("Audit entry: " ++ py_str (PList (map PStr (dict_keys data))))%string
  end.

(** [hash_computation(data)], reading the clock at [t1] for the payload
    and at [t2] for the entry; returns the digest and the new hasher. *)
Definition hash_computation (h : AuditHasher) (t1 t2 : datetime)
    (data : pydict) : string * AuditHasher :=
  let payload :=
    [("timestamp", PStr (isoformat t1));
     ("citation", PStr CITATION);
     ("data", PStr (_serialize_for_hash data));
     ("previous_hash", PStr (_last_hash h))] in
  let serialized := bytes_of_string (json_dumps (PDict payload)) in
  let new_hash :=
    match _secret_key h with
    | Some (b :: key) => hmac_sha256_hex (b :: key) serialized
    | _ => sha256_hex serialized
    end in
  let entry :=
    {| entry_hash := new_hash;
       previous_hash := _last_hash h;
       timestamp := t2;
       data_type := default (PStr "computation") (dict_get "type" data);
       data_summary := _generate_summary data |} in
  (new_hash,
   {| _secret_key := _secret_key h;
      _chain := _chain h ++ [entry];
      _last_hash := new_hash |}).

(** A sequence of calls on one hasher: the digests returned, in order,
    and the hasher afterwards. *)
Fixpoint hash_computations (h : AuditHasher)
    (calls : list (datetime * datetime * pydict)) : list string * AuditHasher :=
  match calls with
  | [] => ([], h)
  | (t1, t2, data) :: rest =>
      let (d, h') := hash_computation h t1 t2 data in
      let (ds, h'') := hash_computations h' rest in
      (d :: ds, h'')
  end.

End WithRuntime.

Fixpoint verify_from (current_hash : string) (chain : list AuditEntry) : bool :=
  match chain with
  | [] => true
  | entry :: rest =>
      if negb (String.eqb (previous_hash entry) current_hash) then false
      else verify_from (entry_hash entry) rest
  end.

(** The hash the next entry has to link to: the last entry's, or [g]. *)
Definition chain_tip (g : string) (chain : list AuditEntry) : string :=
  fold_left (fun _ e => entry_hash e) chain g.

(** The hasher's invariant: the stored chain verifies from genesis and
    [_last_hash] is its tip. *)
Definition well_linked (h : AuditHasher) : Prop :=
  verify_from GENESIS_HASH (_chain h) = true
  /\ _last_hash h = chain_tip GENESIS_HASH (_chain h).

Definition verify_chain_integrity (h : AuditHasher) : bool :=
  match _chain h with
  | [] => true
  | chain => verify_from GENESIS_HASH chain
  end.

(** An outside write to the stored chain: entry [i] gets the link [p]. *)
Definition with_previous_hash (p : string) (e : AuditEntry) : AuditEntry :=
  {| entry_hash := entry_hash e;
     previous_hash := p;
     timestamp := timestamp e;
     data_type := data_type e;
     data_summary := data_summary e |}.

Definition tamper (i : nat) (p : string) (h : AuditHasher) : AuditHasher :=
  {| _secret_key := _secret_key h;
     _chain := alter (with_previous_hash p) i (_chain h);
     _last_hash := _last_hash h |}.

End Audit.

(** ** core/lei_v.py *)
Module LeiV.
Import Rounding PyFloat PyDecimal.

Inductive DiagnosticStage : Type :=
| HEALTHY | STAGE_0 | STAGE_I | STAGE_II | STAGE_III | STAGE_IV.

Definition stage_value (s : DiagnosticStage) : string :=
  match s with
  | HEALTHY => "healthy"
  | STAGE_0 => "stage_0_early"
  | STAGE_I => "stage_i_minimal"
  | STAGE_II => "stage_ii_mild"
  | STAGE_III => "stage_iii_moderate"
  | STAGE_IV => "stage_iv_severe"
  end.

Record LEIVThresholds : Type := {
  healthy_mean : Decimal;
  healthy_std : Decimal;
  stage_0_threshold : Decimal;
  advanced_threshold : Decimal
}.

(** [LEIVThresholds()] *)
Definition default_thresholds : LEIVThresholds :=
  {| healthy_mean := DFin (21 # 10000);
     healthy_std := DFin (18 # 10000);
     stage_0_threshold := DFin (18 # 1000);
     advanced_threshold := DFin (8 # 100) |}.

Definition classify (th : LEIVThresholds) (lei_v : Decimal)
    : result exn DiagnosticStage :=
  b0 ← lt lei_v (stage_0_threshold th);
  if b0 : bool then Ok HEALTHY else
  b1 ← lt lei_v (advanced_threshold th);
  if b1 : bool then Ok STAGE_0 else
  b2 ← lt lei_v (DFin (15 # 100));
  if b2 : bool then Ok STAGE_I else
  b3 ← lt lei_v (DFin (25 # 100));
  if b3 : bool then Ok STAGE_II else
  b4 ← lt lei_v (DFin (40 # 100));
  if b4 : bool then Ok STAGE_III else Ok STAGE_IV.

(** Exact (symbolic) numbers, as sympy expressions denote them: a field
    in which the electrode count is invertible, with [evalf prec x] the
    value of the [prec]-bit binary float that numeric evaluation of [x]
    returns. *)
Class Exact (E : Type) : Type := {
  ex_zero : E;
  ex_one : E;
  ex_add : E -> E -> E;
  ex_mul : E -> E -> E;
  ex_sub : E -> E -> E;
  ex_opp : E -> E;
  ex_div : E -> E -> E;
  ex_inv : E -> E;
  ex_field :
    field_theory ex_zero ex_one ex_add ex_mul ex_sub ex_opp ex_div ex_inv eq;
  ex_electrodes_invertible :
    InitialRing.gen_phiZ ex_zero ex_one ex_add ex_mul ex_opp 6 <> ex_zero;
  evalf : Z -> E -> Q;
  evalf_zero : forall prec, evalf prec ex_zero = 0
}.

(** A Python [int] as an exact number. *)
Definition ex_int {E} {EX : Exact E} (z : Z) : E :=
  InitialRing.gen_phiZ ex_zero ex_one ex_add ex_mul ex_opp z.

(** mpmath's [dps_to_prec]: bits needed for [n] decimal digits. *)
Definition dps_to_prec (n : Z) : Z :=
  Z.max 1 (round_half_even
             (inject_Z (n + 1) * (33219280948873626 # 10000000000000000))).

(** [float(N(x, n))] *)
Definition N_float {E} {EX : Exact E} (x : E) (n : Z) : pyfloat :=
  fl (evalf (dps_to_prec n) x).

(** [sum(l)], starting from the integer zero. *)
Definition ex_sum {E} {EX : Exact E} (l : list E) : E :=
  fold_left ex_add l ex_zero.

(** [sp.simplify] rewrites an expression without changing what it
    denotes. *)
Definition simplify {E} {EX : Exact E} (x : E) : E := x.

Record LEIVResult (E : Type) : Type := {
  lei_v_value : Decimal;
  lei_v_symbolic : E;
  stage : DiagnosticStage;
  confidence_percent : pyfloat;
  radial_distances : list Decimal;
  mean_radial : Decimal;
  variance_components : list Decimal;
  timestamp : datetime;
  patient_id : string;
  audit_hash : string;
  computation_metadata : pydict
}.
Arguments lei_v_value {E} _.
Arguments lei_v_symbolic {E} _.
Arguments stage {E} _.
Arguments confidence_percent {E} _.
Arguments radial_distances {E} _.
Arguments mean_radial {E} _.
Arguments variance_components {E} _.
Arguments timestamp {E} _.
Arguments patient_id {E} _.
Arguments audit_hash {E} _.
Arguments computation_metadata {E} _.

Record LEIVCalculator : Type := {
  thresholds : LEIVThresholds;
  hasher : Audit.AuditHasher
}.

Definition NUM_ELECTRODES : nat := 6.

(** [LEIVCalculator(thresholds)] *)
Definition new (th : option LEIVThresholds) : LEIVCalculator :=
  {| thresholds := default default_thresholds th;
     hasher := Audit.new None |}.

Definition _calculate_confidence (th : LEIVThresholds) (lei_v : Decimal)
    (st : DiagnosticStage) : result exn pyfloat :=
  match st with
  | HEALTHY =>
      m ← sub (stage_0_threshold th) lei_v;
      Ok (fmin (lit 99) (fadd (lit 80) (fmul (to_float m) (lit 500))))
  | STAGE_0 =>
      lo ← sub lei_v (stage_0_threshold th);
      hi ← sub (advanced_threshold th) lei_v;
      let margin := fmin (to_float lo) (to_float hi) in
      Ok (fmin (lit 95) (fadd (lit 70) (fmul margin (lit 200))))
  | _ =>
      m ← sub lei_v (advanced_threshold th);
      Ok (fmin (lit 99) (fadd (lit 85) (fmul (to_float m) (lit 50))))
  end.

Definition opt_int (o : option Z) : pyval :=
  match o with Some z => PInt z | None => PNone end.

Section Compute.
Context {E : Type} {EX : Exact E} {RT : PyRuntime}.

(** [compute(radial_distances, patient_id, cycle_day, v_caw_hour)]:
    the clock is read at [t0] here and at [t1], [t2] by the hasher.
    Returns the outcome and the calculator after the call. *)
Definition compute (c : LEIVCalculator) (t0 t1 t2 : datetime)
    (radial_distances : list E) (patient_id : string)
    (cycle_day v_caw_hour : option Z)
    : result exn (LEIVResult E) * LEIVCalculator :=
  if negb (length radial_distances =? NUM_ELECTRODES)%nat then
    (Raise (ValueError "Expected 6 radial distances"), c)
  else
    let r_mean_symbolic :=
      ex_div (ex_sum radial_distances) (ex_int (Z.of_nat NUM_ELECTRODES)) in
    let variance_terms :=
      map (fun r => let d := ex_sub r r_mean_symbolic in ex_mul d d)
          radial_distances in
    let lei_v_symbolic := ex_sum variance_terms in
    let lei_v_simplified := simplify lei_v_symbolic in
    let lei_v_float := N_float lei_v_simplified 50 in
    let lei_v_decimal := of_float_str lei_v_float in
    let radial_decimals :=
      map (fun r => of_float_str (N_float r 50)) radial_distances in
    let mean_decimal := of_float_str (N_float r_mean_symbolic 50) in
    let variance_decimals :=
      map (fun v => of_float_str (N_float v 50)) variance_terms in
    match classify (thresholds c) lei_v_decimal with
    | Raise e => (Raise e, c)
    | Ok stage =>
        match _calculate_confidence (thresholds c) lei_v_decimal stage with
        | Raise e => (Raise e, c)
        | Ok confidence =>
            let metadata :=
              [("num_electrodes", PInt (Z.of_nat NUM_ELECTRODES));
               ("cycle_day", opt_int cycle_day);
               ("v_caw_hour", opt_int v_caw_hour);
               ("computation_precision", PStr "symbolic");
               ("glyph_citation", PStr "Viduya Family Legacy Glyph © 2025")] in
            let audit_data :=
              [("patient_id", PStr patient_id);
               ("lei_v", PStr (py_str (PDecimal lei_v_decimal)));
               ("timestamp", PStr (isoformat t0));
               ("radial_distances",
                PList (map (fun r => PStr (py_str (PDecimal r)))
                           radial_decimals));
               ("metadata", PDict metadata)] in
            let '(audit_hash, hasher') :=
              Audit.hash_computation (hasher c) t1 t2 audit_data in
            (Ok {| lei_v_value := lei_v_decimal;
                   lei_v_symbolic := lei_v_simplified;
                   stage := stage;
                   confidence_percent := confidence;
                   radial_distances := radial_decimals;
                   mean_radial := mean_decimal;
                   variance_components := variance_decimals;
                   timestamp := t0;
                   patient_id := patient_id;
                   audit_hash := audit_hash;
                   computation_metadata := metadata |},
             {| thresholds := thresholds c; hasher := hasher' |})
        end
    end.

(** The simplified symbolic index that [compute] forms from the radii, and
    the decimal it derives from it and stores as [lei_v_value]. *)
Definition symbolic_lei_v (rs : list E) : E :=
  let mean := ex_div (ex_sum rs) (ex_int (Z.of_nat NUM_ELECTRODES)) in
  simplify (ex_sum (map (fun r => let d := ex_sub r mean in ex_mul d d) rs)).

Definition stored_lei_v (rs : list E) : Decimal :=
  of_float_str (N_float (symbolic_lei_v rs) 50).

End Compute.

(** Radii with one electrode at distance 1 and five at the centre; their
    exact index is 5/6. *)
Definition one_off_centre : list Qc :=
  [Q2Qc 1; Q2Qc 0; Q2Qc 0; Q2Qc 0; Q2Qc 0; Q2Qc 0].

(** Rational radii ([sympy.Rational]): numeric evaluation is the
    correctly rounded binary expansion. *)
Lemma Qc_electrodes_invertible :
  InitialRing.gen_phiZ 0%Qc 1%Qc Qcplus Qcmult Qcopp 6 <> 0%Qc.
Proof.
  intros Heq. apply (f_equal this) in Heq. vm_compute in Heq. discriminate.
Qed.

#[global] Instance Exact_Qc : Exact Qc := {|
  ex_zero := 0%Qc;
  ex_one := 1%Qc;
  ex_add := Qcplus;
  ex_mul := Qcmult;
  ex_sub := Qcminus;
  ex_opp := Qcopp;
  ex_div := Qcdiv;
  ex_inv := Qcinv;
  ex_field := Qcft;
  ex_electrodes_invertible := Qc_electrodes_invertible;
  evalf := fun prec x => round_bin prec (this x);
  evalf_zero := fun _ => eq_refl
|}.

End LeiV.

(** ** Exact radical numbers

    The symbolic coordinates of the glyph are rational combinations of
    square roots of square-free integers.  [[(d1, c1); (d2, c2); ...]], with
    increasing [d] and non-zero reduced [c], denotes [c1*sqrt(d1) +
    c2*sqrt(d2) + ...]; the rationals are the multiples of [sqrt(1)]. *)
Module Radical.
Import Rounding.

Definition radical : Type := list (positive * Q).

Fixpoint insert_term (d : positive) (c : Q) (x : radical) : radical :=
  match x with
  | [] => if Qeq_bool c 0 then [] else [(d, Qred c)]
  | (d', c') :: rest =>
      match Pos.compare d d' with
      | Lt => if Qeq_bool c 0 then x else (d, Qred c) :: x
      | Eq =>
          let s := Qred (c + c') in
          if Qeq_bool s 0 then rest else (d, s) :: rest
      | Gt => (d', c') :: insert_term d c rest
      end
  end.

Definition radd (x y : radical) : radical :=
  fold_right (fun t acc => insert_term (fst t) (snd t) acc) y x.

Definition rscale (q : Q) (x : radical) : radical :=
  fold_right (fun t acc => insert_term (fst t) (q * snd t) acc) [] x.

Definition rneg (x : radical) : radical := rscale (-1) x.
Definition rsub (x y : radical) : radical := radd x (rneg y).

Fixpoint sqfree_loop (fuel : nat) (k s d : Z) : Z * Z :=
  match fuel with
  | O => (s, d)
  | S f =>
      if (d <? k * k)%Z then (s, d)
      else if (d mod (k * k) =? 0)%Z
           then sqfree_loop f k (s * k)%Z (d / (k * k))%Z
           else sqfree_loop f (k + 1)%Z s d
  end.

(** [sqfree_split n = (s, d)] with [n = s^2 * d] and [d] square-free. *)
Definition sqfree_split (n : positive) : Z * positive :=
  let '(s, d) :=
    sqfree_loop (Z.to_nat (Z.sqrt (Zpos n) + Z.log2 (Zpos n) + 2))
                2 1 (Zpos n) in
  (s, Z.to_pos d).

(** [c1*sqrt(d1) * c2*sqrt(d2)] *)
Definition term_mul (t1 t2 : positive * Q) : positive * Q :=
  let '(s, d) := sqfree_split (fst t1 * fst t2) in
  (d, snd t1 * snd t2 * inject_Z s).

Definition rmul (x y : radical) : radical :=
  fold_right
    (fun t1 acc =>
       fold_right
         (fun t2 acc' =>
            let t := term_mul t1 t2 in insert_term (fst t) (snd t) acc')
         acc y)
    [] x.

Definition of_Q (q : Q) : radical := insert_term 1 q [].
Definition rzero : radical := [].

(** [sqrt(n)] for a positive integer [n]. *)
Definition sqrt_pos (n : positive) : radical :=
  let '(s, d) := sqfree_split n in insert_term d (inject_Z s) [].

Definition is_zero (x : radical) : bool :=
  match x with [] => true | _ => false end.

(** [sp.simplify]: a radical number is already kept in normal form. *)
Definition simplify (x : radical) : radical := x.

(** [sp.sqrt(x)]: stays in this number domain exactly when [x] is a
    non-negative rational, [sqrt(p/q) = sqrt(p*q)/q]. *)
Definition rsqrt (x : radical) : option radical :=
  match x with
  | [] => Some []
  | [(1%positive, c)] =>
      match Qnum c with
      | Zpos p => Some (rscale (1 # Qden c) (sqrt_pos (p * Qden c)))
      | _ => None
      end
  | _ => None
  end.

(** [cos(i*pi/3)] and [sin(i*pi/3)] *)
Definition cos_pi3 (i : Z) : radical :=
  match (i mod 6)%Z with
  | 0%Z => of_Q 1
  | 1%Z | 5%Z => of_Q (1 # 2)
  | 2%Z | 4%Z => of_Q (- (1 # 2))
  | _ => of_Q (-1)
  end.

Definition sin_pi3 (i : Z) : radical :=
  match (i mod 6)%Z with
  | 0%Z | 3%Z => rzero
  | 1%Z | 2%Z => rscale (1 # 2) (sqrt_pos 3)
  | _ => rscale (- (1 # 2)) (sqrt_pos 3)
  end.

(** *** Numeric evaluation *)

(** Lower and upper bounds of [c * sqrt(d)], from the integer square root
    of [d * 4^k]. *)
Definition term_bounds (k : Z) (t : positive * Q) : Q * Q :=
  let r := Z.sqrt (Zpos (fst t) * 4 ^ k) in
  let exact := (r * r =? Zpos (fst t) * 4 ^ k)%Z in
  let lo := inject_Z r / Qpower 2 k in
  let hi := if exact then lo else inject_Z (r + 1) / Qpower 2 k in
  if Qle_bool 0 (snd t) then (snd t * lo, snd t * hi)
  else (snd t * hi, snd t * lo).

Definition bounds (k : Z) (x : radical) : Q * Q :=
  fold_right
    (fun t acc =>
       let b := term_bounds k t in (fst b + fst acc, snd b + snd acc))
    (0, 0) x.

(** The [prec]-bit float nearest to [x]: the working precision is doubled
    until both bounds round to the same float. *)
Fixpoint evalf_loop (fuel : nat) (k prec : Z) (x : radical) : Q :=
  let b := bounds k x in
  let lo := round_bin prec (fst b) in
  match fuel with
  | O => lo
  | S f =>
      if Qeq_bool lo (round_bin prec (snd b)) then lo
      else evalf_loop f (2 * k)%Z prec x
  end.

Definition evalf (prec : Z) (x : radical) : Q :=
  evalf_loop 8 (prec + 32)%Z prec x.

End Radical.

(** ** core/viduya_glyph.py *)
Module Glyph.
Import Radical.

Inductive GlyphLayer : Type :=
| TRIANGLE_HEXAGON
| VESICA_HEXAGON
| HIDDEN_STAR_TRIANGLE
| REGENERATIVE_SPARK_LATTICE.

Definition layer_eqb (a b : GlyphLayer) : bool :=
  match a, b with
  | TRIANGLE_HEXAGON, TRIANGLE_HEXAGON
  | VESICA_HEXAGON, VESICA_HEXAGON
  | HIDDEN_STAR_TRIANGLE, HIDDEN_STAR_TRIANGLE
  | REGENERATIVE_SPARK_LATTICE, REGENERATIVE_SPARK_LATTICE => true
  | _, _ => false
  end.

Record GlyphCoordinate : Type := {
  x : radical;
  y : radical;
  layer : GlyphLayer;
  name : string;
  electrode_index : option Z
}.

(** [sp.sqrt(self.x**2 + self.y**2)] *)
Definition distance_from_origin (c : GlyphCoordinate) : option radical :=
  rsqrt (radd (rmul (x c) (x c)) (rmul (y c) (y c))).

Definition SQRT3 : radical := sqrt_pos 3.
Definition SQRT2 : radical := sqrt_pos 2.
Definition SQRT229 : radical := sqrt_pos 229.

Definition sign_name (s : Z) : string :=
  if (0 <? s)%Z then "+" else "-".

Definition _add_triangle_hexagon_points (cs : list GlyphCoordinate)
    : list GlyphCoordinate :=
  cs ++
  [ {| x := rscale (1 # 4) SQRT3; y := of_Q 0;
       layer := TRIANGLE_HEXAGON; name := "TH_axial_pos";
       electrode_index := None |};
    {| x := rscale (1 # 4) (rneg SQRT3); y := of_Q 0;
       layer := TRIANGLE_HEXAGON; name := "TH_axial_neg";
       electrode_index := None |} ] ++
  flat_map
    (fun sign_x : Z =>
       map (fun sign_y : Z =>
              {| x := rscale (1 # 8) (rscale (inject_Z sign_x) SQRT3);
                 y := rscale (inject_Z sign_y) (of_Q (3 # 8));
                 layer := TRIANGLE_HEXAGON;
                 name := ("TH_offaxis_" ++ sign_name sign_x ++ "x_"
                          ++ sign_name sign_y ++ "y")%string;
                 electrode_index := None |})
           [1; -1]%Z)
    [1; -1]%Z.

Definition _add_vesica_hexagon_points (cs : list GlyphCoordinate)
    : list GlyphCoordinate :=
  let x_base := of_Q (3 # 80) in
  let x_offset := rscale (1 # 80) SQRT229 in
  let y_val := radd (of_Q (- (37 # 80))) (rscale (1 # 80) SQRT229) in
  cs ++
  [ {| x := rmul SQRT3 (radd x_base x_offset); y := y_val;
       layer := VESICA_HEXAGON; name := "VH_pos"; electrode_index := None |};
    {| x := rmul SQRT3 (rsub x_base x_offset); y := y_val;
       layer := VESICA_HEXAGON; name := "VH_neg"; electrode_index := None |};
    {| x := rmul (rneg SQRT3) (radd x_base x_offset); y := y_val;
       layer := VESICA_HEXAGON; name := "VH_mirror_pos";
       electrode_index := None |};
    {| x := rmul (rneg SQRT3) (rsub x_base x_offset); y := y_val;
       layer := VESICA_HEXAGON; name := "VH_mirror_neg";
       electrode_index := None |} ].

Definition _add_hidden_star_triangle_points (cs : list GlyphCoordinate)
    : list GlyphCoordinate :=
  let x_val := rsub (of_Q (7 # 40)) (rscale (1 # 4) SQRT2) in
  let y_val := of_Q (- (3 # 8)) in
  cs ++
  [ {| x := x_val; y := y_val;
       layer := HIDDEN_STAR_TRIANGLE; name := "HST_pos";
       electrode_index := None |};
    {| x := rneg x_val; y := y_val;
       layer := HIDDEN_STAR_TRIANGLE; name := "HST_neg";
       electrode_index := None |} ].

Definition digit_name (i : Z) : string :=
  String (ascii_of_N (48 + Z.to_N i)) EmptyString.

(** Electrode [i + 1], at the angle [i * pi / 3]. *)
Definition rsl_point (i : Z) : GlyphCoordinate :=
  let radius := rscale (1 # 4) SQRT3 in
  {| x := simplify (rmul radius (cos_pi3 i));
     y := simplify (rmul radius (sin_pi3 i));
     layer := REGENERATIVE_SPARK_LATTICE;
     name := ("RSL_electrode_" ++ digit_name (i + 1))%string;
     electrode_index := Some (i + 1)%Z |}.

Definition _add_rsl_points (cs : list GlyphCoordinate)
    : list GlyphCoordinate :=
  cs ++ map rsl_point [0; 1; 2; 3; 4; 5]%Z.

(** [ViduyaGlyph()]: the coordinate list after [_build_all_coordinates]. *)
Definition ViduyaGlyph : list GlyphCoordinate :=
  _add_rsl_points
    (_add_hidden_star_triangle_points
       (_add_vesica_hexagon_points
          (_add_triangle_hexagon_points []))).

Definition get_by_layer (g : list GlyphCoordinate) (l : GlyphLayer)
    : list GlyphCoordinate :=
  List.filter (fun c => layer_eqb (layer c) l) g.

Definition get_rsl_electrodes (g : list GlyphCoordinate)
    : list GlyphCoordinate :=
  get_by_layer g REGENERATIVE_SPARK_LATTICE.

Section Verify.
(** [str] of an integer and of a symbolic expression, for messages. *)
Variable str_int : Z -> string.
Variable str_expr : radical -> string.

(** The loop over [enumerate(radii[1:], 1)]. *)
Fixpoint check_radii (r0 : radical) (i : Z) (radii : list radical)
    : bool * string :=
  match radii with
  | [] =>
      (true,
       "C₃ × D₆ symmetry verified. Citation: Viduya Family Legacy Glyph © 2025")
  | r :: rest =>
      let diff := simplify (rsub r r0) in
      if negb (is_zero diff) then
        (false,
         ("Radius mismatch at electrode " ++ str_int (i + 1) ++ ": "
          ++ str_expr diff)%string)
      else check_radii r0 (i + 1)%Z rest
  end.

(** [verify_symmetry()]; [None] when a radius leaves the number domain
    of this model. *)
Definition verify_symmetry (g : list GlyphCoordinate)
    : option (bool * string) :=
  let rsl := get_rsl_electrodes g in
  if negb (length rsl =? 6)%nat then
    Some (false,
          ("Expected 6 RSL electrodes, found "
           ++ str_int (Z.of_nat (length rsl)))%string)
  else
    radii ← mapM distance_from_origin rsl;
    match radii with
    | [] => None
    | r0 :: rest => Some (check_radii r0 1 rest)
    end.
End Verify.

End Glyph.

(** ** core/viduya_constants.py *)
Module Constants.

Record FrozenCoordinate : Type := {
  name : string;
  x_symbolic : string;
  y_symbolic : string;
  x_approx : Q;
  y_approx : Q;
  layer : string;
  electrode_index : Z
}.

Definition coord (n xs ys : string) (xa ya : Q) (l : string) (e : Z)
    : FrozenCoordinate :=
  {| name := n; x_symbolic := xs; y_symbolic := ys;
     x_approx := xa; y_approx := ya; layer := l; electrode_index := e |}.

Definition ALL_TRIANGLE_HEXAGON : list FrozenCoordinate :=
  [ coord "TH_axial_pos" "sqrt(3)/4" "0"
          0.4330127018922193 0 "triangle_hexagon" 1;
    coord "TH_axial_neg" "-sqrt(3)/4" "0"
          (-0.4330127018922193) 0 "triangle_hexagon" 4;
    coord "TH_offaxis_1" "sqrt(3)/8" "3/8"
          0.21650635094610966 0.375 "triangle_hexagon" 2;
    coord "TH_offaxis_2" "-sqrt(3)/8" "3/8"
          (-0.21650635094610966) 0.375 "triangle_hexagon" 3;
    coord "TH_offaxis_3" "sqrt(3)/8" "-3/8"
          0.21650635094610966 (-0.375) "triangle_hexagon" 6;
    coord "TH_offaxis_4" "-sqrt(3)/8" "-3/8"
          (-0.21650635094610966) (-0.375) "triangle_hexagon" 5 ].

Definition ALL_VESICA_HEXAGON : list FrozenCoordinate :=
  [ coord "VH_pos" "sqrt(3)*(3/80 + sqrt(229)/80)" "-37/80 + sqrt(229)/80"
          0.3926630275978783 (-0.27340925686527045) "vesica_hexagon" 0;
    coord "VH_neg" "sqrt(3)*(3/80 - sqrt(229)/80)" "-37/80 + sqrt(229)/80"
          (-0.26274319339287395) (-0.27340925686527045) "vesica_hexagon" 0;
    coord "VH_mirror_pos" "-sqrt(3)*(3/80 + sqrt(229)/80)"
          "-37/80 + sqrt(229)/80"
          (-0.3926630275978783) (-0.27340925686527045) "vesica_hexagon" 0;
    coord "VH_mirror_neg" "-sqrt(3)*(3/80 - sqrt(229)/80)"
          "-37/80 + sqrt(229)/80"
          0.26274319339287395 (-0.27340925686527045) "vesica_hexagon" 0 ].

Definition ALL_HIDDEN_STAR : list FrozenCoordinate :=
  [ coord "HST_pos" "7/40 - sqrt(2)/4" "-3/8"
          (-0.17855339059327378) (-0.375) "hidden_star_triangle" 0;
    coord "HST_neg" "-(7/40 - sqrt(2)/4)" "-3/8"
          0.17855339059327378 (-0.375) "hidden_star_triangle" 0 ].

Definition ALL_RSL_ELECTRODES : list FrozenCoordinate :=
  [ coord "RSL_E1" "sqrt(3)/4" "0" 0.4330127018922193 0 "rsl" 1;
    coord "RSL_E2" "sqrt(3)/8" "3/8" 0.21650635094610966 0.375 "rsl" 2;
    coord "RSL_E3" "-sqrt(3)/8" "3/8" (-0.21650635094610966) 0.375 "rsl" 3;
    coord "RSL_E4" "-sqrt(3)/4" "0" (-0.4330127018922193) 0 "rsl" 4;
    coord "RSL_E5" "-sqrt(3)/8" "-3/8"
          (-0.21650635094610966) (-0.375) "rsl" 5;
    coord "RSL_E6" "sqrt(3)/8" "-3/8"
          0.21650635094610966 (-0.375) "rsl" 6 ].

Definition ALL_COORDINATES : list FrozenCoordinate :=
  ALL_TRIANGLE_HEXAGON ++ ALL_VESICA_HEXAGON ++ ALL_HIDDEN_STAR
    ++ ALL_RSL_ELECTRODES.

Definition LEIV_THRESHOLD_STAGE_0 : string := "18/1000".
Definition LEIV_THRESHOLD_ADVANCED : string := "8/100".

Definition VIDUYA_CONSTANTS_HASH : string :=
  "a8f3b2c1d4e5f6a7b8c9d0e1f2a3b4c5d6e7f8a9b0c1d2e3f4a5b6c7d8e9f0a1".

(** The module's constants, as the two functions below read them. *)
Record table : Type := {
  coordinates : list FrozenCoordinate;
  threshold_stage_0 : string;
  threshold_advanced : string
}.

Definition frozen_table : table :=
  {| coordinates := ALL_COORDINATES;
     threshold_stage_0 := LEIV_THRESHOLD_STAGE_0;
     threshold_advanced := LEIV_THRESHOLD_ADVANCED |}.

(** ["|".join(data)] *)
Fixpoint join (sep : string) (l : list string) : string :=
  match l with
  | [] => ""
  | [s] => s
  | s :: rest => (s ++ sep ++ join sep rest)%string
  end.

Definition _compute_constants_hash (t : table) : string :=
  let data :=
    map (fun c => (name c ++ ":" ++ x_symbolic c ++ ":" ++ y_symbolic c)%string)
        (coordinates t)
    ++ [("THRESHOLDS:" ++ threshold_stage_0 t ++ ":"
         ++ threshold_advanced t)%string] in
  let payload := join "|" data in
  Sha256.sha256_hex (Sha256.bytes_of_string payload).

Definition verify_constants_integrity (t : table) : bool * string :=
  let computed := _compute_constants_hash t in
  (true, computed).

End Constants.

(** ** backend/routers/evg.py *)
Module Evg.

(** The files on disk: path to content. *)
Abbreviation filesystem := (gmap string (list Z)).

Inductive response : Type :=
| Response (body : pydict)
| HTTPException (status_code : Z) (detail : string).

(** An upload: its name, and what [await file.read()] yields (the content,
    or the message of the exception it raises). *)
Record UploadFile : Type := {
  filename : string;
  read : result string (list Z)
}.

Fixpoint list_prefix (p l : list ascii) : bool :=
  match p, l with
  | [], _ => true
  | a :: p', b :: l' => Ascii.eqb a b && list_prefix p' l'
  | _ :: _, [] => false
  end.

(** [s.endswith(suffix)] *)
Definition endswith (s suffix : string) : bool :=
  list_prefix (rev (list_ascii_of_string suffix))
              (rev (list_ascii_of_string s)).

Section Endpoint.
(** [process_patient_edf(path)] on a given disk: the result dictionary,
    or the message of the exception raised. *)
Variable process_patient_edf : filesystem -> string -> result string pydict.
(** Construction of [EVGProcessingResponse] from the result: the
    validated body, or the message of the validation error. *)
Variable validate : pydict -> result string pydict.

(** State touched by the handler: the disk and the queue of background
    tasks (report, address). *)
Record world : Type := {
  disk : filesystem;
  tasks : list (pydict * string)
}.

Definition failed (msg : string) : response :=
  HTTPException 500 ("Processing failed: " ++ msg)%string.

(** [process_evg_file(file, background_tasks, notify_email)];
    [tmp_path] is the name [NamedTemporaryFile] picks, [has_tasks]
    whether a task queue was injected. *)
Definition process_evg_file (w : world) (tmp_path : string)
    (file : UploadFile) (has_tasks : bool) (notify_email : option string)
    : response * world :=
  if negb (endswith (filename file) ".edf") then
    (HTTPException 400 "Invalid file format. Please upload a .edf file.", w)
  else
    (* with NamedTemporaryFile(delete=False, suffix='.edf') as tmp *)
    let w1 := {| disk := <[tmp_path := []]> (disk w); tasks := tasks w |} in
    match read file with
    | Raise msg => (failed msg, w1)
    | Ok content =>
        let w2 := {| disk := <[tmp_path := content]> (disk w1);
                     tasks := tasks w1 |} in
        match process_patient_edf (disk w2) tmp_path with
        | Raise msg => (failed msg, w2)
        | Ok result =>
            (* os.unlink(tmp_path) *)
            let w3 := {| disk := delete tmp_path (disk w2);
                         tasks := tasks w2 |} in
            let w4 :=
              match notify_email with
              | Some email =>
                  if negb (String.eqb email "") && has_tasks
                  then {| disk := disk w3;
                          tasks := tasks w3 ++ [(result, email)] |}
                  else w3
              | None => w3
              end in
            match validate result with
            | Raise msg => (failed msg, w4)
            | Ok body => (Response body, w4)
            end
        end
    end.
End Endpoint.

End Evg.

(** ** ai_integrations/bayesian_fusion.py *)
Module Fusion.
Import PyFloat.

(** *** The string methods used on stage labels (ASCII) *)

Definition is_upper (c : ascii) : bool :=
  let n := nat_of_ascii c in (65 <=? n)%nat && (n <=? 90)%nat.
Definition is_lower (c : ascii) : bool :=
  let n := nat_of_ascii c in (97 <=? n)%nat && (n <=? 122)%nat.
Definition to_lower (c : ascii) : ascii :=
  if is_upper c then ascii_of_nat (nat_of_ascii c + 32) else c.
Definition to_upper (c : ascii) : ascii :=
  if is_lower c then ascii_of_nat (nat_of_ascii c - 32) else c.

Fixpoint map_string (f : ascii -> ascii) (s : string) : string :=
  match s with
  | EmptyString => EmptyString
  | String c rest => String (f c) (map_string f rest)
  end.

(** [s.lower()] *)
Definition lower (s : string) : string := map_string to_lower s.

(** [needle in hay] *)
Fixpoint contains (needle hay : string) : bool :=
  if String.prefix needle hay then true
  else match hay with
       | EmptyString => false
       | String _ rest => contains needle rest
       end.

(** [s.replace('_', ' ')] *)
Definition replace_underscores (s : string) : string :=
  map_string (fun c => if Ascii.eqb c "_" then " "%char else c) s.

(** [s.title()] *)
Fixpoint title_from (prev_cased : bool) (s : string) : string :=
  match s with
  | EmptyString => EmptyString
  | String c rest =>
      if is_lower c then
        String (if prev_cased then c else to_upper c) (title_from true rest)
      else if is_upper c then
        String (if prev_cased then to_lower c else c) (title_from true rest)
      else String c (title_from false rest)
  end.
Definition title (s : string) : string := title_from false s.

(** *** Truthiness and numbers *)

Definition truthy (v : pyval) : bool :=
  match v with
  | PNone => false
  | PBool b => b
  | PInt z => negb (z =? 0)%Z
  | PFloat f => negb (is_zero f)
  | PDecimal d => negb (PyDecimal.eqb d (PyDecimal.DFin 0))
  | PStr s => negb (String.eqb s "")
  | PList l => match l with [] => false | _ => true end
  | PDict d => match d with [] => false | _ => true end
  end.

(** The float that [v / 100.0] starts from. *)
Definition as_float (v : pyval) : result exn pyfloat :=
  match v with
  | PFloat f => Ok f
  | PInt z =>
      match fl (inject_Z z) with
      | FFin q => Ok (FFin q)
      | _ => Raise OverflowError
      end
  | PBool b => Ok (FFin (if b then 1 else 0))
  | _ => Raise TypeError
  end.

Record PlatformContribution : Type := {
  platform : pyval;
  raw_confidence : pyfloat;
  concordance_with_leiv : pyfloat;
  adjusted_weight : pyfloat;
  contribution_to_final : pyfloat
}.

Record FusionResult : Type := {
  final_confidence : pyfloat;
  final_diagnosis : string;
  lei_v_anchor_contribution : pyfloat;
  platform_contributions : list PlatformContribution;
  prior_probability : pyfloat;
  posterior_probability : pyfloat;
  evidence_strength : string;
  audit_hash : string;
  citation : string
}.

Record BayesianFusionEngine : Type := { hasher : Audit.AuditHasher }.

Definition new : BayesianFusionEngine := {| hasher := Audit.new None |}.

Definition STAGE_PRIORS : gmap string pyfloat :=
  list_to_map
    [("healthy", lit 0.05); ("stage_0_early", lit 0.70);
     ("stage_i_minimal", lit 0.85); ("stage_ii_mild", lit 0.90);
     ("stage_iii_moderate", lit 0.95); ("stage_iv_severe", lit 0.98)].

Definition PLATFORM_RELIABILITY : gmap string pyfloat :=
  list_to_map
    [("med_gemini", lit 0.85); ("aidoc", lit 0.90); ("tempus", lit 0.75);
     ("viz_ai", lit 0.80); ("openevidence", lit 0.70)].

Definition _calculate_leiv_weight (lei_v confidence : pyfloat)
    : result exn pyfloat :=
  let threshold_distance :=
    fmin (fabs (fsub lei_v (lit 0.018))) (fabs (fsub lei_v (lit 0.08))) in
  let clarity_factor := fmin (lit 1) (fmul threshold_distance (lit 20)) in
  match fdiv confidence (lit 100) with
  | None => Raise ZeroDivisionError
  | Some c =>
      Ok (fmul c (fadd (lit 0.5) (fmul (lit 0.5) clarity_factor)))
  end.

Definition _get_severity_level (stage : string) : Z :=
  let stage_lower := lower stage in
  if contains "healthy" stage_lower || contains "normal" stage_lower then 0
  else if contains "stage_0" stage_lower || contains "early" stage_lower
          || contains "minimal" stage_lower then 1
  else if contains "stage_i" stage_lower || contains "mild" stage_lower then 2
  else if contains "stage_ii" stage_lower || contains "moderate" stage_lower
  then 3
  else if contains "stage_iii" stage_lower || contains "stage_iv" stage_lower
          || contains "severe" stage_lower then 4
  else 2.

(** [result.get("stage", result.get("classification", ""))] *)
Definition platform_stage_of (r : pydict) : pyval :=
  default (default (PStr "") (dict_get "classification" r))
          (dict_get "stage" r).

Definition _calculate_concordance (r : pydict) (lei_v_stage : string)
    : result exn pyfloat :=
  let platform_stage := platform_stage_of r in
  if negb (truthy platform_stage) then Ok (lit 0.5)
  else
    let lei_v_severity := _get_severity_level lei_v_stage in
    match platform_stage with
    | PStr s =>
        let diff := Z.abs (lei_v_severity - _get_severity_level s) in
        Ok (if (diff =? 0)%Z then lit 1
            else if (diff =? 1)%Z then lit 0.7
            else if (diff =? 2)%Z then lit 0.4
            else lit 0.2)
    | _ => Raise AttributeError
    end.

(** [self.PLATFORM_RELIABILITY.get(platform, 0.5)] *)
Definition reliability_of (p : pyval) : result exn pyfloat :=
  match p with
  | PStr s => Ok (default (lit 0.5) (PLATFORM_RELIABILITY !! s))
  | PList _ | PDict _ => Raise TypeError
  | _ => Ok (lit 0.5)
  end.

Definition _determine_diagnosis (lei_v_stage : string) (posterior : pyfloat)
    : string :=
  let confidence_qualifier :=
    if fgt posterior (lit 0.85) then "high"
    else if fgt posterior (lit 0.70) then "moderate" else "low" in
  (title (replace_underscores lei_v_stage) ++ " (" ++ confidence_qualifier
   ++ " confidence) - LEI-V anchored")%string.

(** A platform result that agrees with the LEI-V stage: its stage label has
    the severity level of [lei_v_stage], its confidence is a number of at
    least [floor], and its platform name can be looked up. *)
Definition concordant (lei_v_stage : string) (floor : pyfloat) (r : pydict)
    : bool :=
  match platform_stage_of r,
        as_float (default (PFloat (lit 0)) (dict_get "confidence" r)),
        reliability_of (default (PStr "unknown") (dict_get "platform" r)) with
  | PStr s, Ok c, Ok _ =>
      (_get_severity_level s =? _get_severity_level lei_v_stage)%Z
      && fle floor c
  | _, _, _ => false
  end.

(** A platform result on which the loop body runs through: the confidence
    is a number that is not negative, the stage label is a string or
    missing, and the platform name can be looked up. *)
Definition well_formed (lei_v_stage : string) (r : pydict) : bool :=
  match as_float (default (PFloat (lit 0)) (dict_get "confidence" r)),
        _calculate_concordance r lei_v_stage,
        reliability_of (default (PStr "unknown") (dict_get "platform" r)) with
  | Ok c, Ok _, Ok _ => negb (is_neg c)
  | _, _, _ => false
  end.

(** One turn of the loop over [platform_results]. *)
Definition fuse_step (lei_v_stage : string)
    (acc : list PlatformContribution * pyfloat) (r : pydict)
    : result exn (list PlatformContribution * pyfloat) :=
  let platform := default (PStr "unknown") (dict_get "platform" r) in
  c ← as_float (default (PFloat (lit 0)) (dict_get "confidence" r));
  match fdiv c (lit 100) with
  | None => Raise ZeroDivisionError
  | Some raw_conf =>
      concordance ← _calculate_concordance r lei_v_stage;
      reliability ← reliability_of platform;
      let adjusted_weight := fmul reliability concordance in
      let platform_likelihood := fmul raw_conf adjusted_weight in
      Ok (fst acc ++
            [{| platform := platform;
                raw_confidence := fmul raw_conf (lit 100);
                concordance_with_leiv := concordance;
                adjusted_weight := adjusted_weight;
                contribution_to_final := platform_likelihood |}],
          fmul (snd acc) (fadd (lit 1) platform_likelihood))
  end.

Fixpoint fuse_loop (lei_v_stage : string)
    (acc : list PlatformContribution * pyfloat) (rs : list pydict)
    : result exn (list PlatformContribution * pyfloat) :=
  match rs with
  | [] => Ok acc
  | r :: rest =>
      acc' ← fuse_step lei_v_stage acc r;
      fuse_loop lei_v_stage acc' rest
  end.

Section Fuse.
Context {RT : PyRuntime}.

(** [fuse(lei_v_value, lei_v_stage, lei_v_confidence, platform_results)];
    the hasher reads the clock at [t1] and [t2]. *)
Definition fuse (eng : BayesianFusionEngine) (t1 t2 : datetime)
    (lei_v_value : pyfloat) (lei_v_stage : string)
    (lei_v_confidence : pyfloat) (platform_results : list pydict)
    : result exn FusionResult * BayesianFusionEngine :=
  let prior := default (lit 0.5) (STAGE_PRIORS !! lei_v_stage) in
  match
    lei_v_weight ← _calculate_leiv_weight lei_v_value lei_v_confidence;
    let lei_v_contribution := fmul prior lei_v_weight in
    acc ← fuse_loop lei_v_stage ([], lit 1) platform_results;
    let contributions := fst acc in
    let unnormalized_posterior := fmul lei_v_contribution (snd acc) in
    match fdiv unnormalized_posterior
               (fadd unnormalized_posterior (lit 0.1)) with
    | None => Raise ZeroDivisionError
    | Some ratio =>
        let posterior := fmin (lit 0.99) ratio in
        Ok (lei_v_contribution, contributions, posterior)
    end
  with
  | Raise e => (Raise e, eng)
  | Ok (lei_v_contribution, contributions, posterior) =>
      let final_confidence := fmul posterior (lit 100) in
      let final_diagnosis := _determine_diagnosis lei_v_stage posterior in
      let evidence_strength :=
        if (3 <=? length contributions)%nat
           && forallb (fun c => fgt (concordance_with_leiv c) (lit 0.7))
                      contributions
        then "strong"
        else if (2 <=? length contributions)%nat
                && fgt posterior (lit 0.75)
        then "moderate"
        else "weak" in
      let audit_data :=
        [("lei_v", PFloat lei_v_value);
         ("lei_v_stage", PStr lei_v_stage);
         ("posterior", PFloat posterior);
         ("platforms", PList (map platform contributions))] in
      let '(audit_hash, hasher') :=
        Audit.hash_computation (hasher eng) t1 t2 audit_data in
      (Ok {| final_confidence := final_confidence;
             final_diagnosis := final_diagnosis;
             lei_v_anchor_contribution := lei_v_contribution;
             platform_contributions := contributions;
             prior_probability := prior;
             posterior_probability := posterior;
             evidence_strength := evidence_strength;
             audit_hash := audit_hash;
             citation := "Viduya Family Legacy Glyph © 2025" |},
       {| hasher := hasher' |})
  end.
End Fuse.

End Fusion.

(** ** hardware/rsl_placement.py *)
Module Placement.
Import Rounding Radical PyFloat.

Record ElectrodePosition : Type := {
  electrode_number : Z;
  glyph_x : radical;
  glyph_y : radical;
  anatomical_x_cm : pyfloat;
  anatomical_y_cm : pyfloat;
  angle_degrees : pyfloat;
  description : string
}.

Record PatientAnthropometry : Type := {
  inter_asis_distance_cm : pyfloat;
  pubis_umbilicus_distance_cm : pyfloat;
  patient_id : string;
  measurement_date : string
}.

Definition GLYPH_RADIUS : radical := rscale (1 # 4) (sqrt_pos 3).

(** [x.evalf()]: a 15-digit, 53-bit sympy [Float]. *)
Definition evalf15 (x : radical) : Q := Radical.evalf 53 x.

(** [24.0 / float(GLYPH_RADIUS.evalf())], evaluated when the class is
    defined. *)
Definition DEFAULT_SCALE_FACTOR : option pyfloat :=
  fdiv (lit 24) (fl (evalf15 GLYPH_RADIUS)).

Definition _get_scale_factor (anthropometry : option PatientAnthropometry)
    : result exn pyfloat :=
  match anthropometry with
  | Some a =>
      match fdiv (inter_asis_distance_cm a)
                 (fl (round_bin 53 (evalf15 GLYPH_RADIUS * 2))) with
      | Some s => Ok s
      | None => Raise ZeroDivisionError
      end
  | None =>
      match DEFAULT_SCALE_FACTOR with
      | Some s => Ok s
      | None => Raise ZeroDivisionError
      end
  end.

(** [round(f, ndigits)] *)
Definition py_round (f : pyfloat) (ndigits : Z) : pyfloat :=
  match f with
  | FFin q => fl (round_at 10 (- ndigits) q)
  | _ => f
  end.

Definition descriptions : list string :=
  ["Right lateral pelvic (3 o'clock)";
   "Right superior pelvic (1 o'clock)";
   "Left superior pelvic (11 o'clock)";
   "Left lateral pelvic (9 o'clock)";
   "Left inferior pelvic (7 o'clock)";
   "Right inferior pelvic (5 o'clock)"].

(** The body of the loop of [_build_electrode_positions] at index [i]. *)
Definition build_electrode (anthropometry : option PatientAnthropometry)
    (i : nat) : result exn ElectrodePosition :=
  let angle_deg := fl (inject_Z (Z.of_nat i) * 60) in
  let gx := rmul GLYPH_RADIUS (cos_pi3 (Z.of_nat i)) in
  let gy := rmul GLYPH_RADIUS (sin_pi3 (Z.of_nat i)) in
  scale ← _get_scale_factor anthropometry;
  let anat_x := fmul (fl (evalf15 gx)) scale in
  let anat_y := fmul (fl (evalf15 gy)) scale in
  Ok {| electrode_number := Z.of_nat i + 1;
        glyph_x := simplify gx;
        glyph_y := simplify gy;
        anatomical_x_cm := py_round anat_x 2;
        anatomical_y_cm := py_round anat_y 2;
        angle_degrees := angle_deg;
        description := nth i descriptions "" |}.

Fixpoint build_from (anthropometry : option PatientAnthropometry)
    (acc : list ElectrodePosition) (indices : list nat)
    : result exn (list ElectrodePosition) :=
  match indices with
  | [] => Ok acc
  | i :: rest =>
      e ← build_electrode anthropometry i;
      build_from anthropometry (acc ++ [e]) rest
  end.

(** [RSLPlacement(anthropometry)._electrodes] *)
Definition _build_electrode_positions
    (anthropometry : option PatientAnthropometry)
    : result exn (list ElectrodePosition) :=
  build_from anthropometry [] (seq 0 6).

(** The stored anatomical positions, electrode by electrode. *)
Definition stored_positions (es : list ElectrodePosition)
    : list (pyfloat * pyfloat) :=
  map (fun e => (anatomical_x_cm e, anatomical_y_cm e)) es.

(** Squared distance of the stored anatomical position from the centre,
    when both coordinates are finite. *)
Definition anatomical_distance_sq (e : ElectrodePosition) : option Q :=
  match anatomical_x_cm e, anatomical_y_cm e with
  | FFin a, FFin b => Some (a * a + b * b)
  | _, _ => None
  end.

(** The stored position lies between [lo] and [hi] cm from the centre. *)
Definition distance_within (lo hi : Q) (e : ElectrodePosition) : bool :=
  match anatomical_distance_sq e with
  | Some q => Qle_bool (lo * lo) q && Qle_bool q (hi * hi)
  | None => false
  end.

End Placement.

(** ** Bounds on floats *)
Module FloatBounds.
Import Rounding PyFloat.

(** The scale at which [fl] rounds a positive number. *)
Definition fl_scale (q : Q) : Z := Z.max (ilog2 q - 52) emin.

End FloatBounds.

(** ** Stages past Stage-0 *)
Module StageFacts.
Import LeiV.

(** The stages whose confidence is computed by the last branch of
    [_calculate_confidence]. *)
Definition advanced (st : DiagnosticStage) : bool :=
  match st with HEALTHY | STAGE_0 => false | _ => true end.

End StageFacts.

(** ** core/lei_v.py: the rotation check *)
Module LeiVChecks.
Import LeiV.

Section RotationInvariance.
Context {E : Type} {EX : Exact E}.
(** [x == 0] on expressions. *)
Variable is_zero : E -> bool.

(** [verify_rotation_invariance(radial_distances, rotation_angle)] *)
Definition verify_rotation_invariance (radial_distances : list E)
    (rotation_angle : E) : bool * E :=
  let original_lei_v :=
    ex_sum
      (map (fun r =>
              let d := ex_sub r (ex_div (ex_sum radial_distances) (ex_int 6)) in
              ex_mul d d)
           radial_distances) in
  let drift := simplify (ex_sub original_lei_v original_lei_v) in
  (is_zero drift, drift).

End RotationInvariance.

(** Six radii of a recording, as rationals ([sp.Rational(str(r))]). *)
Definition example_radii : list Qc :=
  map Q2Qc [0.433; 0.435; 0.431; 0.434; 0.432; 0.433].

End LeiVChecks.

(** ** backend/routers/assessments.py *)
Module Assessments.
Import PyFloat.

(** [_get_next_steps(stage, confidence)] *)
Definition _get_next_steps (stage : string) (confidence : pyfloat)
    : list string :=
  let steps :=
    if String.eqb stage "healthy" then
      ["Continue routine monitoring"; "Annual follow-up recommended"]
    else if String.eqb stage "stage_0_early" then
      ["96-hour V-CAW EVG confirmation";
       "Saliva miRNA panel (selected biomarkers)";
       "Gynecology specialist referral";
       "Consider medical management trial"]
    else
      ["Immediate specialist referral";
       "TVUS/MRI imaging recommended";
       "Laparoscopic evaluation discussion";
       "Pain management consultation"] in
  if flt confidence (lit 80)
  then "Repeat assessment recommended (low confidence)" :: steps
  else steps.

End Assessments.

(** ** core/audit.py: export of the chain, and writes from outside *)
Module AuditExport.
Import Audit.

Section WithRuntime.
Context {RT : PyRuntime}.

(** [AuditEntry.to_dict()] *)
Definition to_dict (e : AuditEntry) : pydict :=
  [("entry_hash", PStr (entry_hash e));
   ("previous_hash", PStr (previous_hash e));
   ("timestamp", PStr (isoformat (timestamp e)));
   ("data_type", data_type e);
   ("data_summary", PStr (data_summary e))].

(** [get_chain()] *)
Definition get_chain (h : AuditHasher) : list pydict :=
  map to_dict (_chain h).

(** The dictionary that [export_for_ipfs()] serialises, the clock being
    read at [t]. *)
Definition export_data (h : AuditHasher) (t : datetime) : pydict :=
  [("chain", PList (map PDict (get_chain h)));
   ("chain_length", PInt (Z.of_nat (length (_chain h))));
   ("last_hash", PStr (_last_hash h));
   ("citation", PStr CITATION);
   ("exported_at", PStr (isoformat t))].

End WithRuntime.

(** A hasher whose stored chain has been replaced from outside. *)
Definition with_chain (chain : list AuditEntry) (h : AuditHasher)
    : AuditHasher :=
  {| _secret_key := _secret_key h;
     _chain := chain;
     _last_hash := _last_hash h |}.

(** An entry whose own hash has been replaced. *)
Definition with_entry_hash (x : string) (e : AuditEntry) : AuditEntry :=
  {| entry_hash := x;
     previous_hash := previous_hash e;
     timestamp := timestamp e;
     data_type := data_type e;
     data_summary := data_summary e |}.

(** A hasher that computes plain SHA-256: no key, or the empty key. *)
Definition unkeyed (h : AuditHasher) : bool :=
  match _secret_key h with
  | Some (_ :: _) => false
  | _ => true
  end.

End AuditExport.

(** ** ai_integrations/bayesian_fusion.py: example platform results *)
Module FusionExamples.

Definition platform_result (name : string) (c : Q) (label : string) : pydict :=
  [("platform", PStr name); ("confidence", PFloat (PyFloat.lit c));
   ("stage", PStr label)].

(** Two platforms agree with Stage-0, one reports the neighbouring stage. *)
Definition mixed_results : list pydict :=
  [platform_result "aidoc" 85 "early"; platform_result "tempus" 80 "Stage_0";
   platform_result "viz_ai" 92 "mild"].

End FusionExamples.

(** ** core/viduya_glyph.py: rotation of a coordinate *)
Module GlyphOps.
Import Radical Glyph.

(** [rotate(angle)] for the angle [k * pi / 3]. *)
Definition rotate (c : GlyphCoordinate) (k : Z) : GlyphCoordinate :=
  let cos_a := cos_pi3 k in
  let sin_a := sin_pi3 k in
  let new_x := rsub (rmul (x c) cos_a) (rmul (y c) sin_a) in
  let new_y := radd (rmul (x c) sin_a) (rmul (y c) cos_a) in
  {| x := simplify new_x;
     y := simplify new_y;
     layer := layer c;
     name := (name c ++ "_rotated")%string;
     electrode_index := electrode_index c |}.

End GlyphOps.

(** ** hardware/rsl_placement.py: access and symmetry check *)
Module PlacementOps.
Import Rounding Radical PyFloat Placement.

Inductive placement_exn : Type :=
| Exn (e : exn)
| IndexError.

(** [get_electrode(number)] on the stored list of electrodes. *)
Definition get_electrode (es : list ElectrodePosition) (number : Z)
    : result placement_exn ElectrodePosition :=
  if (number <? 1)%Z || (6 <? number)%Z then
    Raise (Exn (ValueError "Electrode number must be 1-6"))
  else
    match es !! Z.to_nat (number - 1) with
    | Some e => Ok e
    | None => Raise IndexError
    end.

(** The position that the loop of [_build_electrode_positions] stores at
    index [i] once [_get_scale_factor()] has returned [scale]. *)
Definition scaled_electrode (scale : pyfloat) (i : nat) : ElectrodePosition :=
  let gx := rmul GLYPH_RADIUS (cos_pi3 (Z.of_nat i)) in
  let gy := rmul GLYPH_RADIUS (sin_pi3 (Z.of_nat i)) in
  {| electrode_number := Z.of_nat i + 1;
     glyph_x := Radical.simplify gx;
     glyph_y := Radical.simplify gy;
     anatomical_x_cm := py_round (fmul (fl (evalf15 gx)) scale) 2;
     anatomical_y_cm := py_round (fmul (fl (evalf15 gy)) scale) 2;
     angle_degrees := fl (inject_Z (Z.of_nat i) * 60);
     description := nth i descriptions "" |}.

Section Verify.
(** [str] of an integer, for the message. *)
Variable str_int : Z -> string.

(** The loop over [enumerate(radii[1:], 1)]. *)
Fixpoint check_radii (r0 : radical) (i : Z) (radii : list radical)
    : bool * string :=
  match radii with
  | [] =>
      (true,
       "C₃ × D₆ symmetry verified. Citation: Viduya Family Legacy Glyph © 2025")
  | r :: rest =>
      let diff := Radical.simplify (rsub r r0) in
      if negb (Radical.is_zero diff) then
        (false, ("Radius mismatch at electrode " ++ str_int (i + 1))%string)
      else check_radii r0 (i + 1)%Z rest
  end.

(** [verify_symmetry()] on the stored list; [None] when a radius leaves
    the number domain of this model. *)
Definition verify_symmetry (es : list ElectrodePosition)
    : option (result placement_exn (bool * string)) :=
  radii ← mapM (fun e =>
                  rsqrt (radd (rmul (glyph_x e) (glyph_x e))
                              (rmul (glyph_y e) (glyph_y e)))) es;
  match radii with
  | [] => Some (Raise IndexError)
  | r0 :: rest => Some (Ok (check_radii r0 1 rest))
  end.
End Verify.

End PlacementOps.

(** ** backend/routers/fhir.py *)
Module Fhir.
Import Fusion.

(** How a handler ends when it does not return: an [HTTPException], or an
    exception nobody catches. *)
Inductive failure : Type :=
| HTTPException (status_code : Z) (detail : string)
| Uncaught (e : exn).

Section WithRuntime.
Context {RT : PyRuntime}.

(** [create_leiv_observation(...)]: the fields of the [FHIRObservation]
    it builds, defaults included, in the order of the class. *)
Definition create_leiv_observation (observation_id patient_id : string)
    (lei_v : PyFloat.pyfloat) (stage : string) (timestamp : datetime)
    : pydict :=
  [("resourceType", PStr "Observation");
   ("id", PStr observation_id);
   ("status", PStr "final");
   ("category",
    PList [PDict [("coding",
      PList [PDict
        [("system",
          PStr "http://terminology.hl7.org/CodeSystem/observation-category");
         ("code", PStr "laboratory");
         ("display", PStr "Laboratory")]])]]);
   ("code",
    PDict [("coding",
      PList [PDict
        [("system",
          PStr "http://endochain.org/fhir/CodeSystem/viduya-codes");
         ("code", PStr "VIDUYA-LEI-V");
         ("display", PStr "Lesion Entropy Index - Viduya variant")]]);
      ("text", PStr "LEI-V (Viduya Family Legacy Glyph © 2025)")]);
   ("subject", PDict [("reference", PStr ("Patient/" ++ patient_id))]);
   ("effectiveDateTime", PStr (isoformat timestamp));
   ("valueQuantity",
    PDict [("value", PFloat lei_v);
           ("unit", PStr "entropy units");
           ("system", PStr "http://endochain.org/fhir/units");
           ("code", PStr "LEI-V")]);
   ("interpretation",
    PList [PDict [("coding",
      PList [PDict
        [("system",
          PStr "http://endochain.org/fhir/CodeSystem/lei-v-interpretation");
         ("code", PStr stage);
         ("display", PStr (title (replace_underscores stage)))]])]]);
   ("note",
    PList [PDict [("text",
      PStr "Computed using Viduya Legacy Glyph geometry. Citation: Viduya Family Legacy Glyph © 2025")]])].

End WithRuntime.

(** The loop over the required fields of an Observation. *)
Definition missing_fields (resource : pydict) : list string :=
  flat_map
    (fun field =>
       if dict_has field resource then []
       else [("Missing required field: " ++ field)%string])
    ["status"; "code"; "subject"].

(** [validate_fhir_resource(resource)] *)
Definition validate_fhir_resource (resource : pydict)
    : result failure pydict :=
  let resource_type := default PNone (dict_get "resourceType" resource) in
  if negb (truthy resource_type) then
    Raise (HTTPException 400 "Missing resourceType")
  else
    match resource_type with
    | PStr s =>
        let errors :=
          if String.eqb s "Observation" then missing_fields resource
          else [] in
        Ok [("valid", PBool (length errors =? 0)%nat);
            ("errors", PList (map PStr errors));
            ("warnings", PList []);
            ("profile",
             PStr ("http://hl7.org/fhir/StructureDefinition/" ++ s))]
    | _ => Raise (Uncaught TypeError)
    end.

End Fhir.

(** ** backend/middleware.py: rate limiting *)
Module RateLimit.

Record RateLimitMiddleware : Type := {
  requests_per_minute : Z;
  _request_counts : gmap string Z
}.

Inductive outcome : Type :=
| TooManyRequests
| Forwarded.

Definition outcome_eqb (a b : outcome) : bool :=
  match a, b with
  | TooManyRequests, TooManyRequests | Forwarded, Forwarded => true
  | _, _ => false
  end.

(** [RateLimitMiddleware(app, requests_per_minute)] *)
Definition new (requests_per_minute : Z) : RateLimitMiddleware :=
  {| requests_per_minute := requests_per_minute; _request_counts := ∅ |}.

(** [f"{client_ip}:{current_minute}"] *)
Definition key_of (client_ip current_minute : string) : string :=
  (client_ip ++ ":" ++ current_minute)%string.

Definition _cleanup_old_entries (counts : gmap string Z)
    (current_minute : string) : gmap string Z :=
  filter (fun kv => Evg.endswith kv.1 current_minute = true) counts.

(** [dispatch(request, call_next)] for a request of [client_ip] while the
    clock shows [current_minute]: answered with 429, or passed on. *)
Definition dispatch (m : RateLimitMiddleware)
    (client_ip current_minute : string) : outcome * RateLimitMiddleware :=
  let key := key_of client_ip current_minute in
  let count := default 0%Z (_request_counts m !! key) in
  if (requests_per_minute m <=? count)%Z then (TooManyRequests, m)
  else
    (Forwarded,
     {| requests_per_minute := requests_per_minute m;
        _request_counts :=
          _cleanup_old_entries (<[key := (count + 1)%Z]> (_request_counts m))
                               current_minute |}).

(** A sequence of requests (client, minute) through one middleware. *)
Fixpoint dispatch_all (m : RateLimitMiddleware)
    (requests : list (string * string))
    : list outcome * RateLimitMiddleware :=
  match requests with
  | [] => ([], m)
  | (client_ip, current_minute) :: rest =>
      let (o, m') := dispatch m client_ip current_minute in
      let (os, m'') := dispatch_all m' rest in
      (o :: os, m'')
  end.

(** How many of the requests of [client] were passed on. *)
Fixpoint forwarded_to (client : string) (requests : list (string * string))
    (outcomes : list outcome) : nat :=
  match requests, outcomes with
  | (c, _) :: rest, o :: os =>
      ((if String.eqb c client && outcome_eqb o Forwarded then 1 else 0)
       + forwarded_to client rest os)%nat
  | _, _ => 0%nat
  end.

End RateLimit.

(** ** hardware/openbci_evg.py: packets of the Cyton board *)
Module OpenBci.
Import PyFloat.

Inductive ChannelGain : Type :=
| GAIN_1 | GAIN_2 | GAIN_4 | GAIN_6 | GAIN_8 | GAIN_12 | GAIN_24.

Definition gain_value (g : ChannelGain) : Z :=
  match g with
  | GAIN_1 => 1 | GAIN_2 => 2 | GAIN_4 => 4 | GAIN_6 => 6
  | GAIN_8 => 8 | GAIN_12 => 12 | GAIN_24 => 24
  end%Z.

Record EVGChannel : Type := {
  channel_index : Z;
  value_uv : pyfloat;
  impedance_ohms : option pyfloat;
  channel_timestamp : datetime;
  channel_sample_number : Z
}.

Record EVGSample : Type := {
  channels : list EVGChannel;
  timestamp : datetime;
  sample_number : Z;
  v_caw_hour : option Z;
  cycle_day : option Z
}.

Inductive parse_exn : Type :=
| IndexError
| StructError
| ZeroDivision.

(** A byte value. *)
Definition is_byte (b : Z) : bool := (0 <=? b)%Z && (b <? 256)%Z.

(** A packet whose 24-bit samples all have the sign bit set. *)
Definition negative_packet : list Z :=
  ([160; 7] ++ concat (repeat [255; 255; 250] 6) ++ repeat 0 6 ++ [192])%Z.

(** [packet[lo:hi]] *)
Definition slice (packet : list Z) (lo hi : nat) : list Z :=
  take (hi - lo) (drop lo packet).

(** [struct.unpack('>i', b)[0]]: four bytes, big-endian, two's
    complement. *)
Definition unpack_int32_be (b : list Z) : result parse_exn Z :=
  match b with
  | [b0; b1; b2; b3] =>
      let u := (((b0 * 256 + b1) * 256 + b2) * 256 + b3)%Z in
      Ok (if (u <? 2 ^ 31)%Z then u else (u - 2 ^ 32)%Z)
  | _ => Raise StructError
  end.

(** The body of the loop over the six channels, at index [i]. *)
Definition parse_channel (gain : ChannelGain) (packet : list Z)
    (sample_count : Z) (t : datetime) (i : nat)
    : result parse_exn EVGChannel :=
  let offset := (2 + i * 3)%nat in
  raw ← unpack_int32_be (0%Z :: slice packet offset (offset + 3));
  match fdiv (fmul (fl (inject_Z raw)) (lit 4.5))
             (fl (inject_Z (gain_value gain * 2 ^ 23))) with
  | None => Raise ZeroDivision
  | Some q =>
      Ok {| channel_index := Z.of_nat i + 1;
            value_uv := fmul q (lit 1000000);
            impedance_ohms := None;
            channel_timestamp := t;
            channel_sample_number := sample_count |}
  end.

(** [_parse_packet(packet)], the clock showing [t]: the sample, if any, and
    the counter [_sample_count] afterwards. *)
Definition _parse_packet (gain : ChannelGain) (sample_count : Z)
    (t : datetime) (packet : list Z)
    : result parse_exn (option EVGSample) * Z :=
  match packet with
  | [] => (Raise IndexError, sample_count)
  | sync :: _ =>
      if negb (sync =? 160)%Z then (Ok None, sample_count)
      else
        let sample_count := (sample_count + 1)%Z in
        match mapM (parse_channel gain packet sample_count t) (seq 0 6) with
        | Raise e => (Raise e, sample_count)
        | Ok channels =>
            (Ok (Some {| channels := channels;
                         timestamp := t;
                         sample_number := sample_count;
                         v_caw_hour := None;
                         cycle_day := None |}),
             sample_count)
        end
  end.

End OpenBci.

(** ** hardware/signal_processor.py: drift of the index *)
Module SignalProcessor.
Import PyFloat.

Record LEIVDrift : Type := {
  current_lei_v : pyfloat;
  baseline_lei_v : pyfloat;
  drift_value : pyfloat;
  drift_percent : pyfloat;
  trend : string;
  timestamp : datetime
}.

(** [_compute_drift(current_lei_v)] with the stored baseline, the clock
    showing [t]. *)
Definition _compute_drift (baseline current : pyfloat) (t : datetime)
    : result exn LEIVDrift :=
  let drift_value := fsub current baseline in
  drift_percent ←
    (if negb (is_zero baseline) then
       match fdiv drift_value baseline with
       | Some q => Ok (fmul q (lit 100))
       | None => Raise ZeroDivisionError
       end
     else Ok (FFin 0));
  let trend :=
    if flt (fabs drift_percent) (lit 5) then "stable"
    else if fgt drift_value (lit 0) then "increasing"
    else "decreasing" in
  Ok {| current_lei_v := current;
        baseline_lei_v := baseline;
        drift_value := drift_value;
        drift_percent := drift_percent;
        trend := trend;
        timestamp := t |}.

End SignalProcessor.

(** * Properties *)

(** ** The library models agree with known values *)

Example sha256_abc :
  Sha256.sha256_hex (Sha256.bytes_of_string "abc")
  = "ba7816bf8f01cfea414140de5dae2223b00361a396177a9cb410ff61f20015ad".
Proof. vm_compute. reflexivity. Qed.

Example sha256_two_blocks :
  Sha256.sha256_hex
    (Sha256.bytes_of_string
       "abcdbcdecdefdefgefghfghighijhijkijkljklmklmnlmnomnopnopq")
  = "248d6a61d20638b8e5c026930c3e6039a33ce45964ff2167f6ecedd419db06c1".
Proof. vm_compute. reflexivity. Qed.

Example hmac_sha256_rfc4231_case2 :
  Sha256.hmac_sha256_hex (Sha256.bytes_of_string "Jefe")
    (Sha256.bytes_of_string "what do ya want for nothing?")
  = "5bdcc146bf60754e6a042426089575c75a003f089d2739839dec58b964ec3843".
Proof. vm_compute. reflexivity. Qed.

Example float_of_tenth :
  PyFloat.fl 0.1 = PyFloat.FFin (3602879701896397 # 36028797018963968)
  /\ PyFloat.repr_value (3602879701896397 # 36028797018963968) = 0.1.
Proof. split; vm_compute; reflexivity. Qed.

Example float_limits :
  PyFloat.fl (Qpower 2 1024) = PyFloat.FInf false
  /\ PyFloat.fl (Qpower 2 (-1075)) = PyFloat.FFin 0
  /\ PyFloat.fl (3 * Qpower 2 (-1076)) = PyFloat.FFin (Qred (Qpower 2 (-1074))).
Proof. repeat split; vm_compute; reflexivity. Qed.

Example glyph_radius_float :
  PyFloat.repr_value (Radical.evalf 53 Placement.GLYPH_RADIUS)
  = 0.4330127018922193.
Proof. vm_compute. reflexivity. Qed.

Section AuditProperties.
Import Sha256 Audit.
Context {RT : PyRuntime}.

Lemma hex_digit_is_hex (n : Z) : is_hex (hex_digit n) = true.
Proof.
  unfold hex_digit.
  destruct (Z.land n 15) as [|p|p]; try reflexivity.
  do 4 (destruct p as [p|p|]; try reflexivity).
Qed.

Lemma word_hex_is_hex (w : Z) (rest : string) :
  forallb is_hex (list_ascii_of_string (word_hex w rest))
  = forallb is_hex (list_ascii_of_string rest).
Proof.
  unfold word_hex. cbn [list_ascii_of_string forallb].
  rewrite !hex_digit_is_hex. reflexivity.
Qed.

Lemma word_hex_length (w : Z) (rest : string) :
  String.length (word_hex w rest) = (8 + String.length rest)%nat.
Proof. reflexivity. Qed.

Lemma state_hex_is_hexdigest (s : state) : is_hexdigest (state_hex s) = true.
Proof.
  unfold is_hexdigest, state_hex.
  rewrite !word_hex_is_hex, !word_hex_length. reflexivity.
Qed.

Lemma hash_computation_digest h t1 t2 data :
  is_hexdigest (fst (hash_computation h t1 t2 data)) = true.
Proof.
  unfold hash_computation. cbn [fst].
  destruct (_secret_key h) as [[|b key]|]; apply state_hex_is_hexdigest.
Qed.


Lemma verify_from_app g c e :
  verify_from g (c ++ [e])
  = verify_from g c && String.eqb (previous_hash e) (chain_tip g c).
Proof.
  revert g. induction c as [|e0 c IH]; intros g; cbn.
  - destruct (String.eqb (previous_hash e) g); reflexivity.
  - destruct (String.eqb (previous_hash e0) g); cbn; [apply IH | reflexivity].
Qed.

Lemma chain_tip_app g c e : chain_tip g (c ++ [e]) = entry_hash e.
Proof. unfold chain_tip. rewrite fold_left_app. reflexivity. Qed.

Lemma new_well_linked key : well_linked (new key).
Proof. split; reflexivity. Qed.

Lemma hash_computation_chain h t1 t2 data :
  exists e,
    _chain (snd (hash_computation h t1 t2 data)) = _chain h ++ [e]
    /\ previous_hash e = _last_hash h
    /\ entry_hash e = fst (hash_computation h t1 t2 data)
    /\ _last_hash (snd (hash_computation h t1 t2 data)) = entry_hash e
    /\ _secret_key (snd (hash_computation h t1 t2 data)) = _secret_key h.
Proof. eexists. cbn. repeat split; reflexivity. Qed.

Lemma hash_computation_well_linked h t1 t2 data :
  well_linked h -> well_linked (snd (hash_computation h t1 t2 data)).
Proof.
  intros [Hv Ht].
  destruct (hash_computation_chain h t1 t2 data) as (e & Hc & Hp & _ & Hl & _).
  split.
  - rewrite Hc, verify_from_app, Hv, Hp, Ht. cbn. apply String.eqb_refl.
  - rewrite Hc, chain_tip_app. exact Hl.
Qed.

Lemma hash_computations_cons h t1 t2 data rest :
  hash_computations h ((t1, t2, data) :: rest)
  = (fst (hash_computation h t1 t2 data)
       :: fst (hash_computations (snd (hash_computation h t1 t2 data)) rest),
     snd (hash_computations (snd (hash_computation h t1 t2 data)) rest)).
Proof.
  cbn [hash_computations].
  destruct (hash_computation h t1 t2 data) as [d h']. cbn [fst snd].
  destruct (hash_computations h' rest) as [ds h'']. reflexivity.
Qed.

Lemma hash_computations_well_linked calls : forall h,
  well_linked h -> well_linked (snd (hash_computations h calls)).
Proof.
  induction calls as [|[[t1 t2] data] rest IH]; intros h Hh; [exact Hh|].
  rewrite hash_computations_cons. cbn [snd].
  apply IH, hash_computation_well_linked, Hh.
Qed.

Lemma hash_computations_chain calls : forall h,
  exists es,
    _chain (snd (hash_computations h calls)) = _chain h ++ es
    /\ map entry_hash es = fst (hash_computations h calls)
    /\ length es = length calls.
Proof.
  induction calls as [|[[t1 t2] data] rest IH]; intros h.
  - exists []. cbn. rewrite app_nil_r. auto.
  - rewrite hash_computations_cons. cbn [fst snd].
    destruct (hash_computation_chain h t1 t2 data) as (e & Hc & _ & He & _).
    destruct (IH (snd (hash_computation h t1 t2 data))) as (es & Hes & Hm & Hl).
    exists (e :: es). rewrite Hes, Hc, <- app_assoc. cbn.
    rewrite He, Hm, Hl. auto.
Qed.

Lemma hash_computations_digests calls : forall h,
  forallb is_hexdigest (fst (hash_computations h calls)) = true.
Proof.
  induction calls as [|[[t1 t2] data] rest IH]; intros h; [reflexivity|].
  rewrite hash_computations_cons. cbn [fst forallb].
  rewrite hash_computation_digest. apply IH.
Qed.

Lemma hash_computations_prefix calls : forall h k,
  _chain (snd (hash_computations h (take k calls)))
  = take (length (_chain h) + k) (_chain (snd (hash_computations h calls))).
Proof.
  induction calls as [|[[t1 t2] data] rest IH]; intros h k.
  - rewrite take_nil. cbn. rewrite take_ge by lia. reflexivity.
  - destruct k as [|k].
    + destruct (hash_computations_chain ((t1, t2, data) :: rest) h)
        as (es & -> & _).
      rewrite Nat.add_0_r, take_app_length. reflexivity.
    + rewrite firstn_cons, !hash_computations_cons. cbn [snd].
      rewrite IH.
      destruct (hash_computation_chain h t1 t2 data) as (e & -> & _).
      rewrite length_app. cbn [length]. f_equal. lia.
Qed.

Lemma verify_from_links chain : forall g,
  verify_from g chain = true ->
  (forall e, chain !! 0%nat = Some e -> previous_hash e = g)
  /\ (forall n e e', chain !! n = Some e -> chain !! S n = Some e' ->
                     previous_hash e' = entry_hash e).
Proof.
  induction chain as [|e0 chain IH]; intros g Hv; cbn in Hv.
  - split; intros; discriminate.
  - destruct (String.eqb (previous_hash e0) g) eqn:Hg; [|discriminate].
    cbn in Hv. apply String.eqb_eq in Hg. destruct (IH _ Hv) as [H0 Hn].
    split.
    + intros e [= <-]. exact Hg.
    + intros [|n] e e' He He'.
      * injection He as <-. apply H0. exact He'.
      * exact (Hn n e e' He He').
Qed.

Lemma verify_from_tampered chain : forall g i e p,
  verify_from g chain = true ->
  chain !! i = Some e -> p <> previous_hash e ->
  verify_from g (alter (with_previous_hash p) i chain) = false.
Proof.
  induction chain as [|e0 chain IH]; intros g i e p Hv Hi Hp; [discriminate|].
  cbn in Hv.
  destruct (String.eqb (previous_hash e0) g) eqn:Hg; [|discriminate].
  cbn in Hv. apply String.eqb_eq in Hg.
  destruct i as [|i]; cbn.
  - injection Hi as <-.
    destruct (String.eqb p g) eqn:Hpg; [|reflexivity].
    apply String.eqb_eq in Hpg. congruence.
  - rewrite (proj2 (String.eqb_eq _ _) Hg). cbn. eapply IH; eauto.
Qed.

(** C4.  After any sequence of [hash_computation] calls on a fresh hasher
    (with or without an HMAC key): genesis is 64 zero characters and is the
    first entry's [previous_hash]; each entry's [previous_hash] is the
    [entry_hash] of the entry before it; every returned hash is a
    64-character hexadecimal digest and is the hash recorded in its entry;
    the chain after the first [k] calls is the first [k] entries of the final
    chain (nothing is removed or rewritten); [verify_chain_integrity] holds;
    and it fails as soon as one entry's [previous_hash] is replaced by any
    other value. *)
Theorem audit_chain_linked_append_only
    (key : option (list Z)) (calls : list (datetime * datetime * pydict)) :
  let h := snd (hash_computations (new key) calls) in
  let hashes := fst (hash_computations (new key) calls) in
  GENESIS_HASH
    = "0000000000000000000000000000000000000000000000000000000000000000"
  /\ (forall e, _chain h !! 0%nat = Some e -> previous_hash e = GENESIS_HASH)
  /\ (forall n e e', _chain h !! n = Some e -> _chain h !! S n = Some e' ->
                     previous_hash e' = entry_hash e)
  /\ forallb is_hexdigest hashes = true
  /\ map entry_hash (_chain h) = hashes
  /\ (forall k, _chain (snd (hash_computations (new key) (take k calls)))
                = take k (_chain h))
  /\ verify_chain_integrity h = true
  /\ (forall i e p, _chain h !! i = Some e -> p <> previous_hash e ->
                    verify_chain_integrity (tamper i p h) = false).
Proof.
  intros h hashes.
  pose proof (hash_computations_well_linked calls _ (new_well_linked key))
    as [Hv _].
  fold h in Hv.
  destruct (verify_from_links _ _ Hv) as [H0 Hn].
  destruct (hash_computations_chain calls (new key)) as (es & Hes & Hm & _).
  fold h in Hes. cbn in Hes.
  repeat split.
  - exact H0.
  - exact Hn.
  - apply hash_computations_digests.
  - rewrite Hes. exact Hm.
  - intros k. exact (hash_computations_prefix calls (new key) k).
  - unfold verify_chain_integrity. destruct (_chain h); [reflexivity | exact Hv].
  - intros i e p Hi Hp. unfold verify_chain_integrity, tamper. cbn [_chain].
    pose proof (verify_from_tampered _ _ _ _ _ Hv Hi Hp) as Hf.
    destruct (alter (with_previous_hash p) i (_chain h)) eqn:Ha; [|exact Hf].
    apply (f_equal length) in Ha. rewrite length_alter in Ha.
    apply lookup_lt_Some in Hi. cbn in Ha. lia.
Qed.

End AuditProperties.

Lemma audit_chain_linked_append_only_witness :
  let calls : list (datetime * datetime * pydict) :=
    [(1, 2, [("entry", PInt 1)]); (3, 4, [("entry", PInt 2)]);
     (5, 6, [("entry", PInt 3)])]%Z in
  let h := snd (Audit.hash_computations (RT := example_runtime)
                  (Audit.new None) calls) in
  Audit.verify_chain_integrity h = true
  /\ Audit.verify_chain_integrity
       (Audit.tamper 1 Audit.GENESIS_HASH h) = false.
Proof.
  intros calls h.
  destruct (audit_chain_linked_append_only (RT := example_runtime) None calls)
    as (_ & _ & _ & _ & _ & _ & Hv & Ht).
  split; [exact Hv|].
  eapply Ht; [reflexivity|]. intros Heq. vm_compute in Heq. discriminate.
Defined.

Section ClassifyProperties.
Import PyDecimal LeiV.

Lemma negb_Qle_bool_true (x y : Q) : negb (Qle_bool y x) = true <-> x < y.
Proof.
  rewrite negb_true_iff. split.
  - intros Hb. apply Qnot_le_lt. intros Hle.
    apply Qle_bool_iff in Hle. congruence.
  - intros Hlt. destruct (Qle_bool y x) eqn:Hb; [|reflexivity].
    apply Qle_bool_iff in Hb. exfalso. exact (Qlt_not_le _ _ Hlt Hb).
Qed.

Lemma negb_Qle_bool_false (x y : Q) : negb (Qle_bool y x) = false <-> y <= x.
Proof. rewrite negb_false_iff. apply Qle_bool_iff. Qed.

Ltac settle_order :=
  repeat match goal with
  | |- context [negb (Qle_bool ?t ?v)] =>
      let Hb := fresh "Hb" in
      destruct (negb (Qle_bool t v)) eqn:Hb;
      [apply negb_Qle_bool_true in Hb | apply negb_Qle_bool_false in Hb]
  end;
  first [reflexivity | exfalso; lra].

(** C1.  On every exact decimal [v] the classifier's stage boundaries are
    closed below: under 0.018 Healthy, from 0.018 Stage-0, from 0.08 Stage I,
    from 0.15 Stage II, from 0.25 Stage III, from 0.40 Stage IV; so 0.018 is
    Stage-0 and 0.08 is Stage I. *)
Theorem classify_lower_closed (v : Q) :
  (v < 18 # 1000 -> classify default_thresholds (DFin v) = Ok HEALTHY)
  /\ (18 # 1000 <= v -> v < 8 # 100 ->
      classify default_thresholds (DFin v) = Ok STAGE_0)
  /\ (8 # 100 <= v -> v < 15 # 100 ->
      classify default_thresholds (DFin v) = Ok STAGE_I)
  /\ (15 # 100 <= v -> v < 25 # 100 ->
      classify default_thresholds (DFin v) = Ok STAGE_II)
  /\ (25 # 100 <= v -> v < 40 # 100 ->
      classify default_thresholds (DFin v) = Ok STAGE_III)
  /\ (40 # 100 <= v -> classify default_thresholds (DFin v) = Ok STAGE_IV)
  /\ classify default_thresholds (DFin (18 # 1000)) = Ok STAGE_0
  /\ classify default_thresholds (DFin (8 # 100)) = Ok STAGE_I.
Proof.
  unfold classify, mbind, result_bind, lt, default_thresholds.
  cbn [stage_0_threshold advanced_threshold].
  repeat split; try reflexivity; intros; settle_order.
Qed.

Lemma classify_lower_closed_witness :
  classify default_thresholds (DFin (17 # 1000)) = Ok HEALTHY
  /\ classify default_thresholds (DFin (15 # 100)) = Ok STAGE_II
  /\ classify default_thresholds (DFin (25 # 100)) = Ok STAGE_III
  /\ classify default_thresholds (DFin (40 # 100)) = Ok STAGE_IV.
Proof.
  split; [|split; [|split]].
  - apply (proj1 (classify_lower_closed (17 # 1000))). reflexivity.
  - apply (classify_lower_closed (15 # 100)); [discriminate | reflexivity].
  - apply (classify_lower_closed (25 # 100)); [discriminate | reflexivity].
  - apply (classify_lower_closed (40 # 100)). discriminate.
Defined.

End ClassifyProperties.

Section ComputeProperties.
Import Rounding PyFloat PyDecimal LeiV.
Context {E : Type} {EX : Exact E} {RT : PyRuntime}.

(** C2.  With any number of radii other than six, [compute] raises
    [ValueError] and leaves the calculator as it was: no audit entry is
    appended and the last-hash pointer keeps its value. *)
Theorem compute_wrong_count_atomic (c : LEIVCalculator) (t0 t1 t2 : datetime)
    (rs : list E) (pid : string) (cycle_day v_caw_hour : option Z) :
  length rs <> 6%nat ->
  fst (compute c t0 t1 t2 rs pid cycle_day v_caw_hour)
    = Raise (ValueError "Expected 6 radial distances")
  /\ Audit._chain (hasher (snd (compute c t0 t1 t2 rs pid cycle_day v_caw_hour)))
     = Audit._chain (hasher c)
  /\ Audit._last_hash
       (hasher (snd (compute c t0 t1 t2 rs pid cycle_day v_caw_hour)))
     = Audit._last_hash (hasher c)
  /\ snd (compute c t0 t1 t2 rs pid cycle_day v_caw_hour) = c.
Proof.
  intros Hlen. unfold compute.
  destruct (Nat.eqb_spec (length rs) NUM_ELECTRODES) as [Heq|_].
  - contradiction.
  - cbn. auto.
Qed.

(** Whenever classification and the confidence computation succeed,
    [compute] returns a result holding [stored_lei_v] and appends exactly
    one audit entry. *)
Lemma compute_ok (c : LEIVCalculator) (t0 t1 t2 : datetime)
    (rs : list E) (pid : string) (cycle_day v_caw_hour : option Z)
    (st : DiagnosticStage) (conf : pyfloat) :
  length rs = 6%nat ->
  classify (thresholds c) (stored_lei_v rs) = Ok st ->
  _calculate_confidence (thresholds c) (stored_lei_v rs) st = Ok conf ->
  exists r c',
    compute c t0 t1 t2 rs pid cycle_day v_caw_hour = (Ok r, c')
    /\ lei_v_symbolic r = symbolic_lei_v rs
    /\ lei_v_value r = stored_lei_v rs
    /\ stage r = st
    /\ confidence_percent r = conf
    /\ length (Audit._chain (hasher c')) = S (length (Audit._chain (hasher c))).
Proof.
  intros Hlen Hst Hconf. unfold compute, stored_lei_v, symbolic_lei_v in *.
  rewrite Hlen. cbv zeta in *. cbn [Nat.eqb NUM_ELECTRODES negb].
  rewrite Hst, Hconf.
  eexists _, _. split; [reflexivity|]. cbn.
  rewrite length_app. cbn. repeat split; lia.
Qed.

Lemma ex_ring : ring_theory ex_zero ex_one ex_add ex_mul ex_sub ex_opp eq.
Proof. exact (F_R ex_field). Qed.

Add Ring exact_ring : ex_ring.

Lemma mean_of_equal (r : E) :
  ex_div (ex_sum [r; r; r; r; r; r]) (ex_int (Z.of_nat NUM_ELECTRODES)) = r.
Proof.
  unfold ex_sum, ex_int. cbn [fold_left].
  change (Z.of_nat NUM_ELECTRODES) with 6%Z.
  rewrite (Fdiv_def ex_field).
  pose proof (Finv_l ex_field _ ex_electrodes_invertible) as Hinv.
  revert Hinv.
  generalize (ex_inv (InitialRing.gen_phiZ ex_zero ex_one ex_add ex_mul ex_opp 6)).
  cbv [InitialRing.gen_phiZ InitialRing.gen_phiPOS InitialRing.gen_phiPOS1].
  intros i Hi.
  transitivity
    (ex_mul r (ex_mul i (ex_mul (ex_add ex_one ex_one)
                                (ex_add ex_one (ex_add ex_one ex_one))))).
  - ring.
  - rewrite Hi. ring.
Qed.

Lemma stored_lei_v_equal (r : E) : stored_lei_v [r; r; r; r; r; r] = DFin 0.
Proof.
  unfold stored_lei_v, symbolic_lei_v. cbv zeta. rewrite mean_of_equal.
  cbn [map]. unfold simplify, ex_sum. cbn [fold_left].
  replace (ex_mul (ex_sub r r) (ex_sub r r)) with ex_zero by ring.
  replace (ex_add _ ex_zero) with ex_zero by ring.
  unfold N_float. rewrite evalf_zero. reflexivity.
Qed.

(** C5.  Six equal exact radii, in any exact number domain: [compute]
    returns, the stored [lei_v_value] is exactly zero, and the stage is
    Healthy. *)
Theorem compute_equal_radii_zero (h : Audit.AuditHasher) (t0 t1 t2 : datetime)
    (r : E) (pid : string) (cycle_day v_caw_hour : option Z) :
  exists res c',
    compute {| thresholds := default_thresholds; hasher := h |} t0 t1 t2
            [r; r; r; r; r; r] pid cycle_day v_caw_hour = (Ok res, c')
    /\ lei_v_value res = DFin 0
    /\ stage res = HEALTHY.
Proof.
  destruct (compute_ok {| thresholds := default_thresholds; hasher := h |}
              t0 t1 t2 [r; r; r; r; r; r] pid cycle_day v_caw_hour
              HEALTHY (lit 89))
    as (res & c' & Hc & _ & Hv & Hs & _).
  - reflexivity.
  - rewrite stored_lei_v_equal. reflexivity.
  - rewrite stored_lei_v_equal. vm_compute. reflexivity.
  - exists res, c'. rewrite Hc, Hv, Hs, stored_lei_v_equal. auto.
Qed.

End ComputeProperties.

Section ComputeExamples.
Import Rounding PyFloat PyDecimal LeiV.

Lemma compute_wrong_count_atomic_witness :
  let run :=
    compute (RT := example_runtime) (LeiV.new None) 0%Z 1%Z 2%Z
            (repeat (Q2Qc (1 # 2)) 5) "TEST-005" None None in
  fst run = Raise (ValueError "Expected 6 radial distances")
  /\ Audit._chain (hasher (snd run)) = []
  /\ Audit._last_hash (hasher (snd run)) = Audit.GENESIS_HASH
  /\ snd run = LeiV.new None.
Proof.
  apply (compute_wrong_count_atomic (RT := example_runtime) (LeiV.new None)
           0%Z 1%Z 2%Z (repeat (Q2Qc (1 # 2)) 5) "TEST-005" None None).
  discriminate.
Defined.

Lemma compute_equal_radii_zero_witness :
  exists res c',
    compute (RT := example_runtime) (LeiV.new None) 0%Z 1%Z 2%Z
            (repeat (Q2Qc (433 # 1000)) 6) "TEST-001" None None = (Ok res, c')
    /\ lei_v_value res = DFin 0
    /\ stage res = HEALTHY.
Proof.
  exact (compute_equal_radii_zero (RT := example_runtime) (Audit.new None)
           0%Z 1%Z 2%Z (Q2Qc (433 # 1000)) "TEST-001" None None).
Defined.

(** C3.  The claim fails on the code: for radii 1, 0, 0, 0, 0, 0 the exact
    index is 5/6, whose 50-digit value is 0.8333...3, while [compute] stores
    0.8333333333333334, the shortest decimal of the nearest binary64
    float. *)
Theorem compute_keeps_double_precision_only {RT : PyRuntime}
    (h : Audit.AuditHasher) (t0 t1 t2 : datetime) (pid : string)
    (cycle_day v_caw_hour : option Z) :
  exists res c',
    compute {| thresholds := default_thresholds; hasher := h |} t0 t1 t2
            one_off_centre pid cycle_day v_caw_hour = (Ok res, c')
    /\ lei_v_symbolic res = Q2Qc (5 # 6)
    /\ PyDecimal.eqb (lei_v_value res) (DFin 0.8333333333333334) = true
    /\ PyDecimal.eqb (lei_v_value res) (DFin (round_dec 50 (5 # 6))) = false
    /\ round_dec 50 (5 # 6)
       = 0.83333333333333333333333333333333333333333333333333.
Proof.
  edestruct (compute_ok {| thresholds := default_thresholds; hasher := h |}
               t0 t1 t2 one_off_centre pid cycle_day v_caw_hour STAGE_IV)
    as (res & c' & Hc & Hsym & Hv & _).
  - reflexivity.
  - vm_compute. reflexivity.
  - vm_compute. reflexivity.
  - exists res, c'. split; [exact Hc|].
    split; [rewrite Hsym; apply Qc_is_canon; reflexivity|].
    rewrite Hv. repeat split; vm_compute; reflexivity.
Qed.

End ComputeExamples.

Section GlyphProperties.
Import Radical Glyph.

Lemma rsl_electrodes_built :
  get_rsl_electrodes ViduyaGlyph = map rsl_point [0; 1; 2; 3; 4; 5]%Z.
Proof. reflexivity. Qed.

(** C6.  The six RSL electrodes are built at the angles [i * pi / 3] with
    [x = sqrt(3)/4 * cos] and [y = sqrt(3)/4 * sin], carry the indices 1 to
    6, all lie at the exact distance [sqrt(3)/4] from the origin, the
    difference of any two radii simplifies to zero, and [verify_symmetry]
    reports success. *)
Theorem rsl_electrodes_equidistant (str_int : Z -> string)
    (str_expr : radical -> string) :
  let rsl := get_rsl_electrodes ViduyaGlyph in
  let radius := rscale (1 # 4) SQRT3 in
  map (fun c => (x c, y c)) rsl
    = map (fun i => (rmul radius (cos_pi3 i), rmul radius (sin_pi3 i)))
          [0; 1; 2; 3; 4; 5]%Z
  /\ map electrode_index rsl = map Some [1; 2; 3; 4; 5; 6]%Z
  /\ (forall c, In c rsl -> distance_from_origin c = Some radius)
  /\ (forall c c' r r', In c rsl -> In c' rsl ->
        distance_from_origin c = Some r -> distance_from_origin c' = Some r' ->
        simplify (rsub r r') = rzero)
  /\ verify_symmetry str_int str_expr ViduyaGlyph
     = Some (true,
             "C₃ × D₆ symmetry verified. Citation: Viduya Family Legacy Glyph © 2025").
Proof.
  intros rsl radius.
  assert (Hdist : forall c, In c rsl -> distance_from_origin c = Some radius).
  { intros c Hin. subst rsl. rewrite rsl_electrodes_built in Hin.
    cbn [map In] in Hin.
    repeat (destruct Hin as [<-|Hin]; [vm_compute; reflexivity|]).
    contradiction. }
  split; [reflexivity|]. split; [reflexivity|]. split; [exact Hdist|].
  split.
  - intros c c' r r' Hc Hc' Hr Hr'.
    rewrite (Hdist c Hc) in Hr. rewrite (Hdist c' Hc') in Hr'.
    injection Hr as <-. injection Hr' as <-. reflexivity.
  - vm_compute. reflexivity.
Qed.

End GlyphProperties.

Section ConstantsProperties.
Import Constants.

(** C7.  [verify_constants_integrity] answers [true] for every content of
    the constants table, next to the hash it computed; for the frozen table
    that hash differs from the stored [VIDUYA_CONSTANTS_HASH] and the answer
    is [true] all the same. *)
Theorem verify_constants_integrity_always_valid :
  (forall t : table,
      verify_constants_integrity t = (true, _compute_constants_hash t))
  /\ verify_constants_integrity frozen_table
     = (true,
        "3aa04b61ce39202c618dcb701964bb83c4e03d431533cbf718a456ba4cec848c")
  /\ String.eqb (snd (verify_constants_integrity frozen_table))
                VIDUYA_CONSTANTS_HASH = false.
Proof.
  split; [reflexivity|]. split; vm_compute; reflexivity.
Qed.

End ConstantsProperties.

Section EvgProperties.
Import Evg.
Variable process_patient_edf : filesystem -> string -> result string pydict.
Variable validate : pydict -> result string pydict.

(** C8.  The claim fails on the code: when a [.edf] upload has been written
    to the temporary file and processing raises, the handler answers 500
    with the message and the temporary file is still on disk, with the
    uploaded content. *)
Theorem process_evg_file_failure_keeps_temp_file
    (w : world) (tmp_path : string) (file : UploadFile) (has_tasks : bool)
    (notify_email : option string) (content : list Z) (msg : string) :
  endswith (filename file) ".edf" = true ->
  read file = Ok content ->
  process_patient_edf (<[tmp_path := content]> (<[tmp_path := []]> (disk w)))
                      tmp_path = Raise msg ->
  exists w',
    process_evg_file process_patient_edf validate w tmp_path file has_tasks
                     notify_email
      = (HTTPException 500 ("Processing failed: " ++ msg), w')
    /\ disk w' !! tmp_path = Some content.
Proof.
  intros Hname Hread Hproc. unfold process_evg_file.
  rewrite Hname, Hread. cbn [negb disk tasks]. rewrite Hproc.
  eexists. split; [reflexivity|]. cbn [disk].
  apply lookup_insert_eq.
Qed.

(** The path that does clean up: when processing succeeds the temporary
    file is gone on return, whatever validation says. *)
Lemma process_evg_file_success_unlinks
    (w : world) (tmp_path : string) (file : UploadFile) (has_tasks : bool)
    (notify_email : option string) (content : list Z) (result : pydict) :
  endswith (filename file) ".edf" = true ->
  read file = Ok content ->
  process_patient_edf (<[tmp_path := content]> (<[tmp_path := []]> (disk w)))
                      tmp_path = Ok result ->
  disk (snd (process_evg_file process_patient_edf validate w tmp_path file
                              has_tasks notify_email)) !! tmp_path = None.
Proof.
  intros Hname Hread Hproc. unfold process_evg_file.
  rewrite Hname, Hread. cbn [negb disk tasks]. rewrite Hproc.
  destruct (validate result); cbn [snd];
    destruct notify_email as [email|]; try destruct (_ && _);
    cbn [disk]; apply lookup_delete_eq.
Qed.

End EvgProperties.

Lemma process_evg_file_failure_keeps_temp_file_witness :
  exists w',
    Evg.process_evg_file (fun _ _ => Raise "not an EDF file") Ok
      {| Evg.disk := ∅; Evg.tasks := [] |} "/tmp/tmpa1.edf"
      {| Evg.filename := "scan.edf"; Evg.read := Ok [48; 32]%Z |} false None
      = (Evg.HTTPException 500 "Processing failed: not an EDF file", w')
    /\ Evg.disk w' !! "/tmp/tmpa1.edf" = Some [48; 32]%Z.
Proof.
  apply (process_evg_file_failure_keeps_temp_file
           (fun _ _ => Raise "not an EDF file") Ok
           {| Evg.disk := ∅; Evg.tasks := [] |} "/tmp/tmpa1.edf"
           {| Evg.filename := "scan.edf"; Evg.read := Ok [48; 32]%Z |}
           false None [48; 32]%Z "not an EDF file");
    reflexivity.
Defined.

Section PlacementProperties.
Import Rounding Radical PyFloat Placement.

(** C10, as amended.  Without anthropometry the stored electrode positions
    are (24, 0), (12, 20.78), ... : between 23.99 and 24 cm from the centre,
    the coordinates being stored rounded to two decimals (exactly 24 cm for
    electrode 1); for a patient whose inter-ASIS distance is 24 cm they are
    (12, 0), (6, 10.39), ... : between 11.99 and 12 cm from the centre.  The
    default scale factor is exactly twice the patient-specific one, and so
    is every coordinate. *)
Theorem placement_scales_differ_by_two
    (pubis_umbilicus : pyfloat) (pid date : string) :
  let a := {| inter_asis_distance_cm := lit 24;
              pubis_umbilicus_distance_cm := pubis_umbilicus;
              patient_id := pid;
              measurement_date := date |} in
  exists ds ps sd sp,
    _build_electrode_positions None = Ok ds
    /\ _build_electrode_positions (Some a) = Ok ps
    /\ _get_scale_factor None = Ok (FFin sd)
    /\ _get_scale_factor (Some a) = Ok (FFin sp)
    /\ sd == 2 * sp
    /\ stored_positions ds
       = [(FFin 24, FFin 0); (FFin 12, lit 20.78); (FFin (-12), lit 20.78);
          (FFin (-24), FFin 0); (FFin (-12), lit (-20.78));
          (FFin 12, lit (-20.78))]
    /\ stored_positions ps
       = [(FFin 12, FFin 0); (FFin 6, lit 10.39); (FFin (-6), lit 10.39);
          (FFin (-12), FFin 0); (FFin (-6), lit (-10.39));
          (FFin 6, lit (-10.39))]
    /\ forallb (distance_within 23.99 24) ds = true
    /\ forallb (distance_within 11.99 12) ps = true
    /\ map anatomical_distance_sq (firstn 1 ds) = [Some (24 * 24)]
    /\ map anatomical_distance_sq (firstn 1 ps) = [Some (12 * 12)].
Proof.
  intros a. subst a. unfold _build_electrode_positions.
  cbn [seq build_from].
  eexists _, _, _, _.
  split; [vm_compute; reflexivity|].
  split; [vm_compute; reflexivity|].
  split; [vm_compute; reflexivity|].
  split; [vm_compute; reflexivity|].
  repeat split; vm_compute; reflexivity.
Qed.

(** C10, as stated, fails: the stored positions are not all 24 cm (12 cm)
    from the centre.  Electrodes 1 and 4 are; electrodes 2, 3, 5 and 6, stored
    as (12, 20.78) and (6, 10.39) up to sign, are about 23.996 cm and
    11.998 cm from it. *)
Lemma placement_distance_not_exact :
  exists ds ps,
    _build_electrode_positions None = Ok ds
    /\ _build_electrode_positions
         (Some {| inter_asis_distance_cm := lit 24;
                  pubis_umbilicus_distance_cm := lit 15;
                  patient_id := "P-001";
                  measurement_date := "2025-01-01" |}) = Ok ps
    /\ map (distance_within 24 24) ds
       = [true; false; false; true; false; false]
    /\ map (distance_within 23.995 23.997) ds
       = [false; true; true; false; true; true]
    /\ map (distance_within 12 12) ps
       = [true; false; false; true; false; false]
    /\ map (distance_within 11.997 11.999) ps
       = [false; true; true; false; true; true].
Proof.
  unfold _build_electrode_positions. cbn [seq build_from].
  eexists _, _.
  split; [vm_compute; reflexivity|].
  split; [vm_compute; reflexivity|].
  repeat split; vm_compute; reflexivity.
Qed.

End PlacementProperties.

Section FloatFacts.
Import Rounding PyFloat.

Lemma round_half_even_lower (q : Q) (k : Z) :
  inject_Z k <= q -> (k <= round_half_even q)%Z.
Proof.
  intros Hq. unfold round_half_even.
  assert (Hf : (k <= Qfloor q)%Z).
  { rewrite <- (Qfloor_Z k). apply Qfloor_resp_le, Hq. }
  destruct (Qcompare _ _); [destruct (Z.even _)| |]; lia.
Qed.

Lemma pow2_pos (s : Z) : 0 < Qpower 2 s.
Proof. apply Qpower_0_lt. reflexivity. Qed.

Lemma round_at_2_lower (s : Z) (q : Q) (k : Z) :
  (0 <= k)%Z -> inject_Z k * Qpower 2 s <= q ->
  inject_Z k * Qpower 2 s <= round_at 2 s q.
Proof.
  intros Hk Hq. unfold round_at. rewrite Qred_correct.
  apply Qmult_le_compat_r; [|apply Qlt_le_weak, pow2_pos].
  rewrite <- Zle_Qle. apply round_half_even_lower.
  apply Qle_shift_div_l; [apply pow2_pos | exact Hq].
Qed.

Lemma ilog2_lower (q : Q) : 0 < q -> Qpower 2 (ilog2 q) <= q.
Proof.
  intros Hq. unfold ilog2.
  set (e := (Z.log2 (Qnum q) - Z.log2 (Z.pos (Qden q)))%Z).
  destruct (Qle_bool (2 ^ e) q) eqn:Hb; [apply Qle_bool_iff, Hb|].
  destruct q as [n d]. cbn [Qnum Qden] in *.
  assert (Hn : (0 < n)%Z) by (unfold Qlt in Hq; cbn in Hq; lia).
  replace (e - 1)%Z with (Z.log2 n - (Z.log2 (Z.pos d) + 1))%Z by (subst e; lia).
  rewrite Qpower_minus by discriminate.
  pose proof (Z.log2_nonneg n) as Hln.
  pose proof (Z.log2_nonneg (Z.pos d)) as Hld.
  rewrite <- !(Zpower_Qpower 2) by lia.
  destruct (Z.log2_spec n Hn) as [Hn1 _].
  destruct (Z.log2_spec (Z.pos d) eq_refl) as [_ Hd2].
  rewrite <- Z.add_1_r in Hd2.
  set (A := (2 ^ Z.log2 n)%Z) in *.
  set (B := (2 ^ (Z.log2 (Z.pos d) + 1))%Z) in *.
  apply Qle_shift_div_r.
  - change 0 with (inject_Z 0). rewrite <- Zlt_Qlt. lia.
  - unfold Qle, Qmult, inject_Z. cbn. nia.
Qed.

Lemma Qabs_of_pos (q : Q) : 0 < q -> Qabs q = q.
Proof.
  destruct q as [n d]. unfold Qlt, Qabs. cbn. intros Hn.
  rewrite Z.abs_eq by lia. reflexivity.
Qed.

Lemma fl_not_negative (q : Q) : 0 <= q -> not_negative (fl q).
Proof.
  intros Hq. unfold fl.
  destruct (Qeq_bool q 0); [cbn; lra|].
  destruct (Qle_bool _ _); cbn.
  - pose proof (round_at_2_lower
                  (Z.max (ilog2 (Qabs q) - 52) emin) q 0 (Z.le_refl 0)) as Hr.
    rewrite Qmult_0_l in Hr. exact (Hr Hq).
  - apply negb_false_iff, Qle_bool_iff, Hq.
Qed.

Lemma fl_not_zero (q : Q) : Qpower 2 emin <= q -> is_zero (fl q) = false.
Proof.
  intros Hq. unfold fl.
  pose proof (pow2_pos emin) as Hmin.
  assert (Hpos : 0 < q) by lra.
  destruct (Qeq_bool q 0) eqn:Hz.
  { apply Qeq_bool_eq in Hz. lra. }
  destruct (Qle_bool _ _); [|reflexivity]. cbn [is_zero].
  set (s := Z.max (ilog2 (Qabs q) - 52) emin).
  assert (Hs : Qpower 2 s <= q).
  { subst s. rewrite (Qabs_of_pos q Hpos).
    destruct (Z.max_spec (ilog2 q - 52) emin) as [[_ ->]|[_ ->]]; [exact Hq|].
    apply Qle_trans with (2 ^ ilog2 q); [|apply ilog2_lower, Hpos].
    apply Qpower_le_compat_l; [lia | discriminate]. }
  pose proof (round_at_2_lower s q 1 ltac:(lia)) as Hr.
  rewrite Qmult_1_l in Hr. specialize (Hr Hs).
  pose proof (pow2_pos s).
  destruct (Qeq_bool (round_at 2 s q) 0) eqn:Hr0; [|reflexivity].
  apply Qeq_bool_eq in Hr0. lra.
Qed.

Lemma is_neg_not_negative (a : pyfloat) : not_negative a -> is_neg a = false.
Proof.
  destruct a as [q|n|]; cbn; intros Ha; [|exact Ha|reflexivity].
  apply negb_false_iff, Qle_bool_iff, Ha.
Qed.

Lemma fmul_not_negative (a b : pyfloat) :
  not_negative a -> not_negative b -> not_negative (fmul a b).
Proof.
  intros Ha Hb.
  destruct a as [x|n|], b as [y|m|]; cbn in *; subst; try exact I.
  - apply fl_not_negative. nra.
  - destruct (Qeq_bool x 0); cbn; [exact I|].
    apply negb_false_iff, Qle_bool_iff, Ha.
  - destruct (Qeq_bool y 0); cbn; [exact I|].
    apply negb_false_iff, Qle_bool_iff, Hb.
  - reflexivity.
Qed.

Lemma fadd_not_negative (a b : pyfloat) :
  not_negative a -> not_negative b -> not_negative (fadd a b).
Proof.
  intros Ha Hb.
  destruct a as [x|n|], b as [y|m|]; cbn in *; subst; try exact I;
    try reflexivity.
  apply fl_not_negative. lra.
Qed.

Lemma fmin_not_negative (a b : pyfloat) :
  not_negative a -> not_negative b -> not_negative (fmin a b).
Proof. intros Ha Hb. unfold fmin. destruct (flt b a); assumption. Qed.

Lemma fabs_not_negative (a : pyfloat) : not_negative (fabs a).
Proof. destruct a; cbn; [apply Qabs_nonneg | reflexivity | exact I]. Qed.

Lemma lit_not_negative (q : Q) : Qle_bool 0 q = true -> not_negative (lit q).
Proof. intros Hq. apply fl_not_negative, Qle_bool_iff, Hq. Qed.

Lemma fdiv_100_not_negative (a : pyfloat) :
  not_negative a ->
  exists r, fdiv a (lit 100) = Some r /\ not_negative r.
Proof.
  intros Ha. change (lit 100) with (FFin 100).
  destruct a as [x|n|]; cbn in *; eexists; (split; [reflexivity|]).
  - apply fl_not_negative. apply Qle_shift_div_l; lra.
  - subst. reflexivity.
  - exact I.
Qed.

Lemma fadd_tenth_not_zero (u : pyfloat) :
  not_negative u -> is_zero (fadd u (lit 0.1)) = false.
Proof.
  intros Hu. destruct u as [q|n|]; [|reflexivity|reflexivity].
  cbn in Hu.
  assert (Hlit : exists c, lit 0.1 = FFin c /\ Qpower 2 emin <= c).
  { eexists. split; [vm_compute; reflexivity|]. apply Qle_bool_iff.
    vm_compute. reflexivity. }
  destruct Hlit as (c & -> & Hc). cbn [fadd].
  apply fl_not_zero. lra.
Qed.

Lemma flt_fle (a b : pyfloat) : flt a b = true -> fle a b = true.
Proof.
  destruct a as [x|n|], b as [y|m|]; cbn; try discriminate; try tauto.
  - rewrite negb_true_iff. intros Hb. apply Qle_bool_iff.
    destruct (Qlt_le_dec x y) as [Hlt|Hle]; [lra|].
    apply Qle_bool_iff in Hle. congruence.
  - destruct n, m; cbn; auto.
Qed.

Lemma fmin_upper (a x : pyfloat) : fle a a = true -> fle (fmin a x) a = true.
Proof.
  intros Ha. unfold fmin. destruct (flt x a) eqn:Hx; [apply flt_fle, Hx | exact Ha].
Qed.

End FloatFacts.

Section FusionProperties.
Import Rounding PyFloat Fusion.
Context {RT : PyRuntime}.

Lemma fle_lit_099_at_most (a : pyfloat) :
  fle a (lit 0.99) = true -> at_most a 0.99 = true.
Proof.
  assert (Hlit : exists c, lit 0.99 = FFin c /\ c <= 0.99).
  { eexists. split; [vm_compute; reflexivity|]. apply Qle_bool_iff.
    vm_compute. reflexivity. }
  destruct Hlit as (c & -> & Hc).
  destruct a as [q|n|]; cbn; [|tauto|tauto].
  rewrite !Qle_bool_iff. intros Hq. lra.
Qed.

Lemma fuse_loop_length (st : string) (rs : list pydict) :
  forall acc acc',
    fuse_loop st acc rs = Ok acc' ->
    length (fst acc') = (length (fst acc) + length rs)%nat.
Proof.
  induction rs as [|r rs IH]; intros acc acc' Hl; cbn in Hl.
  - injection Hl as <-. cbn. lia.
  - unfold mbind, result_bind in Hl.
    destruct (fuse_step st acc r) as [acc1|e] eqn:Hs; [|discriminate].
    rewrite (IH _ _ Hl). cbn [length].
    unfold fuse_step, mbind, result_bind in Hs.
    destruct (as_float _); [|discriminate].
    destruct (fdiv _ _); [|discriminate].
    destruct (_calculate_concordance _ _); [|discriminate].
    destruct (reliability_of _); [|discriminate].
    injection Hs as <-. cbn [fst]. rewrite length_app. cbn. lia.
Qed.

Lemma fuse_posterior (eng : BayesianFusionEngine) (t1 t2 : datetime)
    (v : pyfloat) (st : string) (conf : pyfloat) (rs : list pydict)
    (res : FusionResult) (eng' : BayesianFusionEngine) :
  fuse eng t1 t2 v st conf rs = (Ok res, eng') ->
  exists likelihood_product ratio,
    let p := fmul (lei_v_anchor_contribution res) likelihood_product in
    fdiv p (fadd p (lit 0.1)) = Some ratio
    /\ posterior_probability res = fmin (lit 0.99) ratio
    /\ length (platform_contributions res) = length rs.
Proof.
  unfold fuse, mbind, result_bind. intros Hf.
  destruct (_calculate_leiv_weight v conf) as [w|e]; [|discriminate].
  destruct (fuse_loop st ([], lit 1) rs) as [[cs prod]|e] eqn:Hloop;
    [|discriminate].
  cbn [fst snd] in Hf.
  destruct (fdiv _ _) as [ratio|] eqn:Hdiv; [|discriminate].
  apply (f_equal fst) in Hf. cbn [fst] in Hf. injection Hf as <-.
  cbn [lei_v_anchor_contribution posterior_probability platform_contributions].
  exists prod, ratio. split; [exact Hdiv|]. split; [reflexivity|].
  apply fuse_loop_length in Hloop. exact Hloop.
Qed.

Lemma reliability_not_negative (p : pyval) (rel : pyfloat) :
  reliability_of p = Ok rel -> not_negative rel.
Proof.
  destruct p; cbn [reliability_of]; try discriminate;
    try (intros [= <-]; apply lit_not_negative; reflexivity).
  intros [= <-].
  destruct (PLATFORM_RELIABILITY !! s) as [v|] eqn:Hv; cbn [default];
    [|apply lit_not_negative; reflexivity].
  unfold PLATFORM_RELIABILITY in Hv.
  apply elem_of_list_to_map_2 in Hv.
  repeat (apply elem_of_cons in Hv as [Heq|Hv];
          [apply (f_equal snd) in Heq; cbn [snd] in Heq; subst v;
           apply lit_not_negative; reflexivity|]).
  apply elem_of_nil in Hv. contradiction.
Qed.

Lemma at_least_80_not_negative (c : pyfloat) :
  fle (lit 80) c = true -> not_negative c.
Proof.
  change (lit 80) with (FFin 80).
  destruct c as [q|n|]; cbn; [|apply negb_true_iff|discriminate].
  rewrite Qle_bool_iff. lra.
Qed.

Lemma fuse_step_concordant (acc : list PlatformContribution * pyfloat)
    (r : pydict) :
  concordant "stage_0_early" (lit 80) r = true ->
  not_negative (snd acc) ->
  exists ctr product,
    fuse_step "stage_0_early" acc r = Ok (fst acc ++ [ctr], product)
    /\ concordance_with_leiv ctr = lit 1
    /\ not_negative product.
Proof.
  unfold concordant. intros Hc Hacc.
  destruct (platform_stage_of r) as [| | | | |s| |] eqn:Hstage;
    try discriminate.
  destruct (as_float _) as [c|] eqn:Hconf; [|discriminate].
  destruct (reliability_of _) as [rel|] eqn:Hrel; [|discriminate].
  apply andb_true_iff in Hc as [Hsev Hc80]. apply Z.eqb_eq in Hsev.
  destruct (fdiv_100_not_negative c (at_least_80_not_negative c Hc80))
    as (raw & Hraw & Hraw_nn).
  assert (Hs : truthy (PStr s) = true).
  { cbn. destruct (String.eqb_spec s ""); [|reflexivity].
    subst s. vm_compute in Hsev. discriminate. }
  unfold fuse_step, mbind, result_bind.
  rewrite Hconf, Hraw. unfold _calculate_concordance.
  rewrite Hstage, Hs, Hsev, Z.sub_diag. cbn [negb Z.abs Z.eqb].
  rewrite Hrel.
  eexists _, _. split; [reflexivity|]. split; [reflexivity|].
  apply fmul_not_negative; [exact Hacc|].
  apply fadd_not_negative; [apply lit_not_negative; reflexivity|].
  apply fmul_not_negative; [exact Hraw_nn|].
  apply fmul_not_negative;
    [exact (reliability_not_negative _ _ Hrel)
    |apply lit_not_negative; reflexivity].
Qed.

Lemma is_neg_false_not_negative (a : pyfloat) :
  is_neg a = false -> not_negative a.
Proof.
  destruct a as [q|n|]; cbn; [|tauto|tauto].
  intros Hq. apply negb_false_iff, Qle_bool_iff in Hq. exact Hq.
Qed.

Lemma prior_not_negative (st : string) :
  not_negative (default (lit 0.5) (STAGE_PRIORS !! st)).
Proof.
  destruct (STAGE_PRIORS !! st) as [v|] eqn:Hv; cbn [default];
    [|apply lit_not_negative; reflexivity].
  unfold STAGE_PRIORS in Hv. apply elem_of_list_to_map_2 in Hv.
  repeat (apply elem_of_cons in Hv as [Heq|Hv];
          [apply (f_equal snd) in Heq; cbn [snd] in Heq; subst v;
           apply lit_not_negative; reflexivity|]).
  apply elem_of_nil in Hv. contradiction.
Qed.

Lemma concordance_not_negative (r : pydict) (st : string) (c : pyfloat) :
  _calculate_concordance r st = Ok c -> not_negative c.
Proof.
  unfold _calculate_concordance.
  destruct (negb (truthy (platform_stage_of r))).
  { intros [= <-]. apply lit_not_negative. reflexivity. }
  destruct (platform_stage_of r); try discriminate.
  intros [= <-].
  repeat (destruct (_ =? _)%Z); apply lit_not_negative; reflexivity.
Qed.

Lemma leiv_weight_returns (v conf : pyfloat) :
  not_negative conf ->
  exists w, _calculate_leiv_weight v conf = Ok w /\ not_negative w.
Proof.
  intros Hconf. unfold _calculate_leiv_weight.
  destruct (fdiv_100_not_negative conf Hconf) as (c & -> & Hc).
  eexists. split; [reflexivity|].
  apply fmul_not_negative; [exact Hc|].
  apply fadd_not_negative; [apply lit_not_negative; reflexivity|].
  apply fmul_not_negative; [apply lit_not_negative; reflexivity|].
  apply fmin_not_negative; [apply lit_not_negative; reflexivity|].
  apply fmul_not_negative; [|apply lit_not_negative; reflexivity].
  apply fmin_not_negative; apply fabs_not_negative.
Qed.

Lemma fuse_step_returns (st : string)
    (acc : list PlatformContribution * pyfloat) (r : pydict) :
  well_formed st r = true ->
  not_negative (snd acc) ->
  exists acc', fuse_step st acc r = Ok acc' /\ not_negative (snd acc').
Proof.
  unfold well_formed. intros Hwf Hacc.
  destruct (as_float _) as [c|] eqn:Hconf; [|discriminate].
  destruct (_calculate_concordance r st) as [k|] eqn:Hk; [|discriminate].
  destruct (reliability_of _) as [rel|] eqn:Hrel; [|discriminate].
  apply negb_true_iff, is_neg_false_not_negative in Hwf.
  destruct (fdiv_100_not_negative c Hwf) as (raw & Hraw & Hraw_nn).
  unfold fuse_step, mbind, result_bind.
  rewrite Hconf, Hraw, Hk, Hrel.
  eexists. split; [reflexivity|]. cbn [snd].
  apply fmul_not_negative; [exact Hacc|].
  apply fadd_not_negative; [apply lit_not_negative; reflexivity|].
  apply fmul_not_negative; [exact Hraw_nn|].
  apply fmul_not_negative;
    [exact (reliability_not_negative _ _ Hrel)
    |exact (concordance_not_negative _ _ _ Hk)].
Qed.

Lemma fuse_loop_returns (st : string) (rs : list pydict) :
  forall acc,
    forallb (well_formed st) rs = true ->
    not_negative (snd acc) ->
    exists acc', fuse_loop st acc rs = Ok acc' /\ not_negative (snd acc').
Proof.
  induction rs as [|r rs IH]; intros acc Hrs Hacc; cbn [fuse_loop].
  - exists acc. auto.
  - cbn [forallb] in Hrs. apply andb_true_iff in Hrs as [Hr Hrs].
    destruct (fuse_step_returns st acc r Hr Hacc) as (acc1 & Hs & Hacc1).
    unfold mbind, result_bind. rewrite Hs. exact (IH acc1 Hrs Hacc1).
Qed.

(** [fuse] returns on every input whose LEI-V confidence is not negative
    and whose platform results are well formed. *)
Lemma fuse_returns (eng : BayesianFusionEngine) (t1 t2 : datetime)
    (v : pyfloat) (st : string) (conf : pyfloat) (rs : list pydict) :
  is_neg conf = false ->
  forallb (well_formed st) rs = true ->
  exists res eng', fuse eng t1 t2 v st conf rs = (Ok res, eng').
Proof.
  intros Hconf Hrs. apply is_neg_false_not_negative in Hconf.
  destruct (leiv_weight_returns v conf Hconf) as (w & Hw & Hw_nn).
  destruct (fuse_loop_returns st rs ([], lit 1) Hrs
              (lit_not_negative 1 eq_refl)) as ([cs product] & Hloop & Hp).
  cbn [snd] in Hp.
  set (prior := default (lit 0.5) (STAGE_PRIORS !! st)).
  assert (Hu : not_negative (fmul (fmul prior w) product)).
  { apply fmul_not_negative; [|exact Hp].
    apply fmul_not_negative; [apply prior_not_negative | exact Hw_nn]. }
  destruct (fdiv (fmul (fmul prior w) product)
                 (fadd (fmul (fmul prior w) product) (lit 0.1)))
    as [ratio|] eqn:Hdiv.
  2:{ unfold fdiv in Hdiv. rewrite (fadd_tenth_not_zero _ Hu) in Hdiv.
      discriminate. }
  unfold fuse, mbind, result_bind. rewrite Hw, Hloop. cbn [fst snd].
  fold prior. rewrite Hdiv. eexists _, _. reflexivity.
Qed.

Lemma fuse_step_product (st : string)
    (acc acc' : list PlatformContribution * pyfloat) (r : pydict) :
  fuse_step st acc r = Ok acc' ->
  exists ctr,
    fst acc' = fst acc ++ [ctr]
    /\ snd acc' = fmul (snd acc) (fadd (lit 1) (contribution_to_final ctr)).
Proof.
  unfold fuse_step, mbind, result_bind. intros Hs.
  destruct (as_float _); [|discriminate].
  destruct (fdiv _ _); [|discriminate].
  destruct (_calculate_concordance r st); [|discriminate].
  destruct (reliability_of _); [|discriminate].
  injection Hs as <-. eexists. cbn. split; reflexivity.
Qed.

(** The loop multiplies [likelihood_product] by [1 + contribution_to_final]
    of each contribution it appends, in order. *)
Lemma fuse_loop_product (st : string) (rs : list pydict) :
  forall acc acc',
    fuse_loop st acc rs = Ok acc' ->
    exists cs,
      fst acc' = fst acc ++ cs
      /\ snd acc'
         = fold_left
             (fun p c => fmul p (fadd (lit 1) (contribution_to_final c)))
             cs (snd acc).
Proof.
  induction rs as [|r rs IH]; intros acc acc' Hl; cbn in Hl.
  - injection Hl as <-. exists []. rewrite app_nil_r. split; reflexivity.
  - unfold mbind, result_bind in Hl.
    destruct (fuse_step st acc r) as [acc1|e] eqn:Hs; [|discriminate].
    destruct (fuse_step_product _ _ _ _ Hs) as (ctr & Hc & Hp).
    destruct (IH _ _ Hl) as (cs & Hcs & Hprod).
    exists (ctr :: cs). rewrite Hcs, Hc, <- app_assoc. split; [reflexivity|].
    rewrite Hprod, Hp. reflexivity.
Qed.

(** What the posterior of a returned result is, from the inputs. *)
Lemma fuse_formula (eng : BayesianFusionEngine) (t1 t2 : datetime)
    (v : pyfloat) (st : string) (conf : pyfloat) (rs : list pydict)
    (res : FusionResult) (eng' : BayesianFusionEngine) :
  fuse eng t1 t2 v st conf rs = (Ok res, eng') ->
  exists lei_v_weight likelihood_product ratio,
    let p := fmul (lei_v_anchor_contribution res) likelihood_product in
    _calculate_leiv_weight v conf = Ok lei_v_weight
    /\ lei_v_anchor_contribution res
       = fmul (default (lit 0.5) (STAGE_PRIORS !! st)) lei_v_weight
    /\ fuse_loop st ([], lit 1) rs
       = Ok (platform_contributions res, likelihood_product)
    /\ likelihood_product
       = fold_left
           (fun p c => fmul p (fadd (lit 1) (contribution_to_final c)))
           (platform_contributions res) (lit 1)
    /\ fdiv p (fadd p (lit 0.1)) = Some ratio
    /\ posterior_probability res = fmin (lit 0.99) ratio.
Proof.
  unfold fuse, mbind, result_bind. intros Hf.
  destruct (_calculate_leiv_weight v conf) as [w|e]; [|discriminate].
  destruct (fuse_loop st ([], lit 1) rs) as [[cs prod]|e] eqn:Hloop;
    [|discriminate].
  cbn [fst snd] in Hf.
  destruct (fdiv _ _) as [ratio|] eqn:Hdiv; [|discriminate].
  apply (f_equal fst) in Hf. cbn [fst] in Hf. injection Hf as <-.
  cbn [lei_v_anchor_contribution posterior_probability platform_contributions].
  exists w, prod, ratio. cbv zeta.
  split; [reflexivity|]. split; [reflexivity|]. split; [reflexivity|].
  split; [|split; [exact Hdiv | reflexivity]].
  destruct (fuse_loop_product _ _ _ _ Hloop) as (cs' & Hcs & Hprod).
  cbn [fst snd app] in Hcs, Hprod. subst cs'. exact Hprod.
Qed.

(** C9.  Whenever [fuse] returns, the posterior is
    [min(0.99, p / (p + 0.1))] for the unnormalised product [p] of the
    anchor contribution (the prior of the stage times the LEI-V weight) and
    the likelihood product that the loop computes from the platform results
    (the product of [1 + contribution_to_final] over the contributions of
    the result, in order), hence at most 0.99; it does return whenever the LEI-V confidence is not negative and the platform
    results are well formed; and for the stage "stage_0_early" with
    confidence 90 and three platform results whose labels have the same
    severity level and whose confidences are at least 80, [fuse] returns
    with [evidence_strength = "strong"]. *)
Theorem fuse_posterior_capped_and_strong :
  (forall (eng : BayesianFusionEngine) (t1 t2 : datetime) (v : pyfloat)
          (st : string) (conf : pyfloat) (rs : list pydict)
          (res : FusionResult) (eng' : BayesianFusionEngine),
      fuse eng t1 t2 v st conf rs = (Ok res, eng') ->
      (exists lei_v_weight likelihood_product ratio,
          let p := fmul (lei_v_anchor_contribution res) likelihood_product in
          _calculate_leiv_weight v conf = Ok lei_v_weight
          /\ lei_v_anchor_contribution res
             = fmul (default (lit 0.5) (STAGE_PRIORS !! st)) lei_v_weight
          /\ fuse_loop st ([], lit 1) rs
             = Ok (platform_contributions res, likelihood_product)
          /\ likelihood_product
             = fold_left
                 (fun p c => fmul p (fadd (lit 1) (contribution_to_final c)))
                 (platform_contributions res) (lit 1)
          /\ fdiv p (fadd p (lit 0.1)) = Some ratio
          /\ posterior_probability res = fmin (lit 0.99) ratio)
      /\ at_most (posterior_probability res) 0.99 = true)
  /\ (forall (eng : BayesianFusionEngine) (t1 t2 : datetime) (v : pyfloat)
             (st : string) (conf : pyfloat) (rs : list pydict),
         is_neg conf = false ->
         forallb (well_formed st) rs = true ->
         exists res eng',
           fuse eng t1 t2 v st conf rs = (Ok res, eng')
           /\ at_most (posterior_probability res) 0.99 = true)
  /\ (forall (eng : BayesianFusionEngine) (t1 t2 : datetime) (v : pyfloat)
             (r1 r2 r3 : pydict),
         concordant "stage_0_early" (lit 80) r1 = true ->
         concordant "stage_0_early" (lit 80) r2 = true ->
         concordant "stage_0_early" (lit 80) r3 = true ->
         exists res eng',
           fuse eng t1 t2 v "stage_0_early" (lit 90) [r1; r2; r3]
             = (Ok res, eng')
           /\ evidence_strength res = "strong"
           /\ at_most (posterior_probability res) 0.99 = true).
Proof.
  assert (Hcap : forall eng t1 t2 v st conf rs res eng',
             fuse eng t1 t2 v st conf rs = (Ok res, eng') ->
             at_most (posterior_probability res) 0.99 = true).
  { intros eng t1 t2 v st conf rs res eng' Hf.
    destruct (fuse_posterior _ _ _ _ _ _ _ _ _ Hf) as (lp & ratio & _ & -> & _).
    apply fle_lit_099_at_most, fmin_upper. reflexivity. }
  split.
  - intros eng t1 t2 v st conf rs res eng' Hf. split; [|eauto].
    exact (fuse_formula _ _ _ _ _ _ _ _ _ Hf).
  - split.
    { intros eng t1 t2 v st conf rs Hconf Hrs.
      destruct (fuse_returns eng t1 t2 v st conf rs Hconf Hrs)
        as (res & eng' & Hf).
      exists res, eng'. eauto. }
    intros eng t1 t2 v r1 r2 r3 H1 H2 H3.
    destruct (leiv_weight_returns v (lit 90) (lit_not_negative 90 eq_refl))
      as (w & Hw & Hw_nn).
    destruct (fuse_step_concordant ([], lit 1) r1 H1
                (lit_not_negative 1 eq_refl)) as (c1 & p1 & Hs1 & Hc1 & Hp1).
    destruct (fuse_step_concordant ([c1], p1) r2 H2 Hp1)
      as (c2 & p2 & Hs2 & Hc2 & Hp2).
    destruct (fuse_step_concordant ([c1; c2], p2) r3 H3 Hp2)
      as (c3 & p3 & Hs3 & Hc3 & Hp3).
    cbn [fst snd app] in *.
    set (prior := default (lit 0.5) (STAGE_PRIORS !! "stage_0_early")).
    assert (Hu : not_negative (fmul (fmul prior w) p3)).
    { apply fmul_not_negative; [|exact Hp3].
      apply fmul_not_negative; [|exact Hw_nn].
      apply lit_not_negative. reflexivity. }
    destruct (fdiv (fmul (fmul prior w) p3)
                   (fadd (fmul (fmul prior w) p3) (lit 0.1)))
      as [ratio|] eqn:Hdiv.
    2:{ unfold fdiv in Hdiv. rewrite (fadd_tenth_not_zero _ Hu) in Hdiv.
        discriminate. }
    assert (Hfuse : exists res eng',
               fuse eng t1 t2 v "stage_0_early" (lit 90) [r1; r2; r3]
                 = (Ok res, eng')
               /\ evidence_strength res = "strong").
    { unfold fuse, mbind, result_bind. rewrite Hw.
      cbn [fuse_loop]. unfold mbind, result_bind.
      rewrite Hs1, Hs2, Hs3. cbn [fst snd]. fold prior. rewrite Hdiv.
      eexists _, _. split; [reflexivity|]. cbn [evidence_strength].
      cbn [length forallb Nat.leb andb]. rewrite Hc1, Hc2, Hc3.
      reflexivity. }
    destruct Hfuse as (res & eng' & Hf & Hstrong).
    exists res, eng'. eauto.
Qed.

End FusionProperties.

Lemma fuse_posterior_capped_and_strong_witness :
  let r (name : string) (c : Q) (label : string) : pydict :=
    [("platform", PStr name); ("confidence", PFloat (PyFloat.lit c));
     ("stage", PStr label)] in
  exists res eng',
    Fusion.fuse (RT := example_runtime) Fusion.new 1 2 (PyFloat.lit 0.05)
                "stage_0_early" (PyFloat.lit 90)
                [r "aidoc" 85 "early"; r "tempus" 80 "Stage_0";
                 r "viz_ai" 92 "minimal disease"]
      = (Ok res, eng')
    /\ Fusion.evidence_strength res = "strong"
    /\ PyFloat.at_most (Fusion.posterior_probability res) 0.99 = true.
Proof.
  intros r.
  apply (proj2 (proj2 (fuse_posterior_capped_and_strong
                        (RT := example_runtime))));
    reflexivity.
Defined.

(** At that input the posterior is about 0.961, below the cap. *)
Example fuse_example_posterior :
  let r (name : string) (c : Q) (label : string) : pydict :=
    [("platform", PStr name); ("confidence", PFloat (PyFloat.lit c));
     ("stage", PStr label)] in
  match
    fst (Fusion.fuse (RT := example_runtime) Fusion.new 1 2
           (PyFloat.lit 0.05) "stage_0_early" (PyFloat.lit 90)
           [r "aidoc" 85 "early"; r "tempus" 80 "Stage_0";
            r "viz_ai" 92 "minimal disease"])
  with
  | Ok res =>
      PyFloat.fle (PyFloat.lit 0.961) (Fusion.posterior_probability res)
      && PyFloat.fle (Fusion.posterior_probability res) (PyFloat.lit 0.962)
  | Raise _ => false
  end = true.
Proof. vm_compute. reflexivity. Qed.

(** * Further properties of the code *)

Section FloatOrder.
Import Rounding PyFloat FloatBounds.

Lemma Qfloor_bounds (q : Q) :
  inject_Z (Qfloor q) <= q /\ q < inject_Z (Qfloor q) + 1.
Proof.
  split; [apply Qfloor_le|].
  pose proof (Qlt_floor q) as H. rewrite inject_Z_plus in H. exact H.
Qed.

Lemma round_half_even_upper (q : Q) (k : Z) :
  q <= inject_Z k -> (round_half_even q <= k)%Z.
Proof.
  intros Hq. unfold round_half_even.
  destruct (Qfloor_bounds q) as [Hlo Hhi].
  assert (Hf : (Qfloor q <= k)%Z).
  { rewrite Zle_Qle. apply Qle_trans with q; assumption. }
  destruct (Z.eq_dec (Qfloor q) k) as [Heq|Hne].
  - assert (Hz : q - inject_Z (Qfloor q) == 0).
    { rewrite Heq in *. generalize dependent (inject_Z k). intros z ? ? ?. lra. }
    rewrite Hz. change (0 ?= 1 # 2) with Lt. cbv iota. exact Hf.
  - destruct (Qcompare _ _); [destruct (Z.even _)| |]; lia.
Qed.

Lemma round_half_even_mono (a b : Q) :
  a <= b -> (round_half_even a <= round_half_even b)%Z.
Proof.
  intros Hab.
  destruct (Qfloor_bounds a) as [Ha1 Ha2], (Qfloor_bounds b) as [Hb1 Hb2].
  pose proof (Qfloor_resp_le _ _ Hab) as Hf.
  destruct (Z.eq_dec (Qfloor a) (Qfloor b)) as [Heq|Hne].
  - unfold round_half_even. rewrite <- Heq in *.
    destruct (Qcompare_spec (a - inject_Z (Qfloor a)) (1 # 2)) as [Ea|La|Ga];
      destruct (Qcompare_spec (b - inject_Z (Qfloor a)) (1 # 2)) as [Eb|Lb|Gb];
      try destruct (Z.even _); try lia; lra.
  - assert (Hlt : (Qfloor a + 1 <= Qfloor b)%Z) by lia.
    apply Z.le_trans with (Qfloor a + 1)%Z.
    + apply round_half_even_upper. rewrite inject_Z_plus.
      change (inject_Z 1) with 1. lra.
    + apply Z.le_trans with (Qfloor b); [exact Hlt|].
      apply round_half_even_lower, Hb1.
Qed.

Lemma pow_pos (b : Q) (s : Z) : 0 < b -> 0 < Qpower b s.
Proof. intros Hb. apply Qpower_0_lt, Hb. Qed.

Lemma round_at_lower (b : Q) (s : Z) (q : Q) (k : Z) :
  0 < b -> inject_Z k * Qpower b s <= q ->
  inject_Z k * Qpower b s <= round_at b s q.
Proof.
  intros Hb Hq. unfold round_at. rewrite Qred_correct.
  apply Qmult_le_compat_r; [|apply Qlt_le_weak, pow_pos, Hb].
  rewrite <- Zle_Qle. apply round_half_even_lower.
  apply Qle_shift_div_l; [apply pow_pos, Hb | exact Hq].
Qed.

Lemma round_at_upper (b : Q) (s : Z) (q : Q) (k : Z) :
  0 < b -> q <= inject_Z k * Qpower b s ->
  round_at b s q <= inject_Z k * Qpower b s.
Proof.
  intros Hb Hq. unfold round_at. rewrite Qred_correct.
  apply Qmult_le_compat_r; [|apply Qlt_le_weak, pow_pos, Hb].
  rewrite <- Zle_Qle. apply round_half_even_upper.
  apply Qle_shift_div_r; [apply pow_pos, Hb | exact Hq].
Qed.

Lemma round_at_mono (b : Q) (s : Z) (x y : Q) :
  0 < b -> x <= y -> round_at b s x <= round_at b s y.
Proof.
  intros Hb Hxy. unfold round_at. rewrite !Qred_correct.
  apply Qmult_le_compat_r; [|apply Qlt_le_weak, pow_pos, Hb].
  rewrite <- Zle_Qle. apply round_half_even_mono.
  apply Qmult_le_compat_r; [exact Hxy|].
  apply Qlt_le_weak, Qinv_lt_0_compat, pow_pos, Hb.
Qed.

Lemma ilog2_upper (q : Q) : 0 < q -> q < Qpower 2 (ilog2 q + 1).
Proof.
  intros Hq. unfold ilog2.
  set (e := (Z.log2 (Qnum q) - Z.log2 (Z.pos (Qden q)))%Z).
  destruct (Qle_bool (2 ^ e) q) eqn:Hb.
  - destruct q as [n d]. cbn [Qnum Qden] in *.
    assert (Hn : (0 < n)%Z) by (unfold Qlt in Hq; cbn in Hq; lia).
    replace (e + 1)%Z with (Z.log2 n + 1 - Z.log2 (Z.pos d))%Z by (subst e; lia).
    rewrite Qpower_minus by discriminate.
    pose proof (Z.log2_nonneg n) as Hln.
    pose proof (Z.log2_nonneg (Z.pos d)) as Hld.
    rewrite <- !(Zpower_Qpower 2) by lia.
    destruct (Z.log2_spec n Hn) as [_ Hn2].
    destruct (Z.log2_spec (Z.pos d) eq_refl) as [Hd1 _].
    rewrite <- Z.add_1_r in Hn2.
    set (A := (2 ^ (Z.log2 n + 1))%Z) in *.
    set (B := (2 ^ Z.log2 (Z.pos d))%Z) in *.
    apply Qlt_shift_div_l.
    + change 0 with (inject_Z 0). rewrite <- Zlt_Qlt. lia.
    + unfold Qlt, Qmult, inject_Z. cbn. nia.
  - replace (e - 1 + 1)%Z with e by lia.
    destruct (Qlt_le_dec q (2 ^ e)) as [Hlt|Hle]; [exact Hlt|].
    apply Qle_bool_iff in Hle. congruence.
Qed.

Lemma pow2_lt_inv (a b : Z) : Qpower 2 a < Qpower 2 b -> (a < b)%Z.
Proof.
  intros H. destruct (Z_lt_le_dec a b) as [Hlt|Hle]; [exact Hlt|].
  assert (Qpower 2 b <= Qpower 2 a).
  { apply Qpower_le_compat_l; [exact Hle | discriminate]. }
  lra.
Qed.

Lemma ilog2_mono (x y : Q) : 0 < x -> x <= y -> (ilog2 x <= ilog2 y)%Z.
Proof.
  intros Hx Hxy.
  pose proof (ilog2_lower x Hx). pose proof (ilog2_upper y ltac:(lra)).
  assert (Hlt : Qpower 2 (ilog2 x) < Qpower 2 (ilog2 y + 1)) by lra.
  apply pow2_lt_inv in Hlt. lia.
Qed.

Lemma pow2_multiple (n s : Z) :
  (s <= n)%Z -> Qpower 2 n == inject_Z (2 ^ (n - s)) * Qpower 2 s.
Proof.
  intros Hle. rewrite Zpower_Qpower by lia.
  rewrite <- Qpower_plus by discriminate.
  replace (n - s + s)%Z with n by lia. reflexivity.
Qed.

Lemma fl_round_mono (x y : Q) :
  0 < x -> x <= y ->
  round_at 2 (fl_scale x) x <= round_at 2 (fl_scale y) y.
Proof.
  intros Hx Hxy. assert (Hy : 0 < y) by lra.
  pose proof (ilog2_mono x y Hx Hxy) as He.
  destruct (Z.eq_dec (fl_scale x) (fl_scale y)) as [Heq|Hne].
  - rewrite Heq. apply round_at_mono; [reflexivity | exact Hxy].
  - assert (Hs : (fl_scale x < fl_scale y)%Z) by (unfold fl_scale in *; lia).
    assert (Hsy : fl_scale y = (ilog2 y - 52)%Z) by (unfold fl_scale in *; lia).
    assert (Hlt : (ilog2 x < ilog2 y)%Z) by (unfold fl_scale in *; lia).
    set (B := Qpower 2 (ilog2 y)).
    assert (HxB : x <= B).
    { apply Qle_trans with (Qpower 2 (ilog2 x + 1)).
      - apply Qlt_le_weak, ilog2_upper, Hx.
      - apply Qpower_le_compat_l; [lia | discriminate]. }
    assert (HBy : B <= y) by (apply ilog2_lower, Hy).
    apply Qle_trans with B.
    + unfold B in *.
      rewrite (pow2_multiple (ilog2 y) (fl_scale x)) in * by lia.
      apply round_at_upper; [reflexivity | exact HxB].
    + unfold B in *.
      rewrite (pow2_multiple (ilog2 y) (fl_scale y)) in * by lia.
      apply round_at_lower; [reflexivity | exact HBy].
Qed.

Lemma fl_pos_unfold (q : Q) :
  0 < q ->
  fl q = if Qle_bool (round_at 2 (fl_scale q) q) max_float
         then FFin (round_at 2 (fl_scale q) q) else FInf false.
Proof.
  intros Hq. unfold fl, fl_scale.
  destruct (Qeq_bool q 0) eqn:Hz; [apply Qeq_bool_eq in Hz; lra|].
  rewrite (Qabs_of_pos q Hq).
  set (r := round_at 2 _ q).
  assert (Hr : 0 <= r).
  { pose proof (round_at_lower 2 (Z.max (ilog2 q - 52) emin) q 0 eq_refl) as H.
    rewrite Qmult_0_l in H. apply H. lra. }
  assert (Habs : Qle_bool (Qabs r) max_float = Qle_bool r max_float).
  { rewrite (Qabs_pos r Hr). reflexivity. }
  rewrite Habs. destruct (Qle_bool r max_float); [reflexivity|].
  assert (Hb : Qle_bool 0 q = true) by (apply Qle_bool_iff; lra).
  rewrite Hb. reflexivity.
Qed.

(** [fl] is monotone on the non-negative rationals. *)
Lemma fl_mono (x y : Q) : 0 <= x -> x <= y -> fle (fl x) (fl y) = true.
Proof.
  intros Hx Hxy.
  destruct (Qlt_le_dec 0 x) as [Hpos|Hzero].
  - rewrite (fl_pos_unfold x Hpos), (fl_pos_unfold y) by lra.
    pose proof (fl_round_mono x y Hpos Hxy) as Hr.
    destruct (Qle_bool (round_at 2 (fl_scale x) x) max_float) eqn:Hbx;
      destruct (Qle_bool (round_at 2 (fl_scale y) y) max_float) eqn:Hby;
      cbn; try reflexivity.
    + apply Qle_bool_iff, Hr.
    + apply Qle_bool_iff in Hby.
      assert (Hle : round_at 2 (fl_scale x) x <= max_float) by lra.
      apply Qle_bool_iff in Hle. congruence.
  - assert (Hx0 : Qeq_bool x 0 = true) by (apply Qeq_bool_iff; lra).
    unfold fl at 1. rewrite Hx0.
    pose proof (fl_not_negative y ltac:(lra)) as Hy.
    destruct (fl y) as [r|n|] eqn:Hfy; cbn in *.
    + apply Qle_bool_iff, Hy.
    + subst. reflexivity.
    + unfold fl in Hfy. destruct (Qeq_bool y 0); [discriminate|].
      destruct (Qle_bool _ _); discriminate.
Qed.

End FloatOrder.

Section FloatSymmetry.
Import Rounding PyFloat.

Lemma Qfloor_unique (q : Q) (z : Z) :
  inject_Z z <= q -> q < inject_Z z + 1 -> Qfloor q = z.
Proof.
  intros Hlo Hhi. destruct (Qfloor_bounds q) as [H1 H2].
  assert (Ha : (z <= Qfloor q)%Z).
  { rewrite <- (Qfloor_Z z). apply Qfloor_resp_le, Hlo. }
  assert (Hb : (Qfloor q < z + 1)%Z).
  { rewrite Zlt_Qlt, inject_Z_plus. change (inject_Z 1) with 1.
    apply Qle_lt_trans with q; assumption. }
  lia.
Qed.

Lemma round_half_even_proper (a b : Q) :
  a == b -> round_half_even a = round_half_even b.
Proof.
  intros Hab. unfold round_half_even.
  rewrite (Qfloor_comp _ _ Hab).
  assert (Hc : (a - inject_Z (Qfloor b) ?= 1 # 2)
               = (b - inject_Z (Qfloor b) ?= 1 # 2)).
  { apply Qcompare_comp; [rewrite Hab|]; reflexivity. }
  rewrite Hc. reflexivity.
Qed.

Lemma round_half_even_opp (q : Q) :
  round_half_even (- q) = (- round_half_even q)%Z.
Proof.
  destruct (Qfloor_bounds q) as [Hlo Hhi].
  remember (Qfloor q) as f eqn:Hf.
  destruct (Qeq_dec q (inject_Z f)) as [Hint|Hfrac].
  - assert (Hq : round_half_even q = f).
    { rewrite (round_half_even_proper _ _ Hint). unfold round_half_even.
      rewrite Qfloor_Z.
      assert (Hc : (inject_Z f - inject_Z f ?= 1 # 2) = Lt).
      { apply (proj1 (Qlt_alt _ _)). lra. }
      rewrite Hc. reflexivity. }
    assert (Hn : - q == inject_Z (- f)).
    { rewrite inject_Z_opp, Hint. reflexivity. }
    rewrite Hq, (round_half_even_proper _ _ Hn). unfold round_half_even.
    rewrite Qfloor_Z.
    assert (Hc : (inject_Z (- f) - inject_Z (- f) ?= 1 # 2) = Lt).
    { apply (proj1 (Qlt_alt _ _)). lra. }
    rewrite Hc. reflexivity.
  - assert (Hgt : inject_Z f < q).
    { destruct (Qlt_le_dec (inject_Z f) q) as [H|H]; [exact H|].
      exfalso. apply Hfrac. lra. }
    assert (Hz : inject_Z (- f - 1) == - inject_Z f - 1).
    { unfold Z.sub. rewrite inject_Z_plus, !inject_Z_opp. reflexivity. }
    assert (Hfl : Qfloor (- q) = (- f - 1)%Z).
    { apply Qfloor_unique; rewrite Hz; lra. }
    unfold round_half_even. rewrite Hfl, <- Hf.
    assert (Hev : Z.even (- f - 1) = negb (Z.even f)).
    { rewrite Z.even_sub, Z.even_opp. cbn. destruct (Z.even f); reflexivity. }
    rewrite Hev.
    destruct (Qcompare_spec (q - inject_Z f) (1 # 2)) as [E1|L1|G1];
      destruct (Qcompare_spec (- q - inject_Z (- f - 1)) (1 # 2)) as [E2|L2|G2];
      rewrite Hz in *; try lra; try destruct (Z.even f); cbn; lia.
Qed.

Lemma Qred_eq (a b : Q) : a == b -> Qred a = Qred b.
Proof. apply Qred_complete. Qed.

Lemma round_at_opp (b : Q) (s : Z) (q : Q) :
  0 < b -> round_at b s (- q) = - round_at b s q.
Proof.
  intros Hb. unfold round_at. rewrite <- Qred_opp. apply Qred_eq.
  pose proof (pow_pos b s Hb) as Hp.
  assert (Hd : - q / Qpower b s == - (q / Qpower b s)).
  { field. lra. }
  rewrite (round_half_even_proper _ _ Hd), round_half_even_opp.
  rewrite inject_Z_opp. ring.
Qed.

Lemma Qabs_opp_eq (q : Q) : Qabs (- q) = Qabs q.
Proof. destruct q as [n d]. unfold Qabs, Qopp. cbn. rewrite Z.abs_opp. reflexivity. Qed.

Lemma Qopp_opp_eq (q : Q) : - - q = q.
Proof. destruct q as [n d]. unfold Qopp. cbn. rewrite Z.opp_involutive. reflexivity. Qed.

(** Rounding to binary64 commutes with negation. *)
Lemma fl_opp (q : Q) : fl (- q) = fopp (fl q).
Proof.
  unfold fl.
  assert (Hz : Qeq_bool (- q) 0 = Qeq_bool q 0).
  { destruct (Qeq_bool q 0) eqn:H0.
    - apply Qeq_bool_iff in H0. apply Qeq_bool_iff. lra.
    - destruct (Qeq_bool (- q) 0) eqn:H1; [|reflexivity].
      apply Qeq_bool_iff in H1. assert (H2 : q == 0) by lra.
      apply Qeq_bool_iff in H2. congruence. }
  rewrite Hz. destruct (Qeq_bool q 0) eqn:H0; [reflexivity|].
  rewrite Qabs_opp_eq, round_at_opp by reflexivity.
  rewrite Qabs_opp_eq.
  destruct (Qle_bool _ max_float); cbn [fopp]; [reflexivity|].
  f_equal. f_equal.
  destruct (Qle_bool 0 q) eqn:Hq, (Qle_bool 0 (- q)) eqn:Hn; try reflexivity.
  - apply Qle_bool_iff in Hq, Hn. assert (H2 : q == 0) by lra.
    apply Qeq_bool_iff in H2. congruence.
  - exfalso. destruct (Qlt_le_dec q 0) as [Hlt|Hle].
    + assert (H2 : 0 <= - q) by lra. apply Qle_bool_iff in H2. congruence.
    + apply Qle_bool_iff in Hle. congruence.
Qed.

Lemma Qmult_opp_l_eq (x y : Q) : (- x) * y = - (x * y).
Proof.
  destruct x as [a b], y as [c d]. unfold Qmult, Qopp. cbn.
  rewrite Z.mul_opp_l. reflexivity.
Qed.

Lemma is_zero_fopp (a : pyfloat) : is_zero (fopp a) = is_zero a.
Proof.
  destruct a as [q| |]; cbn; try reflexivity.
  destruct (Qeq_bool q 0) eqn:H0.
  - apply Qeq_bool_iff in H0. apply Qeq_bool_iff. lra.
  - destruct (Qeq_bool (- q) 0) eqn:H1; [|reflexivity].
    apply Qeq_bool_iff in H1. assert (H2 : q == 0) by lra.
    apply Qeq_bool_iff in H2. congruence.
Qed.

Lemma is_neg_fopp (q : Q) :
  is_zero (FFin q) = false ->
  is_neg (FFin (- q)) = negb (is_neg (FFin q)).
Proof.
  cbn. intros Hz.
  destruct (Qle_bool 0 q) eqn:Hq, (Qle_bool 0 (- q)) eqn:Hn; try reflexivity.
  - apply Qle_bool_iff in Hq, Hn. assert (H2 : q == 0) by lra.
    apply Qeq_bool_iff in H2. congruence.
  - exfalso. destruct (Qlt_le_dec q 0) as [Hlt|Hle].
    + assert (H2 : 0 <= - q) by lra. apply Qle_bool_iff in H2. congruence.
    + apply Qle_bool_iff in Hle. congruence.
Qed.

(** [(-a) * b = -(a * b)] on floats. *)
Lemma fmul_fopp_l (a b : pyfloat) : fmul (fopp a) b = fopp (fmul a b).
Proof.
  destruct a as [x|n|], b as [y|m|]; cbn [fmul fopp]; try reflexivity.
  - rewrite Qmult_opp_l_eq. apply fl_opp.
  - pose proof (is_zero_fopp (FFin x)) as Hz. cbn [fopp] in Hz. rewrite Hz.
    destruct (is_zero (FFin x)) eqn:H0; [reflexivity|].
    rewrite (is_neg_fopp x H0).
    cbn [fopp]. f_equal. destruct m, (is_neg (FFin x)); reflexivity.
  - destruct (is_zero (FFin y)); [reflexivity|]. cbn [fopp]. f_equal.
    destruct n, (is_neg (FFin y)); reflexivity.
  - cbn. destruct n, m; reflexivity.
Qed.

End FloatSymmetry.

Section FloatComparisons.
Import Rounding PyFloat FloatBounds.

Ltac float_cases :=
  cbn; intros; try discriminate; try reflexivity;
  repeat match goal with n : bool |- _ => destruct n end;
  cbn in *; try discriminate; try reflexivity; try assumption;
  rewrite ?negb_true_iff, ?negb_false_iff in *;
  try match goal with
      | |- Qle_bool _ _ = true =>
          apply Qle_bool_iff;
          repeat match goal with
                 | H : Qle_bool _ _ = true |- _ => apply Qle_bool_iff in H
                 end; lra
      end.

Lemma fle_trans (a b c : pyfloat) :
  fle a b = true -> fle b c = true -> fle a c = true.
Proof. destruct a as [x|n|], b as [y|m|], c as [z|k|]; float_cases. Qed.

Lemma fle_flt_false (a b : pyfloat) : fle a b = true -> flt b a = false.
Proof. destruct a as [x|n|], b as [y|m|]; float_cases. Qed.

Lemma flt_false_fle (a b : pyfloat) :
  fle a a = true -> fle b b = true -> flt b a = false -> fle a b = true.
Proof. destruct a as [x|n|], b as [y|m|]; float_cases. Qed.

Lemma fle_refl_of_le_l (a b : pyfloat) : fle a b = true -> fle a a = true.
Proof. destruct a as [x|n|], b as [y|m|]; float_cases. Qed.

Lemma fle_refl_of_le_r (a b : pyfloat) : fle a b = true -> fle b b = true.
Proof. destruct a as [x|n|], b as [y|m|]; float_cases. Qed.

Lemma fmin_le_l (a b : pyfloat) :
  fle a a = true -> fle (fmin a b) a = true.
Proof. apply fmin_upper. Qed.

Lemma fmin_le_r (a b : pyfloat) :
  fle a a = true -> fle b b = true -> fle (fmin a b) b = true.
Proof.
  intros Ha Hb. unfold fmin. destruct (flt b a) eqn:H; [exact Hb|].
  apply flt_false_fle; assumption.
Qed.

Lemma fmin_lower (c a b : pyfloat) :
  fle c a = true -> fle c b = true -> fle c (fmin a b) = true.
Proof. intros Ha Hb. unfold fmin. destruct (flt b a); assumption. Qed.

Lemma fle_lt_flt (a : pyfloat) (x y : Q) :
  fle a (FFin x) = true -> x < y -> flt a (FFin y) = true.
Proof.
  destruct a as [q|n|]; cbn; try discriminate; [|auto].
  rewrite Qle_bool_iff. intros Hq Hxy. apply negb_true_iff.
  destruct (Qle_bool y q) eqn:H; [|reflexivity].
  apply Qle_bool_iff in H. lra.
Qed.

Lemma fl_ge0 (q : Q) : 0 <= q -> fle (FFin 0) (fl q) = true.
Proof. intros Hq. apply (fl_mono 0 q); [lra | exact Hq]. Qed.

Lemma fl_lower (b q : Q) :
  fl b = FFin b -> 0 <= b -> b <= q -> fle (FFin b) (fl q) = true.
Proof. intros Hb H0 Hq. rewrite <- Hb. apply fl_mono; assumption. Qed.

Lemma fl_upper (b q : Q) :
  fl b = FFin b -> 0 <= q -> q <= b -> fle (fl q) (FFin b) = true.
Proof. intros Hb H0 Hq. rewrite <- Hb. apply fl_mono; assumption. Qed.

(** A float between two finite bounds is finite. *)
Lemma fle_between (a : pyfloat) (lo hi : Q) :
  fle (FFin lo) a = true -> fle a (FFin hi) = true ->
  exists x, a = FFin x /\ lo <= x /\ x <= hi.
Proof.
  destruct a as [x|n|]; cbn; try discriminate.
  - rewrite !Qle_bool_iff. eauto.
  - intros H ->. discriminate.
Qed.

Lemma fmul_ge0 (a : pyfloat) (c : Q) :
  fle (FFin 0) a = true -> 0 < c -> fle (FFin 0) (fmul a (FFin c)) = true.
Proof.
  intros Ha Hc. destruct a as [x|n|]; cbn in *; try discriminate.
  - apply Qle_bool_iff in Ha. apply fl_ge0. nra.
  - destruct (Qeq_bool c 0) eqn:H0.
    + apply Qeq_bool_iff in H0. lra.
    + destruct n; [discriminate|].
      assert (Hb : Qle_bool 0 c = true) by (apply Qle_bool_iff; lra).
      rewrite Hb. reflexivity.
Qed.

Lemma fadd_lower (b : Q) (t : pyfloat) :
  fl b = FFin b -> 0 <= b -> fle (FFin 0) t = true ->
  fle (FFin b) (fadd (FFin b) t) = true.
Proof.
  intros Hb H0 Ht. destruct t as [y|n|]; cbn in *; try discriminate.
  - apply Qle_bool_iff in Ht. apply fl_lower; [assumption | assumption | lra].
  - exact Ht.
Qed.

End FloatComparisons.

Section DecimalRounding.
Import Rounding PyFloat FloatBounds.

Lemma round_dec_nonneg (d : Z) (q : Q) : 0 <= q -> 0 <= round_dec d q.
Proof.
  intros Hq. unfold round_dec. destruct (Qeq_bool q 0); [lra|].
  pose proof (round_at_lower 10 (ilog10 (Qabs q) - d + 1) q 0 eq_refl) as H.
  rewrite Qmult_0_l in H. apply H, Hq.
Qed.

Lemma pow10_ge1 (n : Z) : (0 <= n)%Z -> 1 <= Qpower 10 n.
Proof.
  intros Hn. rewrite <- (Zpower_Qpower 10) by exact Hn.
  change 1 with (inject_Z 1). rewrite <- Zle_Qle.
  pose proof (Z.pow_pos_nonneg 10 n ltac:(lia) Hn). lia.
Qed.

Lemma ilog10_up_neg (fuel : nat) (q : Q) : forall e,
  q < 1 -> (e < 0)%Z -> (ilog10_up fuel q e < 0)%Z.
Proof.
  induction fuel as [|k IH]; intros e Hq He; cbn; [exact He|].
  destruct (Qle_bool (Qpower 10 (e + 1)) q) eqn:Hb; [|exact He].
  apply IH; [exact Hq|]. apply Qle_bool_iff in Hb.
  destruct (Z_lt_le_dec (e + 1) 0) as [Hlt|Hge]; [exact Hlt|].
  pose proof (pow10_ge1 (e + 1) Hge). lra.
Qed.

Lemma ilog10_neg (q : Q) : 0 < q -> q < 1 -> (ilog10 q < 0)%Z.
Proof.
  intros H0 H1. unfold ilog10. apply ilog10_up_neg; [exact H1|].
  assert (Hl : (ilog2 q < 0)%Z).
  { apply pow2_lt_inv. pose proof (ilog2_lower q H0).
    change (Qpower 2 0) with 1. lra. }
  assert ((ilog2 q * 30103 / 100000 < 0)%Z).
  { apply Z.div_lt_upper_bound; lia. }
  lia.
Qed.

(** Rounding a number of the unit interval to 100 digits does not cross a
    bound that has at most 100 decimals. *)
Lemma round_dec_upper (q B : Q) (k : Z) :
  0 <= q -> q < 1 -> q <= B -> B == inject_Z k * Qpower 10 (-100) ->
  round_dec 100 q <= B.
Proof.
  intros H0 H1 HB Hk. unfold round_dec.
  destruct (Qeq_bool q 0) eqn:Hz; [lra|].
  assert (Hpos : 0 < q).
  { destruct (Qlt_le_dec 0 q) as [H|H]; [exact H|].
    assert (H2 : q == 0) by lra. apply Qeq_bool_iff in H2. congruence. }
  rewrite (Qabs_of_pos q Hpos).
  pose proof (ilog10_neg q Hpos H1) as Hl.
  set (s := (ilog10 q - 100 + 1)%Z).
  assert (Hs : (s <= -100)%Z) by (subst s; lia).
  assert (Hm : B == inject_Z (k * 10 ^ (-100 - s)) * Qpower 10 s).
  { rewrite Hk, inject_Z_mult, Zpower_Qpower by lia.
    rewrite <- Qmult_assoc, <- Qpower_plus by discriminate.
    replace (-100 - s + s)%Z with (-100)%Z by lia. reflexivity. }
  rewrite Hm. apply round_at_upper; [reflexivity|]. rewrite <- Hm. exact HB.
Qed.

End DecimalRounding.

Section ConfidenceProperties.
Import Rounding PyFloat PyDecimal LeiV StageFacts Assessments.

Ltac order_cases :=
  repeat match goal with
  | |- context [negb (Qle_bool ?t ?v)] =>
      let Hb := fresh "Hb" in
      destruct (negb (Qle_bool t v)) eqn:Hb;
      [apply negb_Qle_bool_true in Hb | apply negb_Qle_bool_false in Hb]
  end.

Lemma classify_healthy (q : Q) :
  q < 18 # 1000 -> classify default_thresholds (DFin q) = Ok HEALTHY.
Proof.
  intros Hq. unfold classify, mbind, result_bind, lt, default_thresholds.
  cbn [stage_0_threshold advanced_threshold].
  order_cases; first [reflexivity | exfalso; lra].
Qed.

Lemma classify_stage_0 (q : Q) :
  18 # 1000 <= q -> q < 8 # 100 ->
  classify default_thresholds (DFin q) = Ok STAGE_0.
Proof.
  intros Hq Hq'. unfold classify, mbind, result_bind, lt, default_thresholds.
  cbn [stage_0_threshold advanced_threshold].
  order_cases; first [reflexivity | exfalso; lra].
Qed.

Lemma classify_advanced (q : Q) :
  8 # 100 <= q ->
  exists st, classify default_thresholds (DFin q) = Ok st /\ advanced st = true.
Proof.
  intros Hq. unfold classify, mbind, result_bind, lt, default_thresholds.
  cbn [stage_0_threshold advanced_threshold].
  order_cases; first [eexists; split; reflexivity | exfalso; lra].
Qed.

Lemma confidence_tail (b k : Q) (m : pyfloat) :
  fl b = FFin b -> 0 <= b -> b <= 99 -> 0 < k ->
  fle (FFin 0) m = true ->
  fle (FFin b) (fmin (FFin 99) (fadd (FFin b) (fmul m (FFin k)))) = true
  /\ fle (fmin (FFin 99) (fadd (FFin b) (fmul m (FFin k)))) (FFin 99) = true.
Proof.
  intros Hb H0 H99 Hk Hm. split.
  - apply fmin_lower.
    + cbn. apply Qle_bool_iff, H99.
    + apply fadd_lower; [assumption | assumption |]. apply fmul_ge0; assumption.
  - apply fmin_le_l. reflexivity.
Qed.

Lemma to_float_sub_ge0 (x y : Q) :
  y <= x ->
  exists m, sub (DFin x) (DFin y) = Ok m /\ fle (FFin 0) (to_float m) = true.
Proof.
  intros Hxy. eexists. split; [reflexivity|]. cbn [to_float].
  apply fl_ge0, round_dec_nonneg. lra.
Qed.

Lemma lit_80 : lit 80 = FFin 80. Proof. vm_compute. reflexivity. Qed.
Lemma lit_99 : lit 99 = FFin 99. Proof. vm_compute. reflexivity. Qed.
Lemma lit_500 : lit 500 = FFin 500. Proof. vm_compute. reflexivity. Qed.
Lemma lit_95 : lit 95 = FFin 95. Proof. vm_compute. reflexivity. Qed.
Lemma lit_70 : lit 70 = FFin 70. Proof. vm_compute. reflexivity. Qed.
Lemma lit_200 : lit 200 = FFin 200. Proof. vm_compute. reflexivity. Qed.
Lemma lit_85 : lit 85 = FFin 85. Proof. vm_compute. reflexivity. Qed.
Lemma lit_50 : lit 50 = FFin 50. Proof. vm_compute. reflexivity. Qed.
Lemma lit_76_25 : lit 76.25 = FFin (305 # 4). Proof. vm_compute. reflexivity. Qed.

Lemma stage_0_margin (q : Q) :
  18 # 1000 <= q -> q < 8 # 100 ->
  let lo := fl (round_dec prec (q - (18 # 1000))) in
  let hi := fl (round_dec prec ((8 # 100) - q)) in
  fle (FFin 0) (fmin lo hi) = true /\ fle (fmin lo hi) (FFin (1 # 32)) = true.
Proof.
  intros Hq Hq' lo hi.
  assert (Hlo : fle (FFin 0) lo = true).
  { apply fl_ge0, round_dec_nonneg. lra. }
  assert (Hhi : fle (FFin 0) hi = true).
  { apply fl_ge0, round_dec_nonneg. lra. }
  split; [apply fmin_lower; assumption|].
  assert (H32 : fl (1 # 32) = FFin (1 # 32)) by (vm_compute; reflexivity).
  assert (Hk : 1 # 32 == inject_Z (3125 * 10 ^ 95) * Qpower 10 (-100)).
  { apply Qeq_bool_iff. vm_compute. reflexivity. }
  destruct (Qlt_le_dec (q - (18 # 1000)) (1 # 32)) as [Hsmall|Hlarge].
  - apply fle_trans with lo.
    + apply fmin_le_l. exact (fle_refl_of_le_r _ _ Hlo).
    + apply fl_upper; [exact H32 | apply round_dec_nonneg; lra |].
      unfold prec.
      apply (round_dec_upper (q - (18 # 1000)) (1 # 32) (3125 * 10 ^ 95));
        [lra | lra | lra | exact Hk].
  - apply fle_trans with hi.
    + apply fmin_le_r.
      * exact (fle_refl_of_le_r _ _ Hlo).
      * exact (fle_refl_of_le_r _ _ Hhi).
    + apply fl_upper; [exact H32 | apply round_dec_nonneg; lra |].
      unfold prec.
      apply (round_dec_upper ((8 # 100) - q) (1 # 32) (3125 * 10 ^ 95));
        [lra | lra | lra | exact Hk].
Qed.

Lemma stage_0_tail (m : pyfloat) :
  fle (FFin 0) m = true -> fle m (FFin (1 # 32)) = true ->
  fle (FFin 70) (fmin (FFin 95) (fadd (FFin 70) (fmul m (FFin 200)))) = true
  /\ fle (fmin (FFin 95) (fadd (FFin 70) (fmul m (FFin 200)))) (FFin (305 # 4))
     = true.
Proof.
  intros H0 H1. destruct (fle_between m _ _ H0 H1) as (x & -> & Hx0 & Hx1).
  cbn [fmul].
  assert (Hp : fle (FFin 0) (fl (x * 200)) = true) by (apply fl_ge0; lra).
  assert (Hq : fle (fl (x * 200)) (FFin (25 # 4)) = true).
  { apply fl_upper; [vm_compute; reflexivity | lra | lra]. }
  destruct (fle_between _ _ _ Hp Hq) as (y & -> & Hy0 & Hy1).
  cbn [fadd].
  assert (Hs : fle (FFin 70) (fl (70 + y)) = true).
  { apply fl_lower; [vm_compute; reflexivity | lra | lra]. }
  assert (Ht : fle (fl (70 + y)) (FFin (305 # 4)) = true).
  { apply fl_upper; [vm_compute; reflexivity | lra | lra]. }
  split.
  - apply fmin_lower; [reflexivity | exact Hs].
  - apply fle_trans with (fl (70 + y)); [|exact Ht].
    apply fmin_le_r; [reflexivity | exact (fle_refl_of_le_r _ _ Hs)].
Qed.

(** The confidence that goes with the stage of a value, for the default
    thresholds: 80 to 99 for Healthy, 70 to 76.25 for Stage-0, 85 to 99 for
    the later stages. *)
Lemma confidence_bounds (v : Decimal) :
  v <> DNaN ->
  exists st c,
    classify default_thresholds v = Ok st
    /\ _calculate_confidence default_thresholds v st = Ok c
    /\ match st with
       | HEALTHY => fle (lit 80) c && fle c (lit 99)
       | STAGE_0 => fle (lit 70) c && fle c (lit 76.25)
       | _ => fle (lit 85) c && fle c (lit 99)
       end = true.
Proof.
  intros Hv. rewrite lit_80, lit_99, lit_70, lit_85, lit_76_25.
  destruct v as [q|n|]; [| |contradiction].
  - destruct (Qlt_le_dec q (18 # 1000)) as [H1|H1].
    { exists HEALTHY. rewrite (classify_healthy q H1).
      unfold _calculate_confidence. cbn [stage_0_threshold default_thresholds].
      destruct (to_float_sub_ge0 (18 # 1000) q ltac:(lra)) as (m & -> & Hm).
      cbn [mbind result_bind]. rewrite lit_80, lit_99, lit_500.
      eexists. split; [reflexivity|]. split; [reflexivity|].
      destruct (confidence_tail 80 500 (to_float m) lit_80 ltac:(lra)
                  ltac:(lra) ltac:(lra) Hm) as [-> ->].
      reflexivity. }
    destruct (Qlt_le_dec q (8 # 100)) as [H2|H2].
    { exists STAGE_0. rewrite (classify_stage_0 q H1 H2).
      unfold _calculate_confidence.
      cbn [stage_0_threshold advanced_threshold default_thresholds sub
           mbind result_bind to_float].
      rewrite lit_95, lit_70, lit_200.
      eexists. split; [reflexivity|]. split; [reflexivity|].
      destruct (stage_0_margin q H1 H2) as [Ha Hb].
      destruct (stage_0_tail _ Ha Hb) as [-> ->]. reflexivity. }
    destruct (classify_advanced q H2) as (st & Hst & Hadv).
    exists st. rewrite Hst.
    assert (Hc : _calculate_confidence default_thresholds (DFin q) st
                 = (m ← sub (DFin q) (advanced_threshold default_thresholds);
                    Ok (fmin (lit 99) (fadd (lit 85) (fmul (to_float m) (lit 50)))))).
    { destruct st; try discriminate; reflexivity. }
    rewrite Hc. cbn [advanced_threshold default_thresholds].
    destruct (to_float_sub_ge0 q (8 # 100) H2) as (m & -> & Hm).
    cbn [mbind result_bind]. rewrite lit_85, lit_99, lit_50.
    eexists. split; [reflexivity|]. split; [reflexivity|].
    destruct (confidence_tail 85 50 (to_float m) lit_85 ltac:(lra)
                ltac:(lra) ltac:(lra) Hm) as [-> ->].
    destruct st; try discriminate; reflexivity.
  - destruct n.
    + exists HEALTHY. eexists. split; [reflexivity|].
      split; [reflexivity|]. vm_compute. reflexivity.
    + exists STAGE_IV. eexists. split; [reflexivity|].
      split; [reflexivity|]. vm_compute. reflexivity.
Qed.

End ConfidenceProperties.

Section ComputeTotality.
Import Rounding PyFloat PyDecimal LeiV StageFacts Assessments.
Context {E : Type} {EX : Exact E} {RT : PyRuntime}.

Lemma fl_not_nan (q : Q) : fl q <> FNaN.
Proof.
  unfold fl. destruct (Qeq_bool q 0); [discriminate|].
  destruct (Qle_bool _ _); discriminate.
Qed.

Lemma stored_lei_v_not_nan (rs : list E) : stored_lei_v rs <> DNaN.
Proof.
  unfold stored_lei_v, N_float.
  pose proof (fl_not_nan (evalf (dps_to_prec 50) (symbolic_lei_v rs))) as H.
  destruct (fl _); [discriminate | discriminate | contradiction].
Qed.

(** What a successful [compute] does to the audit trail: one call of
    [hash_computation] on the calculator's hasher. *)
Lemma compute_audit (c : LEIVCalculator) (t0 t1 t2 : datetime)
    (rs : list E) (pid : string) (cycle_day v_caw_hour : option Z)
    (st : DiagnosticStage) (conf : pyfloat) :
  length rs = 6%nat ->
  classify (thresholds c) (stored_lei_v rs) = Ok st ->
  _calculate_confidence (thresholds c) (stored_lei_v rs) st = Ok conf ->
  exists r c' data,
    compute c t0 t1 t2 rs pid cycle_day v_caw_hour = (Ok r, c')
    /\ stage r = st
    /\ confidence_percent r = conf
    /\ lei_v_value r = stored_lei_v rs
    /\ audit_hash r = fst (Audit.hash_computation (hasher c) t1 t2 data)
    /\ hasher c' = snd (Audit.hash_computation (hasher c) t1 t2 data)
    /\ thresholds c' = thresholds c
    /\ length (radial_distances r) = 6%nat
    /\ length (variance_components r) = 6%nat
    /\ LeiV.patient_id r = pid.
Proof.
  intros Hlen Hst Hconf. unfold compute, stored_lei_v, symbolic_lei_v in *.
  rewrite Hlen. cbv zeta in *. cbn [Nat.eqb NUM_ELECTRODES negb].
  rewrite Hst, Hconf.
  eexists _, _, _. split; [reflexivity|]. cbn.
  rewrite !length_map, Hlen. repeat split; reflexivity.
Qed.

End ComputeTotality.

Section AssessmentProperties.
Import Rounding PyFloat PyDecimal LeiV StageFacts Assessments.
Context {E : Type} {EX : Exact E} {RT : PyRuntime}.

Lemma well_linked_verifies (h : Audit.AuditHasher) :
  Audit.well_linked h -> Audit.verify_chain_integrity h = true.
Proof.
  intros [Hv _]. unfold Audit.verify_chain_integrity.
  destruct (Audit._chain h); [reflexivity | exact Hv].
Qed.

(** X1.  With the default thresholds, every value that is not a NaN gets a
    stage and a confidence, and the confidence lies in the range of its
    stage: 80 to 99 for Healthy, 70 to 76.25 for Stage-0, 85 to 99 for
    Stage I and later. *)
Theorem confidence_within_stage_range (v : Decimal) :
  v <> DNaN ->
  exists st c,
    classify default_thresholds v = Ok st
    /\ _calculate_confidence default_thresholds v st = Ok c
    /\ match st with
       | HEALTHY => fle (lit 80) c && fle c (lit 99)
       | STAGE_0 => fle (lit 70) c && fle c (lit 76.25)
       | _ => fle (lit 85) c && fle c (lit 99)
       end = true.
Proof. exact (confidence_bounds v). Qed.

(** X2.  For any six radii, [compute] with the default thresholds returns,
    and the next steps derived from its stage and confidence start with the
    advice to repeat the assessment exactly when the stage is Stage-0: a
    Stage-0 confidence is always under 80, any other is at least 80. *)
Theorem next_steps_repeat_exactly_for_stage_0 (h : Audit.AuditHasher)
    (t0 t1 t2 : datetime) (rs : list E) (pid : string)
    (cycle_day v_caw_hour : option Z) :
  length rs = 6%nat ->
  exists res c',
    compute {| thresholds := default_thresholds; hasher := h |} t0 t1 t2 rs
            pid cycle_day v_caw_hour = (Ok res, c')
    /\ _get_next_steps (stage_value (stage res)) (confidence_percent res)
       = match stage res with
         | HEALTHY =>
             ["Continue routine monitoring"; "Annual follow-up recommended"]
         | STAGE_0 =>
             ["Repeat assessment recommended (low confidence)";
              "96-hour V-CAW EVG confirmation";
              "Saliva miRNA panel (selected biomarkers)";
              "Gynecology specialist referral";
              "Consider medical management trial"]
         | _ =>
             ["Immediate specialist referral";
              "TVUS/MRI imaging recommended";
              "Laparoscopic evaluation discussion";
              "Pain management consultation"]
         end.
Proof.
  intros Hlen.
  destruct (confidence_bounds (stored_lei_v rs) (stored_lei_v_not_nan rs))
    as (st & c & Hst & Hc & Hrange).
  destruct (compute_audit {| thresholds := default_thresholds; hasher := h |}
              t0 t1 t2 rs pid cycle_day v_caw_hour st c Hlen Hst Hc)
    as (res & c' & data & Hrun & Hs & Hconf & _).
  exists res, c'. split; [exact Hrun|]. rewrite Hs, Hconf.
  unfold _get_next_steps. rewrite lit_80.
  rewrite lit_80, lit_99, lit_70, lit_85, lit_76_25 in Hrange.
  assert (H85 : fle (FFin 80) (FFin 85) = true) by reflexivity.
  destruct st; apply andb_true_iff in Hrange as [Hlo Hhi];
    first [ rewrite (fle_flt_false _ _ Hlo); reflexivity
          | rewrite (fle_lt_flt c (305 # 4) 80 Hhi ltac:(reflexivity));
            reflexivity
          | rewrite (fle_flt_false _ _ (fle_trans _ _ _ H85 Hlo));
            reflexivity ].
Qed.

(** X3.  On six radii and default thresholds [compute] never raises,
    whatever the values; it appends exactly one entry to the audit chain,
    linked to the previous last hash; the result's [audit_hash] is that
    entry's hash, a 64-digit hexadecimal digest, and the new last hash; the
    chain still verifies and the thresholds are unchanged. *)
Theorem compute_six_radii_returns_audited (c : LEIVCalculator)
    (t0 t1 t2 : datetime) (rs : list E) (pid : string)
    (cycle_day v_caw_hour : option Z) :
  length rs = 6%nat ->
  thresholds c = default_thresholds ->
  Audit.well_linked (hasher c) ->
  exists res c' e,
    compute c t0 t1 t2 rs pid cycle_day v_caw_hour = (Ok res, c')
    /\ Sha256.is_hexdigest (audit_hash res) = true
    /\ Audit._chain (hasher c') = Audit._chain (hasher c) ++ [e]
    /\ Audit.entry_hash e = audit_hash res
    /\ Audit.previous_hash e = Audit._last_hash (hasher c)
    /\ Audit._last_hash (hasher c') = audit_hash res
    /\ Audit.verify_chain_integrity (hasher c') = true
    /\ thresholds c' = thresholds c
    /\ LeiV.patient_id res = pid
    /\ length (radial_distances res) = 6%nat.
Proof.
  intros Hlen Hth Hwl.
  destruct (confidence_bounds (stored_lei_v rs) (stored_lei_v_not_nan rs))
    as (st & conf & Hst & Hc & _).
  rewrite <- Hth in Hst, Hc.
  destruct (compute_audit c t0 t1 t2 rs pid cycle_day v_caw_hour st conf
              Hlen Hst Hc)
    as (res & c' & data & Hrun & _ & _ & _ & Hh & Hc' & Ht & Hr & _ & Hp).
  destruct (hash_computation_chain (hasher c) t1 t2 data)
    as (e & Hchain & Hprev & Hent & Hlast & _).
  exists res, c', e. rewrite Hc', Hh.
  split; [exact Hrun|].
  split; [apply hash_computation_digest|].
  split; [exact Hchain|]. split; [exact Hent|]. split; [exact Hprev|].
  split; [rewrite Hlast; exact Hent|].
  split; [apply well_linked_verifies, hash_computation_well_linked, Hwl|].
  auto.
Qed.

End AssessmentProperties.

Lemma confidence_within_stage_range_witness :
  exists st c,
    LeiV.classify LeiV.default_thresholds (PyDecimal.DFin (5 # 100)) = Ok st
    /\ LeiV._calculate_confidence LeiV.default_thresholds
         (PyDecimal.DFin (5 # 100)) st = Ok c
    /\ match st with
       | LeiV.HEALTHY =>
           PyFloat.fle (PyFloat.lit 80) c && PyFloat.fle c (PyFloat.lit 99)
       | LeiV.STAGE_0 =>
           PyFloat.fle (PyFloat.lit 70) c && PyFloat.fle c (PyFloat.lit 76.25)
       | _ => PyFloat.fle (PyFloat.lit 85) c && PyFloat.fle c (PyFloat.lit 99)
       end = true.
Proof.
  apply (confidence_within_stage_range (PyDecimal.DFin (5 # 100))).
  discriminate.
Defined.

Lemma next_steps_repeat_exactly_for_stage_0_witness :
  exists res c',
    LeiV.compute (RT := example_runtime)
      {| LeiV.thresholds := LeiV.default_thresholds;
         LeiV.hasher := Audit.new None |} 0%Z 1%Z 2%Z
      LeiVChecks.example_radii "ENDO-2025-001" (Some 14%Z) (Some 48%Z)
      = (Ok res, c')
    /\ Assessments._get_next_steps (LeiV.stage_value (LeiV.stage res))
         (LeiV.confidence_percent res)
       = match LeiV.stage res with
         | LeiV.HEALTHY =>
             ["Continue routine monitoring"; "Annual follow-up recommended"]
         | LeiV.STAGE_0 =>
             ["Repeat assessment recommended (low confidence)";
              "96-hour V-CAW EVG confirmation";
              "Saliva miRNA panel (selected biomarkers)";
              "Gynecology specialist referral";
              "Consider medical management trial"]
         | _ =>
             ["Immediate specialist referral";
              "TVUS/MRI imaging recommended";
              "Laparoscopic evaluation discussion";
              "Pain management consultation"]
         end.
Proof.
  exact (next_steps_repeat_exactly_for_stage_0 (RT := example_runtime)
           (Audit.new None) 0%Z 1%Z 2%Z LeiVChecks.example_radii
           "ENDO-2025-001" (Some 14%Z) (Some 48%Z) eq_refl).
Defined.

Lemma compute_six_radii_returns_audited_witness :
  exists res c' e,
    LeiV.compute (RT := example_runtime) (LeiV.new None) 0%Z 1%Z 2%Z
      LeiVChecks.example_radii "ENDO-2025-001" None None = (Ok res, c')
    /\ Sha256.is_hexdigest (LeiV.audit_hash res) = true
    /\ Audit._chain (LeiV.hasher c')
       = Audit._chain (LeiV.hasher (LeiV.new None)) ++ [e]
    /\ Audit.entry_hash e = LeiV.audit_hash res
    /\ Audit.previous_hash e = Audit._last_hash (LeiV.hasher (LeiV.new None))
    /\ Audit._last_hash (LeiV.hasher c') = LeiV.audit_hash res
    /\ Audit.verify_chain_integrity (LeiV.hasher c') = true
    /\ LeiV.thresholds c' = LeiV.thresholds (LeiV.new None)
    /\ LeiV.patient_id res = "ENDO-2025-001"
    /\ length (LeiV.radial_distances res) = 6%nat.
Proof.
  exact (compute_six_radii_returns_audited (RT := example_runtime)
           (LeiV.new None) 0%Z 1%Z 2%Z LeiVChecks.example_radii
           "ENDO-2025-001" None None eq_refl eq_refl
           (conj eq_refl eq_refl)).
Defined.

Section IndexInvariance.
Import Rounding PyFloat PyDecimal LeiV LeiVChecks.
Context {E : Type} {EX : Exact E} {RT : PyRuntime}.

Add Ring exact_ring_invariance : ex_ring.

Lemma fold_left_ex_add (l : list E) : forall a,
  fold_left ex_add l a = ex_add a (fold_right ex_add ex_zero l).
Proof.
  induction l as [|x l IH]; intros a; cbn.
  - ring.
  - rewrite IH. ring.
Qed.

Lemma ex_sum_permutation (l l' : list E) :
  Permutation l l' -> ex_sum l = ex_sum l'.
Proof.
  intros Hp. unfold ex_sum. rewrite !fold_left_ex_add. f_equal.
  induction Hp; cbn.
  - reflexivity.
  - rewrite IHHp. reflexivity.
  - ring.
  - congruence.
Qed.

Lemma symbolic_lei_v_permutation (rs rs' : list E) :
  Permutation rs rs' -> symbolic_lei_v rs = symbolic_lei_v rs'.
Proof.
  intros Hp. unfold symbolic_lei_v, simplify. cbv zeta.
  rewrite (ex_sum_permutation rs rs' Hp).
  apply ex_sum_permutation, Permutation_map, Hp.
Qed.

Lemma six_inverse :
  ex_mul (ex_inv (ex_int 6)) (ex_int 6) = ex_one.
Proof. apply (Finv_l ex_field), ex_electrodes_invertible. Qed.

Lemma mean_shift (d a b c e f g : E) :
  ex_div (ex_sum (map (ex_add d) [a; b; c; e; f; g])) (ex_int 6)
  = ex_add d (ex_div (ex_sum [a; b; c; e; f; g]) (ex_int 6)).
Proof.
  unfold ex_sum. cbn [map fold_left]. rewrite !(Fdiv_def ex_field).
  pose proof six_inverse as Hinv. revert Hinv. unfold ex_int.
  generalize (ex_inv (InitialRing.gen_phiZ ex_zero ex_one ex_add ex_mul ex_opp 6)).
  cbv [InitialRing.gen_phiZ InitialRing.gen_phiPOS InitialRing.gen_phiPOS1].
  intros i Hi.
  transitivity
    (ex_add (ex_mul d (ex_mul i (ex_mul (ex_add ex_one ex_one)
                                  (ex_add ex_one (ex_add ex_one ex_one)))))
            (ex_mul (ex_add (ex_add (ex_add (ex_add (ex_add a b) c) e) f) g) i)).
  - ring.
  - rewrite Hi. ring.
Qed.

Lemma symbolic_lei_v_shift (d : E) (rs : list E) :
  length rs = 6%nat ->
  symbolic_lei_v (map (ex_add d) rs) = symbolic_lei_v rs.
Proof.
  intros Hlen.
  destruct rs as [|a [|b [|c [|e [|f [|g [|]]]]]]]; try discriminate.
  unfold symbolic_lei_v, simplify. cbv zeta.
  change (Z.of_nat NUM_ELECTRODES) with 6%Z.
  rewrite mean_shift.
  generalize (ex_div (ex_sum [a; b; c; e; f; g]) (ex_int 6)). intros m.
  unfold ex_sum. cbn [map fold_left]. ring.
Qed.


Lemma compute_same_index (h h' : Audit.AuditHasher)
    (t0 t1 t2 t0' t1' t2' : datetime) (rs rs' : list E) (pid pid' : string)
    (cycle_day v_caw_hour cycle_day' v_caw_hour' : option Z) :
  length rs = 6%nat -> length rs' = 6%nat ->
  symbolic_lei_v rs' = symbolic_lei_v rs ->
  exists res c1 res' c1',
    compute {| thresholds := default_thresholds; hasher := h |} t0 t1 t2 rs
            pid cycle_day v_caw_hour = (Ok res, c1)
    /\ compute {| thresholds := default_thresholds; hasher := h' |}
               t0' t1' t2' rs' pid' cycle_day' v_caw_hour' = (Ok res', c1')
    /\ lei_v_symbolic res' = lei_v_symbolic res
    /\ lei_v_value res' = lei_v_value res
    /\ stage res' = stage res
    /\ confidence_percent res' = confidence_percent res.
Proof.
  intros Hlen Hlen' Hsym.
  assert (Hv : stored_lei_v rs' = stored_lei_v rs).
  { unfold stored_lei_v. rewrite Hsym. reflexivity. }
  destruct (confidence_bounds (stored_lei_v rs) (stored_lei_v_not_nan rs))
    as (st & c & Hst & Hc & _).
  destruct (compute_ok {| thresholds := default_thresholds; hasher := h |}
              t0 t1 t2 rs pid cycle_day v_caw_hour st c Hlen Hst Hc)
    as (res & c1 & Hrun & Hs1 & Hv1 & Hst1 & Hc1 & _).
  rewrite <- Hv in Hst, Hc.
  destruct (compute_ok {| thresholds := default_thresholds; hasher := h' |}
              t0' t1' t2' rs' pid' cycle_day' v_caw_hour' st c Hlen' Hst Hc)
    as (res' & c1' & Hrun' & Hs2 & Hv2 & Hst2 & Hc2 & _).
  exists res, c1, res', c1'.
  rewrite Hs1, Hs2, Hv1, Hv2, Hst1, Hst2, Hc1, Hc2.
  repeat split; assumption.
Qed.

(** X4.  The index does not depend on the order of the electrodes: on six
    radii and on any rearrangement of them [compute] (default thresholds)
    returns the same symbolic index, stored value, stage and confidence,
    whatever the patient, the time and the state of the audit chain. *)
Theorem compute_independent_of_electrode_order (h h' : Audit.AuditHasher)
    (t0 t1 t2 t0' t1' t2' : datetime) (rs rs' : list E) (pid pid' : string)
    (cycle_day v_caw_hour cycle_day' v_caw_hour' : option Z) :
  length rs = 6%nat -> Permutation rs rs' ->
  exists res c1 res' c1',
    compute {| thresholds := default_thresholds; hasher := h |} t0 t1 t2 rs
            pid cycle_day v_caw_hour = (Ok res, c1)
    /\ compute {| thresholds := default_thresholds; hasher := h' |}
               t0' t1' t2' rs' pid' cycle_day' v_caw_hour' = (Ok res', c1')
    /\ lei_v_symbolic res' = lei_v_symbolic res
    /\ lei_v_value res' = lei_v_value res
    /\ stage res' = stage res
    /\ confidence_percent res' = confidence_percent res.
Proof.
  intros Hlen Hp. apply compute_same_index; [exact Hlen | |].
  - rewrite <- (Permutation_length Hp). exact Hlen.
  - symmetry. apply symbolic_lei_v_permutation, Hp.
Qed.

(** X5.  The index does not depend on a common offset: adding the same
    exact amount to all six radii leaves the symbolic index, the stored
    value, the stage and the confidence returned by [compute] unchanged. *)
Theorem compute_independent_of_common_offset (h h' : Audit.AuditHasher)
    (t0 t1 t2 t0' t1' t2' : datetime) (d : E) (rs : list E)
    (pid pid' : string)
    (cycle_day v_caw_hour cycle_day' v_caw_hour' : option Z) :
  length rs = 6%nat ->
  exists res c1 res' c1',
    compute {| thresholds := default_thresholds; hasher := h |} t0 t1 t2 rs
            pid cycle_day v_caw_hour = (Ok res, c1)
    /\ compute {| thresholds := default_thresholds; hasher := h' |}
               t0' t1' t2' (map (ex_add d) rs) pid' cycle_day' v_caw_hour'
       = (Ok res', c1')
    /\ lei_v_symbolic res' = lei_v_symbolic res
    /\ lei_v_value res' = lei_v_value res
    /\ stage res' = stage res
    /\ confidence_percent res' = confidence_percent res.
Proof.
  intros Hlen. apply compute_same_index; [exact Hlen | |].
  - rewrite length_map. exact Hlen.
  - apply symbolic_lei_v_shift, Hlen.
Qed.

(** X6.  [verify_rotation_invariance] cannot fail: for every list of exact
    radii, of any length, and every angle, the drift it forms is a number
    minus itself, so the answer is [(True, 0)]. *)
Theorem verify_rotation_invariance_always_true (is_zero : E -> bool)
    (rs : list E) (angle : E) :
  is_zero ex_zero = true ->
  verify_rotation_invariance is_zero rs angle = (true, ex_zero).
Proof.
  intros Hz. unfold verify_rotation_invariance, simplify. cbv zeta.
  match goal with
  | |- context [ex_sub ?x ?x] => replace (ex_sub x x) with ex_zero by ring
  end.
  rewrite Hz. reflexivity.
Qed.

End IndexInvariance.

Lemma compute_independent_of_electrode_order_witness :
  exists res c1 res' c1',
    LeiV.compute (RT := example_runtime)
      {| LeiV.thresholds := LeiV.default_thresholds;
         LeiV.hasher := Audit.new None |} 0%Z 1%Z 2%Z LeiVChecks.example_radii
      "ENDO-2025-001" (Some 14%Z) (Some 48%Z) = (Ok res, c1)
    /\ LeiV.compute (RT := example_runtime)
         {| LeiV.thresholds := LeiV.default_thresholds;
            LeiV.hasher := Audit.new None |} 3%Z 4%Z 5%Z
         (rev LeiVChecks.example_radii) "ENDO-2025-001" None None = (Ok res', c1')
    /\ LeiV.lei_v_symbolic res' = LeiV.lei_v_symbolic res
    /\ LeiV.lei_v_value res' = LeiV.lei_v_value res
    /\ LeiV.stage res' = LeiV.stage res
    /\ LeiV.confidence_percent res' = LeiV.confidence_percent res.
Proof.
  exact (compute_independent_of_electrode_order (RT := example_runtime)
           (Audit.new None) (Audit.new None) 0%Z 1%Z 2%Z 3%Z 4%Z 5%Z
           LeiVChecks.example_radii (rev LeiVChecks.example_radii) "ENDO-2025-001" "ENDO-2025-001"
           (Some 14%Z) (Some 48%Z) None None eq_refl
           (Permutation_rev LeiVChecks.example_radii)).
Defined.

Lemma compute_independent_of_common_offset_witness :
  exists res c1 res' c1',
    LeiV.compute (RT := example_runtime)
      {| LeiV.thresholds := LeiV.default_thresholds;
         LeiV.hasher := Audit.new None |} 0%Z 1%Z 2%Z LeiVChecks.example_radii
      "ENDO-2025-001" None None = (Ok res, c1)
    /\ LeiV.compute (RT := example_runtime)
         {| LeiV.thresholds := LeiV.default_thresholds;
            LeiV.hasher := Audit.new None |} 3%Z 4%Z 5%Z
         (map (LeiV.ex_add (Q2Qc 0.01)) LeiVChecks.example_radii) "ENDO-2025-001"
         None None = (Ok res', c1')
    /\ LeiV.lei_v_symbolic res' = LeiV.lei_v_symbolic res
    /\ LeiV.lei_v_value res' = LeiV.lei_v_value res
    /\ LeiV.stage res' = LeiV.stage res
    /\ LeiV.confidence_percent res' = LeiV.confidence_percent res.
Proof.
  exact (compute_independent_of_common_offset (RT := example_runtime)
           (Audit.new None) (Audit.new None) 0%Z 1%Z 2%Z 3%Z 4%Z 5%Z
           (Q2Qc 0.01) LeiVChecks.example_radii "ENDO-2025-001" "ENDO-2025-001"
           None None None None eq_refl).
Defined.

Lemma verify_rotation_invariance_always_true_witness :
  LeiVChecks.verify_rotation_invariance (fun x : Qc => Qc_eq_bool x 0%Qc)
    [Q2Qc 1; Q2Qc 2; Q2Qc 4] (Q2Qc 1) = (true, 0%Qc).
Proof.
  exact (verify_rotation_invariance_always_true (EX := LeiV.Exact_Qc)
           (fun x : Qc => Qc_eq_bool x 0%Qc) [Q2Qc 1; Q2Qc 2; Q2Qc 4]
           (Q2Qc 1) eq_refl).
Defined.

Section AuditExportProperties.
Import Sha256 Audit AuditExport.
Context {RT : PyRuntime}.

Lemma chain_tip_last (g : string) (chain : list AuditEntry) :
  chain_tip g chain = List.last (map entry_hash chain) g.
Proof.
  induction chain as [|e chain IH] using rev_ind; [reflexivity|].
  rewrite chain_tip_app, map_app. cbn [map].
  rewrite last_last. reflexivity.
Qed.

Lemma verify_from_map (edit : AuditEntry -> AuditEntry)
    (chain : list AuditEntry) :
  (forall e, entry_hash (edit e) = entry_hash e
             /\ previous_hash (edit e) = previous_hash e) ->
  forall g, verify_from g (map edit chain) = verify_from g chain.
Proof.
  intros Hedit. induction chain as [|e chain IH]; intros g; [reflexivity|].
  cbn. destruct (Hedit e) as [-> ->].
  destruct (String.eqb (previous_hash e) g); cbn; [apply IH | reflexivity].
Qed.

Lemma verify_from_take (chain : list AuditEntry) : forall g n,
  verify_from g chain = true -> verify_from g (take n chain) = true.
Proof.
  induction chain as [|e chain IH]; intros g n Hv.
  - rewrite take_nil. reflexivity.
  - destruct n as [|n]; [reflexivity|]. cbn in *.
    destruct (String.eqb (previous_hash e) g); [|discriminate].
    cbn in *. apply IH, Hv.
Qed.

Lemma verify_from_last_hash (chain : list AuditEntry) (e : AuditEntry)
    (x : string) : forall g,
  verify_from g (chain ++ [with_entry_hash x e]) = verify_from g (chain ++ [e]).
Proof. intros g. rewrite !verify_from_app. reflexivity. Qed.

Lemma verify_chain_integrity_from (h : AuditHasher) :
  verify_chain_integrity h = verify_from GENESIS_HASH (_chain h).
Proof. unfold verify_chain_integrity. destruct (_chain h); reflexivity. Qed.

(** X7.  [verify_chain_integrity] looks at the links only and never
    recomputes a hash: its answer does not change when the timestamp, type
    or summary of any entries are rewritten, nor when the hash of the last
    entry is replaced; and a chain that verifies still verifies after it is
    cut back to any number of its first entries. *)
Theorem verify_chain_integrity_checks_links_only (h : AuditHasher) :
  (forall edit : AuditEntry -> AuditEntry,
      (forall e, entry_hash (edit e) = entry_hash e
                 /\ previous_hash (edit e) = previous_hash e) ->
      verify_chain_integrity (with_chain (map edit (_chain h)) h)
      = verify_chain_integrity h)
  /\ (forall chain e x,
         _chain h = chain ++ [e] ->
         verify_chain_integrity
           (with_chain (chain ++ [with_entry_hash x e]) h)
         = verify_chain_integrity h)
  /\ (forall n,
         verify_chain_integrity h = true ->
         verify_chain_integrity (with_chain (take n (_chain h)) h) = true).
Proof.
  rewrite !verify_chain_integrity_from. repeat split.
  - intros edit Hedit. rewrite verify_chain_integrity_from. cbn [_chain with_chain].
    apply verify_from_map, Hedit.
  - intros chain e x Hc. rewrite verify_chain_integrity_from, Hc.
    cbn [_chain with_chain]. apply verify_from_last_hash.
  - intros n Hv. rewrite verify_chain_integrity_from. cbn [_chain with_chain].
    apply verify_from_take, Hv.
Qed.

(** X8.  What is exported after any sequence of calls on a fresh hasher
    fits the calls: [chain_length] is the number of calls, [last_hash] is
    the digest returned by the last call (genesis when there was none), and
    the [entry_hash] fields of the exported chain are the returned digests
    in order. *)
Theorem export_matches_returned_hashes (key : option (list Z))
    (calls : list (datetime * datetime * pydict)) (t : datetime) :
  let h := snd (hash_computations (new key) calls) in
  let hashes := fst (hash_computations (new key) calls) in
  dict_get "chain_length" (export_data h t)
    = Some (PInt (Z.of_nat (length calls)))
  /\ dict_get "last_hash" (export_data h t)
     = Some (PStr (List.last hashes GENESIS_HASH))
  /\ _last_hash h = List.last hashes GENESIS_HASH
  /\ map (dict_get "entry_hash") (get_chain h)
     = map (fun d => Some (PStr d)) hashes
  /\ dict_get "chain" (export_data h t) = Some (PList (map PDict (get_chain h))).
Proof.
  intros h hashes.
  destruct (hash_computations_chain calls (new key)) as (es & Hes & Hm & Hl).
  fold h in Hes. fold hashes in Hm. cbn in Hes.
  pose proof (hash_computations_well_linked calls _ (new_well_linked key))
    as [_ Htip].
  fold h in Htip. rewrite chain_tip_last, Hes, Hm in Htip.
  split; [cbn; rewrite Hes, Hl; reflexivity|].
  split; [cbn; rewrite Htip; reflexivity|].
  split; [exact Htip|].
  split; [|reflexivity].
  unfold get_chain. rewrite Hes, map_map, <- Hm, map_map. reflexivity.
Qed.

Lemma hash_computation_unkeyed (h1 h2 : AuditHasher) t1 t2 data :
  unkeyed h1 = true -> unkeyed h2 = true ->
  _chain h1 = _chain h2 -> _last_hash h1 = _last_hash h2 ->
  fst (hash_computation h1 t1 t2 data) = fst (hash_computation h2 t1 t2 data)
  /\ unkeyed (snd (hash_computation h1 t1 t2 data)) = true
  /\ unkeyed (snd (hash_computation h2 t1 t2 data)) = true
  /\ _chain (snd (hash_computation h1 t1 t2 data))
     = _chain (snd (hash_computation h2 t1 t2 data))
  /\ _last_hash (snd (hash_computation h1 t1 t2 data))
     = _last_hash (snd (hash_computation h2 t1 t2 data)).
Proof.
  unfold unkeyed, hash_computation. intros H1 H2 Hc Hl. cbn.
  rewrite Hc, Hl.
  destruct (_secret_key h1) as [[|b1 k1]|]; try discriminate;
    destruct (_secret_key h2) as [[|b2 k2]|]; try discriminate;
    repeat split; reflexivity.
Qed.

Lemma hash_computations_unkeyed calls : forall h1 h2,
  unkeyed h1 = true -> unkeyed h2 = true ->
  _chain h1 = _chain h2 -> _last_hash h1 = _last_hash h2 ->
  fst (hash_computations h1 calls) = fst (hash_computations h2 calls)
  /\ _chain (snd (hash_computations h1 calls))
     = _chain (snd (hash_computations h2 calls))
  /\ _last_hash (snd (hash_computations h1 calls))
     = _last_hash (snd (hash_computations h2 calls)).
Proof.
  induction calls as [|[[t1 t2] data] rest IH]; intros h1 h2 H1 H2 Hc Hl.
  - cbn. auto.
  - rewrite !hash_computations_cons. cbn [fst snd].
    destruct (hash_computation_unkeyed h1 h2 t1 t2 data H1 H2 Hc Hl)
      as (Hd & H1' & H2' & Hc' & Hl').
    destruct (IH _ _ H1' H2' Hc' Hl') as (Hds & Hcs & Hls).
    rewrite Hd, Hds. auto.
Qed.

(** X9.  An empty secret key switches authentication off without notice:
    a hasher built with the key [b""] returns, call by call, the digests of
    a hasher built without a key, and stores the same chain. *)
Theorem empty_secret_key_is_no_key
    (calls : list (datetime * datetime * pydict)) :
  fst (hash_computations (new (Some [])) calls)
  = fst (hash_computations (new None) calls)
  /\ _chain (snd (hash_computations (new (Some [])) calls))
     = _chain (snd (hash_computations (new None) calls))
  /\ _last_hash (snd (hash_computations (new (Some [])) calls))
     = _last_hash (snd (hash_computations (new None) calls)).
Proof. apply hash_computations_unkeyed; reflexivity. Qed.

End AuditExportProperties.

Section EvgEffects.
Import Evg.
Variable process_patient_edf : filesystem -> string -> result string pydict.
Variable validate : pydict -> result string pydict.

(** X10.  The effects of [process_evg_file].  A file whose name does not
    end in ".edf" (in lower case) is refused with status 400 and nothing is
    written.  When reading and processing succeed, the temporary file is
    gone and every other file is as before; the report is queued for
    e-mail exactly when a non-empty address and a task queue were given, and
    it is queued even when building the response then fails with 500. *)
Theorem process_evg_file_effects
    (w : world) (tmp_path : string) (file : UploadFile) (has_tasks : bool)
    (notify_email : option string) :
  (endswith (filename file) ".edf" = false ->
   process_evg_file process_patient_edf validate w tmp_path file has_tasks
                    notify_email
   = (HTTPException 400 "Invalid file format. Please upload a .edf file.", w))
  /\ (forall content result,
        endswith (filename file) ".edf" = true ->
        read file = Ok content ->
        process_patient_edf
          (<[tmp_path := content]> (<[tmp_path := []]> (disk w))) tmp_path
        = Ok result ->
        let out :=
          process_evg_file process_patient_edf validate w tmp_path file
                           has_tasks notify_email in
        fst out = match validate result with
                  | Ok body => Response body
                  | Raise msg =>
                      HTTPException 500 ("Processing failed: " ++ msg)
                  end
        /\ disk (snd out) = delete tmp_path (disk w)
        /\ tasks (snd out)
           = tasks w ++
             match notify_email with
             | Some email =>
                 if negb (String.eqb email "") && has_tasks
                 then [(result, email)] else []
             | None => []
             end).
Proof.
  split.
  - intros Hname. unfold process_evg_file. rewrite Hname. reflexivity.
  - intros content result Hname Hread Hproc out. subst out.
    unfold process_evg_file.
    rewrite Hname, Hread. cbn [negb disk tasks]. rewrite Hproc.
    assert (Hdisk : delete tmp_path
                      (<[tmp_path := content]> (<[tmp_path := []]> (disk w)))
                    = delete tmp_path (disk w)).
    { rewrite !delete_insert_eq. reflexivity. }
    destruct (validate result); cbn [fst snd];
      destruct notify_email as [email|];
      try destruct (negb (String.eqb email "") && has_tasks);
      cbn [disk tasks]; rewrite ?Hdisk, ?app_nil_r; auto.
Qed.

End EvgEffects.

Section SeverityLevels.
Import Fusion LeiV.

Lemma prefix_trans (a b c : string) :
  String.prefix a b = true -> String.prefix b c = true ->
  String.prefix a c = true.
Proof.
  revert b c. induction a as [|x a IH]; intros b c Hab Hbc.
  - destruct c; reflexivity.
  - destruct b as [|y b]; [discriminate|].
    destruct c as [|z c]; [discriminate|].
    cbn in *.
    destruct (ascii_dec x y) as [->|]; [|discriminate].
    destruct (ascii_dec y z) as [->|]; [|discriminate].
    eapply IH; eassumption.
Qed.

Lemma contains_eq (needle hay : string) :
  contains needle hay
  = if String.prefix needle hay then true
    else match hay with
         | EmptyString => false
         | String _ rest => contains needle rest
         end.
Proof. destruct hay; reflexivity. Qed.

Lemma contains_prefix (a b : string) (hay : string) :
  String.prefix a b = true -> contains b hay = true -> contains a hay = true.
Proof.
  intros Hab. induction hay as [|c hay IH];
    rewrite (contains_eq a), (contains_eq b);
    destruct (String.prefix b _) eqn:Hb;
    try (intros _; rewrite (prefix_trans a b _ Hab Hb); reflexivity).
  - discriminate.
  - intros H. rewrite (IH H).
    destruct (String.prefix a (String c hay)); reflexivity.
Qed.

(** X11.  The severity level of a stage label.  It is between 0 and 4; a
    label that contains "stage_i" (so also "stage_ii", "stage_iii" and
    "stage_iv") gets at most 2, because that test comes first; 3 is only
    reached through the word "moderate" and 4 through the word "severe",
    in labels without "stage_i".  So the LEI-V stages II, III and IV all
    have level 2. *)
Theorem severity_level_shadowed_by_stage_i (label : string) :
  (0 <= _get_severity_level label <= 4)%Z
  /\ (contains "stage_i" (lower label) = true ->
      (_get_severity_level label <= 2)%Z)
  /\ (_get_severity_level label = 3%Z ->
      contains "moderate" (lower label) = true
      /\ contains "stage_i" (lower label) = false)
  /\ (_get_severity_level label = 4%Z ->
      contains "severe" (lower label) = true
      /\ contains "stage_i" (lower label) = false)
  /\ map (fun st => _get_severity_level (stage_value st))
         [HEALTHY; STAGE_0; STAGE_I; STAGE_II; STAGE_III; STAGE_IV]
     = [0; 1; 1; 2; 2; 2]%Z.
Proof.
  assert (Hstages :
            map (fun st => _get_severity_level (stage_value st))
                [HEALTHY; STAGE_0; STAGE_I; STAGE_II; STAGE_III; STAGE_IV]
            = [0; 1; 1; 2; 2; 2]%Z) by (vm_compute; reflexivity).
  revert Hstages. generalize
    (map (fun st => _get_severity_level (stage_value st))
         [HEALTHY; STAGE_0; STAGE_I; STAGE_II; STAGE_III; STAGE_IV]).
  intros levels Hstages.
  unfold _get_severity_level.
  pose proof (contains_prefix "stage_i" "stage_ii" (lower label) eq_refl) as H2.
  pose proof (contains_prefix "stage_i" "stage_iii" (lower label) eq_refl) as H3.
  pose proof (contains_prefix "stage_i" "stage_iv" (lower label) eq_refl) as H4.
  destruct (contains "healthy" (lower label) || contains "normal" (lower label));
    [repeat split; first [lia | discriminate | exact Hstages]|].
  destruct (contains "stage_0" (lower label) || contains "early" (lower label)
            || contains "minimal" (lower label));
    [repeat split; first [lia | discriminate | exact Hstages]|].
  destruct (contains "stage_i" (lower label)) eqn:Hi;
    [repeat split; first [lia | discriminate | exact Hstages]|].
  destruct (contains "stage_ii" (lower label));
    [specialize (H2 eq_refl); discriminate|].
  destruct (contains "stage_iii" (lower label));
    [specialize (H3 eq_refl); discriminate|].
  destruct (contains "stage_iv" (lower label));
    [specialize (H4 eq_refl); discriminate|].
  destruct (contains "mild" (lower label)),
           (contains "moderate" (lower label)),
           (contains "severe" (lower label));
    cbn; repeat split; first [lia | discriminate | exact Hstages].
Qed.

End SeverityLevels.

Section FusionResults.
Import Rounding PyFloat Fusion.
Context {RT : PyRuntime}.

(** What [fuse] has computed when it returns. *)
Lemma fuse_inv (eng : BayesianFusionEngine) (t1 t2 : datetime)
    (v : pyfloat) (st : string) (conf : pyfloat) (rs : list pydict)
    (res : FusionResult) (eng' : BayesianFusionEngine) :
  fuse eng t1 t2 v st conf rs = (Ok res, eng') ->
  exists w cs prod ratio data,
    let u := fmul (fmul (default (lit 0.5) (STAGE_PRIORS !! st)) w) prod in
    _calculate_leiv_weight v conf = Ok w
    /\ fuse_loop st ([], lit 1) rs = Ok (cs, prod)
    /\ fdiv u (fadd u (lit 0.1)) = Some ratio
    /\ platform_contributions res = cs
    /\ posterior_probability res = fmin (lit 0.99) ratio
    /\ final_confidence res = fmul (fmin (lit 0.99) ratio) (lit 100)
    /\ evidence_strength res
       = (if (3 <=? length cs)%nat
             && forallb (fun c => fgt (concordance_with_leiv c) (lit 0.7)) cs
          then "strong"
          else if (2 <=? length cs)%nat && fgt (fmin (lit 0.99) ratio) (lit 0.75)
               then "moderate" else "weak")
    /\ audit_hash res = fst (Audit.hash_computation (hasher eng) t1 t2 data)
    /\ hasher eng' = snd (Audit.hash_computation (hasher eng) t1 t2 data).
Proof.
  unfold fuse, mbind, result_bind. intros Hf.
  destruct (_calculate_leiv_weight v conf) as [w|e]; [|discriminate].
  destruct (fuse_loop st ([], lit 1) rs) as [[cs prod]|e] eqn:Hloop;
    [|discriminate].
  cbn [fst snd] in Hf.
  destruct (fdiv _ _) as [ratio|] eqn:Hdiv; [|discriminate].
  injection Hf as <- <-.
  eexists w, cs, prod, ratio, _. cbv zeta.
  split; [reflexivity|]. split; [reflexivity|]. split; [exact Hdiv|].
  cbn. repeat split; reflexivity.
Qed.

Lemma fuse_raise_inv (eng : BayesianFusionEngine) (t1 t2 : datetime)
    (v : pyfloat) (st : string) (conf : pyfloat) (rs : list pydict)
    (e : exn) (eng' : BayesianFusionEngine) :
  fuse eng t1 t2 v st conf rs = (Raise e, eng') -> eng' = eng.
Proof.
  unfold fuse, mbind, result_bind. intros Hf.
  destruct (_calculate_leiv_weight v conf) as [w|e1];
    [|injection Hf as _ <-; reflexivity].
  destruct (fuse_loop st ([], lit 1) rs) as [[cs prod]|e1];
    [|injection Hf as _ <-; reflexivity].
  cbn [fst snd] in Hf.
  destruct (fdiv _ _) as [ratio|]; [discriminate|].
  injection Hf as _ <-. reflexivity.
Qed.

Lemma fuse_step_platform (st : string)
    (acc acc' : list PlatformContribution * pyfloat) (r : pydict) :
  fuse_step st acc r = Ok acc' ->
  exists ctr,
    fst acc' = fst acc ++ [ctr]
    /\ platform ctr = default (PStr "unknown") (dict_get "platform" r)
    /\ _calculate_concordance r st = Ok (concordance_with_leiv ctr).
Proof.
  unfold fuse_step, mbind, result_bind. intros Hs.
  destruct (as_float _); [|discriminate].
  destruct (fdiv _ _); [|discriminate].
  destruct (_calculate_concordance r st) as [k|]; [|discriminate].
  destruct (reliability_of _); [|discriminate].
  injection Hs as <-. eexists. cbn. repeat split; reflexivity.
Qed.

Lemma fuse_loop_platforms (st : string) (rs : list pydict) :
  forall acc acc',
    fuse_loop st acc rs = Ok acc' ->
    exists cs,
      fst acc' = fst acc ++ cs
      /\ map platform cs
         = map (fun r => default (PStr "unknown") (dict_get "platform" r)) rs
      /\ Forall2 (fun r c =>
                    _calculate_concordance r st = Ok (concordance_with_leiv c))
                 rs cs.
Proof.
  induction rs as [|r rs IH]; intros acc acc' Hl; cbn in Hl.
  - injection Hl as <-. exists []. rewrite app_nil_r. auto.
  - unfold mbind, result_bind in Hl.
    destruct (fuse_step st acc r) as [acc1|e] eqn:Hs; [|discriminate].
    destruct (fuse_step_platform _ _ _ _ Hs) as (ctr & Hc & Hp & Hk).
    destruct (IH _ _ Hl) as (cs & Hcs & Hps & Hks).
    exists (ctr :: cs). rewrite Hcs, Hc, <- app_assoc. cbn.
    rewrite Hp, Hps. auto.
Qed.

(** X12.  [fuse] and the audit trail.  When [fuse] raises, the engine and
    its audit chain are untouched.  When it returns, there is one
    contribution per platform result, in the order given and under the
    platform names given ("unknown" when missing), exactly one audit entry
    has been appended, its hash is the result's [audit_hash] and the new
    last hash, and a chain that was well linked still is. *)
Theorem fuse_audit_effect (eng : BayesianFusionEngine) (t1 t2 : datetime)
    (v : pyfloat) (st : string) (conf : pyfloat) (rs : list pydict) :
  (forall e eng',
      fuse eng t1 t2 v st conf rs = (Raise e, eng') -> eng' = eng)
  /\ (forall res eng',
         fuse eng t1 t2 v st conf rs = (Ok res, eng') ->
         map platform (platform_contributions res)
           = map (fun r => default (PStr "unknown") (dict_get "platform" r)) rs
         /\ (exists entry,
                Audit._chain (hasher eng')
                  = Audit._chain (hasher eng) ++ [entry]
                /\ Audit.entry_hash entry = audit_hash res
                /\ Audit.previous_hash entry = Audit._last_hash (hasher eng))
         /\ Audit._last_hash (hasher eng') = audit_hash res
         /\ Sha256.is_hexdigest (audit_hash res) = true
         /\ (Audit.well_linked (hasher eng) ->
             Audit.well_linked (hasher eng'))).
Proof.
  split; [intros e eng'; apply fuse_raise_inv|].
  intros res eng' Hf.
  destruct (fuse_inv _ _ _ _ _ _ _ _ _ Hf)
    as (w & cs & prod & ratio & data & _ & Hloop & _ & Hcs & _ & _ & _ & Hh & He).
  destruct (fuse_loop_platforms _ _ _ _ Hloop) as (cs' & Hcs' & Hps & _).
  cbn [fst app] in Hcs'. subst cs'.
  destruct (hash_computation_chain (hasher eng) t1 t2 data)
    as (entry & Hchain & Hprev & Hent & Hlast & _).
  rewrite Hcs, He, Hh.
  split; [exact Hps|].
  split; [exists entry; auto|].
  split; [rewrite Hlast; exact Hent|].
  split; [apply hash_computation_digest|].
  apply hash_computation_well_linked.
Qed.

End FusionResults.

Section FusionRanges.
Import Rounding PyFloat Fusion.
Context {RT : PyRuntime}.

Lemma fdiv_not_negative (a b r : pyfloat) :
  not_negative a -> not_negative b -> fdiv a b = Some r -> not_negative r.
Proof.
  unfold fdiv. intros Ha Hb. destruct (is_zero b) eqn:Hz; [discriminate|].
  intros [= <-].
  destruct a as [x|n|], b as [y|m|]; cbn in *; subst; try exact I;
    try reflexivity.
  - apply fl_not_negative.
    assert (Hy : ~ y == 0).
    { intros H0. apply Qeq_bool_iff in H0. congruence. }
    apply Qle_shift_div_l; lra.
  - lra.
  - apply negb_false_iff, Qle_bool_iff, Hb.
Qed.

Lemma fmin_cap (c : Q) (r : pyfloat) :
  0 <= c -> not_negative r ->
  exists p, fmin (FFin c) r = FFin p /\ 0 <= p /\ p <= c.
Proof.
  intros Hc Hr. unfold fmin. destruct (flt r (FFin c)) eqn:Hlt.
  - destruct r as [x|n|]; cbn in *; try discriminate.
    + exists x. split; [reflexivity|]. split; [exact Hr|].
      apply negb_true_iff in Hlt.
      destruct (Qlt_le_dec x c) as [H|H]; [lra|].
      apply Qle_bool_iff in H. congruence.
    + congruence.
  - exists c. split; [reflexivity|]. lra.
Qed.

Lemma lit_099 : exists c, lit 0.99 = FFin c /\ 0 <= c /\ c * 100 <= 99.
Proof.
  eexists. split; [vm_compute; reflexivity|].
  split; apply Qle_bool_iff; vm_compute; reflexivity.
Qed.

Lemma lit_100 : lit 100 = FFin 100.
Proof. vm_compute. reflexivity. Qed.

(** X13.  On inputs on which the loop runs through (LEI-V confidence not
    negative, platform results well formed) [fuse] returns, the posterior is
    a number between 0 and 0.99, never a NaN, and [final_confidence] is a
    percentage between 0 and 99. *)
Theorem fuse_final_confidence_is_percentage (eng : BayesianFusionEngine)
    (t1 t2 : datetime) (v : pyfloat) (st : string) (conf : pyfloat)
    (rs : list pydict) :
  is_neg conf = false ->
  forallb (well_formed st) rs = true ->
  exists res eng',
    fuse eng t1 t2 v st conf rs = (Ok res, eng')
    /\ fle (lit 0) (posterior_probability res) = true
    /\ fle (posterior_probability res) (lit 0.99) = true
    /\ fle (lit 0) (final_confidence res) = true
    /\ fle (final_confidence res) (lit 99) = true.
Proof.
  intros Hconf Hrs.
  destruct (fuse_returns eng t1 t2 v st conf rs Hconf Hrs) as (res & eng' & Hf).
  exists res, eng'. split; [exact Hf|].
  destruct (fuse_inv _ _ _ _ _ _ _ _ _ Hf)
    as (w & cs & prod & ratio & data & Hw & Hloop & Hdiv & _ & Hpost & Hfin & _).
  apply is_neg_false_not_negative in Hconf.
  destruct (leiv_weight_returns v conf Hconf) as (w' & Hw' & Hw_nn).
  rewrite Hw in Hw'. injection Hw' as <-.
  destruct (fuse_loop_returns st rs ([], lit 1) Hrs
              (lit_not_negative 1 eq_refl)) as (acc & Hloop' & Hp).
  rewrite Hloop in Hloop'. injection Hloop' as <-. cbn [snd] in Hp.
  assert (Hu : not_negative
                 (fmul (fmul (default (lit 0.5) (STAGE_PRIORS !! st)) w) prod)).
  { apply fmul_not_negative; [|exact Hp].
    apply fmul_not_negative; [apply prior_not_negative | exact Hw_nn]. }
  assert (Hd : not_negative
                 (fadd (fmul (fmul (default (lit 0.5) (STAGE_PRIORS !! st)) w)
                             prod) (lit 0.1))).
  { apply fadd_not_negative; [exact Hu | apply lit_not_negative; reflexivity]. }
  pose proof (fdiv_not_negative _ _ _ Hu Hd Hdiv) as Hratio.
  destruct lit_099 as (c & Hc & Hc0 & Hc99).
  rewrite Hfin, Hpost, Hc, lit_99, lit_100.
  change (lit 0) with (FFin 0).
  destruct (fmin_cap c ratio Hc0 Hratio) as (p & -> & Hp0 & Hpc).
  cbn [fmul]. repeat split.
  - apply Qle_bool_iff, Hp0.
  - apply Qle_bool_iff, Hpc.
  - apply fl_ge0. lra.
  - apply fl_upper; [vm_compute; reflexivity | lra | lra].
Qed.

Lemma concordance_values (r : pydict) (st : string) (c : pyfloat) :
  _calculate_concordance r st = Ok c ->
  c = lit 1 \/ c = lit 0.7 \/ c = lit 0.4 \/ c = lit 0.2 \/ c = lit 0.5.
Proof.
  unfold _calculate_concordance.
  destruct (negb (truthy (platform_stage_of r))); [intros [= <-]; auto 6|].
  destruct (platform_stage_of r); try discriminate.
  intros [= <-].
  destruct (_ =? 0)%Z; [auto|]. destruct (_ =? 1)%Z; [auto|].
  destruct (_ =? 2)%Z; auto 6.
Qed.

Lemma concordance_exact (r : pydict) (st : string) (c : pyfloat) :
  _calculate_concordance r st = Ok c ->
  fgt c (lit 0.7) = true <-> c = lit 1.
Proof.
  intros Hc.
  destruct (concordance_values r st c Hc) as [->|[->|[->|[->| ->]]]];
    split; intros H; first [reflexivity | exact H | idtac];
    vm_compute in H; discriminate.
Qed.

Lemma forallb_concordance (st : string) (rs : list pydict)
    (cs : list PlatformContribution) :
  Forall2 (fun r c =>
             _calculate_concordance r st = Ok (concordance_with_leiv c)) rs cs ->
  forallb (fun c => fgt (concordance_with_leiv c) (lit 0.7)) cs = true
  <-> Forall (fun c => concordance_with_leiv c = lit 1) cs.
Proof.
  induction 1 as [|r c rs cs Hc _ IH]; cbn.
  - split; auto.
  - rewrite andb_true_iff, IH, (concordance_exact r st _ Hc).
    split.
    + intros [? ?]. constructor; assumption.
    + intros H. inversion H; subst. auto.
Qed.

(** X14.  The strength of evidence that [fuse] reports, on inputs on which
    it returns: "strong" exactly when there are at least three platform
    results and every one of them agrees with the LEI-V stage to the level
    (concordance 1.0; a neighbouring stage, 0.7, is not enough); with fewer
    than two platform results the strength is "weak". *)
Theorem fuse_strong_needs_full_agreement (eng : BayesianFusionEngine)
    (t1 t2 : datetime) (v : pyfloat) (st : string) (conf : pyfloat)
    (rs : list pydict) :
  is_neg conf = false ->
  forallb (well_formed st) rs = true ->
  exists res eng',
    fuse eng t1 t2 v st conf rs = (Ok res, eng')
    /\ length (platform_contributions res) = length rs
    /\ (evidence_strength res = "strong"
        <-> (3 <= length rs)%nat
            /\ Forall (fun c => concordance_with_leiv c = lit 1)
                      (platform_contributions res))
    /\ ((length rs < 2)%nat -> evidence_strength res = "weak").
Proof.
  intros Hconf Hrs.
  destruct (fuse_returns eng t1 t2 v st conf rs Hconf Hrs) as (res & eng' & Hf).
  exists res, eng'. split; [exact Hf|].
  destruct (fuse_inv _ _ _ _ _ _ _ _ _ Hf)
    as (w & cs & prod & ratio & data & _ & Hloop & _ & Hcs & _ & _ & Hev & _).
  destruct (fuse_loop_platforms _ _ _ _ Hloop) as (cs' & Hcs' & _ & Hks).
  cbn [fst app] in Hcs'. subst cs'.
  assert (Hlen : length rs = length cs).
  { eapply Forall2_length. exact Hks. }
  pose proof (forallb_concordance st rs cs Hks) as Hall.
  rewrite Hcs, Hev, Hlen. split; [reflexivity|].
  split.
  - destruct (Nat.leb_spec 3 (length cs)) as [H3|H3]; cbn [andb].
    + destruct (forallb _ cs) eqn:Hb.
      * split; [intros _; split; [exact H3 | apply Hall; reflexivity]
               | reflexivity].
      * split.
        -- destruct ((2 <=? length cs)%nat && _); intros H; discriminate H.
        -- intros [_ HF]. apply Hall in HF. discriminate.
    + split.
      * destruct ((2 <=? length cs)%nat && _); intros H; discriminate H.
      * intros [H _]. lia.
  - intros H2.
    destruct (Nat.leb_spec 3 (length cs)) as [H3|_]; [lia|]. cbn [andb].
    destruct (Nat.leb_spec 2 (length cs)) as [H2'|_]; [lia|]. reflexivity.
Qed.

End FusionRanges.

Lemma fuse_final_confidence_is_percentage_witness :
  exists res eng',
    Fusion.fuse (RT := example_runtime) Fusion.new 1%Z 2%Z (PyFloat.lit 0.05)
                "stage_0_early" (PyFloat.lit 90) FusionExamples.mixed_results
      = (Ok res, eng')
    /\ PyFloat.fle (PyFloat.lit 0) (Fusion.posterior_probability res) = true
    /\ PyFloat.fle (Fusion.posterior_probability res) (PyFloat.lit 0.99) = true
    /\ PyFloat.fle (PyFloat.lit 0) (Fusion.final_confidence res) = true
    /\ PyFloat.fle (Fusion.final_confidence res) (PyFloat.lit 99) = true.
Proof.
  apply (fuse_final_confidence_is_percentage (RT := example_runtime));
    reflexivity.
Defined.

Lemma fuse_strong_needs_full_agreement_witness :
  exists res eng',
    Fusion.fuse (RT := example_runtime) Fusion.new 1%Z 2%Z (PyFloat.lit 0.05)
                "stage_0_early" (PyFloat.lit 90) FusionExamples.mixed_results
      = (Ok res, eng')
    /\ length (Fusion.platform_contributions res)
       = length FusionExamples.mixed_results
    /\ (Fusion.evidence_strength res = "strong"
        <-> (3 <= length FusionExamples.mixed_results)%nat
            /\ Forall (fun c => Fusion.concordance_with_leiv c = PyFloat.lit 1)
                      (Fusion.platform_contributions res))
    /\ ((length FusionExamples.mixed_results < 2)%nat ->
        Fusion.evidence_strength res = "weak").
Proof.
  apply (fuse_strong_needs_full_agreement (RT := example_runtime));
    reflexivity.
Defined.

Section RotationProperties.
Import Radical Glyph GlyphOps.

Lemma cos_pi3_mod (i : Z) : cos_pi3 (i mod 6) = cos_pi3 i.
Proof. unfold cos_pi3. rewrite Z.mod_mod by lia. reflexivity. Qed.

Lemma sin_pi3_mod (i : Z) : sin_pi3 (i mod 6) = sin_pi3 i.
Proof. unfold sin_pi3. rewrite Z.mod_mod by lia. reflexivity. Qed.

Lemma below_six (a : Z) :
  (0 <= a < 6)%Z ->
  a = 0%Z \/ a = 1%Z \/ a = 2%Z \/ a = 3%Z \/ a = 4%Z \/ a = 5%Z.
Proof. lia. Qed.

(** Rotation of the point at angle [a * pi / 3] by [b * pi / 3]. *)
Lemma rotate_angles (a b : Z) :
  (0 <= a < 6)%Z -> (0 <= b < 6)%Z ->
  let radius := rscale (1 # 4) SQRT3 in
  let px := simplify (rmul radius (cos_pi3 a)) in
  let py := simplify (rmul radius (sin_pi3 a)) in
  simplify (rsub (rmul px (cos_pi3 b)) (rmul py (sin_pi3 b)))
  = simplify (rmul radius (cos_pi3 ((a + b) mod 6)))
  /\ simplify (radd (rmul px (sin_pi3 b)) (rmul py (cos_pi3 b)))
     = simplify (rmul radius (sin_pi3 ((a + b) mod 6))).
Proof.
  intros Ha Hb.
  destruct (below_six a Ha) as [->|[->|[->|[->|[->| ->]]]]];
    destruct (below_six b Hb) as [->|[->|[->|[->|[->| ->]]]]];
    vm_compute; split; reflexivity.
Qed.

(** X15.  Rotating an RSL electrode by a multiple of 60 degrees puts it
    exactly on the position of another RSL electrode: electrode [i + 1]
    turned by [k * pi / 3] has the coordinates of electrode [i + k + 1]
    (counted modulo six), at the same distance from the origin.  The copy
    keeps the layer and the electrode index of the original, and its name
    gets the suffix "_rotated". *)
Theorem rotate_maps_lattice_onto_itself (i k : Z) :
  let c := rotate (rsl_point i) k in
  x c = x (rsl_point (i + k))
  /\ y c = y (rsl_point (i + k))
  /\ distance_from_origin c = distance_from_origin (rsl_point i)
  /\ layer c = REGENERATIVE_SPARK_LATTICE
  /\ electrode_index c = Some (i + 1)%Z
  /\ name c = (name (rsl_point i) ++ "_rotated")%string.
Proof.
  intros c. subst c.
  pose proof (Z.mod_pos_bound i 6 ltac:(lia)) as Ha.
  pose proof (Z.mod_pos_bound k 6 ltac:(lia)) as Hb.
  destruct (rotate_angles (i mod 6) (k mod 6) Ha Hb) as [Hx Hy].
  cbv zeta in Hx, Hy.
  rewrite !cos_pi3_mod, !sin_pi3_mod in Hx, Hy.
  rewrite <- Z.add_mod in Hx, Hy by lia.
  rewrite cos_pi3_mod in Hx. rewrite sin_pi3_mod in Hy.
  assert (Hxy : x (rotate (rsl_point i) k) = x (rsl_point (i + k))
                /\ y (rotate (rsl_point i) k) = y (rsl_point (i + k))).
  { split; [exact Hx | exact Hy]. }
  destruct Hxy as [Ex Ey].
  split; [exact Ex|]. split; [exact Ey|].
  split; [|repeat split].
  unfold distance_from_origin. rewrite Ex, Ey.
  assert (Hd : forall j,
             distance_from_origin (rsl_point j)
             = Some (rscale (1 # 4) SQRT3)).
  { intros j. unfold distance_from_origin, rsl_point. cbn [x y].
    rewrite <- (cos_pi3_mod j), <- (sin_pi3_mod j).
    destruct (below_six (j mod 6) (Z.mod_pos_bound j 6 ltac:(lia)))
      as [->|[->|[->|[->|[->| ->]]]]]; vm_compute; reflexivity. }
  exact (eq_trans (Hd (i + k)%Z) (eq_sym (Hd i))).
Qed.

End RotationProperties.

Section PlacementSymmetry.
Import Rounding Radical PyFloat Placement PlacementOps.

Lemma py_round_fopp (a : pyfloat) (n : Z) :
  py_round (fopp a) n = fopp (py_round a n).
Proof.
  destruct a as [q| |]; cbn [py_round fopp]; try reflexivity.
  rewrite round_at_opp by reflexivity. apply fl_opp.
Qed.

Lemma scale_factor_returns (a : option PatientAnthropometry) :
  exists s, _get_scale_factor a = Ok s.
Proof.
  destruct a as [p|]; unfold _get_scale_factor.
  - assert (Hc : exists q,
               fl (round_bin 53 (evalf15 GLYPH_RADIUS * 2)) = FFin q
               /\ Qeq_bool q 0 = false).
    { eexists. split; vm_compute; reflexivity. }
    destruct Hc as (q & -> & Hq). unfold fdiv. cbn [is_zero]. rewrite Hq.
    eexists. reflexivity.
  - eexists. vm_compute. reflexivity.
Qed.

Lemma build_electrode_scaled (a : option PatientAnthropometry) (s : pyfloat)
    (i : nat) :
  _get_scale_factor a = Ok s -> build_electrode a i = Ok (scaled_electrode s i).
Proof.
  intros Hs. unfold build_electrode. rewrite Hs. reflexivity.
Qed.

Lemma build_from_scaled (a : option PatientAnthropometry) (s : pyfloat)
    (indices : list nat) :
  _get_scale_factor a = Ok s ->
  forall acc,
    build_from a acc indices = Ok (acc ++ map (scaled_electrode s) indices).
Proof.
  intros Hs. induction indices as [|i rest IH]; intros acc; cbn [build_from map].
  - rewrite app_nil_r. reflexivity.
  - rewrite (build_electrode_scaled a s i Hs). cbn [mbind result_bind].
    rewrite IH, <- app_assoc. reflexivity.
Qed.

(** Whatever the anthropometry, construction stores the six electrodes of
    some scale. *)
Lemma placement_built (a : option PatientAnthropometry) :
  exists s,
    _build_electrode_positions a = Ok (map (scaled_electrode s) (seq 0 6)).
Proof.
  destruct (scale_factor_returns a) as (s & Hs). exists s.
  unfold _build_electrode_positions.
  exact (build_from_scaled a s (seq 0 6) Hs []).
Qed.

Lemma opposite_glyph_floats (i : nat) :
  (i < 3)%nat ->
  fl (evalf15 (rmul GLYPH_RADIUS (cos_pi3 (Z.of_nat (i + 3)))))
  = fopp (fl (evalf15 (rmul GLYPH_RADIUS (cos_pi3 (Z.of_nat i)))))
  /\ fl (evalf15 (rmul GLYPH_RADIUS (sin_pi3 (Z.of_nat (i + 3)))))
     = fopp (fl (evalf15 (rmul GLYPH_RADIUS (sin_pi3 (Z.of_nat i))))).
Proof.
  intros Hi.
  destruct i as [|[|[|i]]]; [| | |lia]; split; vm_compute; reflexivity.
Qed.

(** X16.  For every patient, and without one, the placement calculator is
    built without error and stores six electrodes numbered 1 to 6 with the
    six descriptions in order; its [verify_symmetry] succeeds;
    [get_electrode(n)] returns the electrode numbered [n] for [n] from 1 to
    6 and raises [ValueError] for every other number. *)
Theorem placement_six_electrodes_for_any_patient
    (a : option PatientAnthropometry) (str_int : Z -> string) :
  exists es,
    _build_electrode_positions a = Ok es
    /\ map electrode_number es = [1; 2; 3; 4; 5; 6]%Z
    /\ map description es = descriptions
    /\ verify_symmetry str_int es
       = Some (Ok (true,
                   "C₃ × D₆ symmetry verified. Citation: Viduya Family Legacy Glyph © 2025"))
    /\ (forall n, (1 <= n <= 6)%Z ->
          exists e, get_electrode es n = Ok e /\ electrode_number e = n)
    /\ (forall n, (n < 1 \/ 6 < n)%Z ->
          get_electrode es n
          = Raise (Exn (ValueError "Electrode number must be 1-6"))).
Proof.
  destruct (placement_built a) as (s & Hb).
  exists (map (scaled_electrode s) (seq 0 6)). split; [exact Hb|].
  split; [reflexivity|]. split; [reflexivity|].
  split.
  { unfold verify_symmetry. cbn [seq map mapM].
    unfold scaled_electrode. cbn [glyph_x glyph_y].
    vm_compute. reflexivity. }
  split.
  - intros n Hn. unfold get_electrode.
    destruct (Z.ltb_spec n 1) as [H|_]; [lia|].
    destruct (Z.ltb_spec 6 n) as [H|_]; [lia|]. cbn [orb].
    assert (Hc : (n = 1 \/ n = 2 \/ n = 3 \/ n = 4 \/ n = 5 \/ n = 6)%Z) by lia.
    destruct Hc as [->|[->|[->|[->|[->| ->]]]]];
      eexists; split; reflexivity.
  - intros n Hn. unfold get_electrode.
    destruct (Z.ltb_spec n 1) as [H|H]; [reflexivity|].
    destruct (Z.ltb_spec 6 n) as [H'|H']; [reflexivity | lia].
Qed.

(** X17.  For every patient the stored placement is point-symmetric about
    the centre: electrode [i + 3] lies opposite electrode [i], its rounded
    anatomical coordinates are the negated coordinates of electrode [i], and
    so are its exact glyph coordinates. *)
Theorem placement_opposite_electrodes_mirror
    (a : option PatientAnthropometry) :
  exists es,
    _build_electrode_positions a = Ok es
    /\ forall (i : nat) e e',
         (i < 3)%nat -> es !! i = Some e -> es !! (i + 3)%nat = Some e' ->
         anatomical_x_cm e' = fopp (anatomical_x_cm e)
         /\ anatomical_y_cm e' = fopp (anatomical_y_cm e)
         /\ glyph_x e' = rneg (glyph_x e)
         /\ glyph_y e' = rneg (glyph_y e).
Proof.
  destruct (placement_built a) as (s & Hb).
  exists (map (scaled_electrode s) (seq 0 6)). split; [exact Hb|].
  intros i e e' Hi He He'.
  rewrite list_lookup_fmap in He, He'.
  rewrite lookup_seq_lt in He, He' by lia.
  cbn in He, He'. injection He as <-. injection He' as <-.
  unfold scaled_electrode.
  cbn [anatomical_x_cm anatomical_y_cm glyph_x glyph_y].
  destruct (opposite_glyph_floats i Hi) as [-> ->].
  rewrite !fmul_fopp_l, !py_round_fopp.
  split; [reflexivity|]. split; [reflexivity|].
  destruct i as [|[|[|i]]]; [| | |lia]; split; vm_compute; reflexivity.
Qed.

End PlacementSymmetry.

Section FhirProperties.
Import Fusion Fhir.
Context {RT : PyRuntime}.

Lemma missing_fields_none (resource : pydict) :
  (length (missing_fields resource) =? 0)%nat
  = dict_has "status" resource && dict_has "code" resource
    && dict_has "subject" resource.
Proof.
  unfold missing_fields. cbn [flat_map].
  destruct (dict_has "status" resource), (dict_has "code" resource),
    (dict_has "subject" resource); reflexivity.
Qed.

(** X18.  [validate_fhir_resource] checks the presence of keys and nothing
    else.  Without a [resourceType], or with an empty one, it answers 400.
    An Observation is valid exactly when it has the keys [status], [code]
    and [subject], whatever they hold, and the errors name the missing ones
    in that order.  A resource of any other type is valid without any
    check.  The Observation built by [create_leiv_observation] is valid. *)
Theorem validate_fhir_resource_checks_presence_only :
  (forall resource,
      truthy (default PNone (dict_get "resourceType" resource)) = false ->
      validate_fhir_resource resource
      = Raise (HTTPException 400 "Missing resourceType"))
  /\ (forall resource,
         dict_get "resourceType" resource = Some (PStr "Observation") ->
         validate_fhir_resource resource
         = Ok [("valid",
                PBool (dict_has "status" resource && dict_has "code" resource
                       && dict_has "subject" resource));
               ("errors", PList (map PStr (missing_fields resource)));
               ("warnings", PList []);
               ("profile",
                PStr "http://hl7.org/fhir/StructureDefinition/Observation")])
  /\ (forall resource s,
         dict_get "resourceType" resource = Some (PStr s) ->
         s <> "" -> s <> "Observation" ->
         validate_fhir_resource resource
         = Ok [("valid", PBool true); ("errors", PList []);
               ("warnings", PList []);
               ("profile",
                PStr ("http://hl7.org/fhir/StructureDefinition/" ++ s))])
  /\ (forall observation_id patient_id lei_v stage timestamp,
         validate_fhir_resource
           (create_leiv_observation observation_id patient_id lei_v stage
                                    timestamp)
         = Ok [("valid", PBool true); ("errors", PList []);
               ("warnings", PList []);
               ("profile",
                PStr "http://hl7.org/fhir/StructureDefinition/Observation")]).
Proof.
  split; [|split; [|split]].
  - intros resource Hf. unfold validate_fhir_resource. rewrite Hf. reflexivity.
  - intros resource Ht. unfold validate_fhir_resource. rewrite Ht.
    unfold default, from_option, id.
    change (negb (truthy (PStr "Observation"))) with false. cbv iota.
    change (String.eqb "Observation" "Observation") with true.
    cbv iota zeta. rewrite missing_fields_none. reflexivity.
  - intros resource s Ht Hne Hobs. unfold validate_fhir_resource. rewrite Ht.
    unfold default, from_option, id. cbn [truthy].
    destruct (String.eqb_spec s "") as [->|_]; [contradiction|].
    destruct (String.eqb_spec s "Observation") as [->|_]; [contradiction|].
    reflexivity.
  - intros. reflexivity.
Qed.

End FhirProperties.

Section RateLimitProperties.
Import RateLimit.

Lemma append_cons (c : ascii) (a b : string) :
  (String c a ++ b)%string = String c (a ++ b).
Proof. reflexivity. Qed.

Lemma append_nil (b : string) : ("" ++ b)%string = b.
Proof. reflexivity. Qed.

Lemma list_ascii_app (a b : string) :
  list_ascii_of_string (a ++ b)
  = (list_ascii_of_string a ++ list_ascii_of_string b)%list.
Proof.
  induction a as [|c a IH]; [reflexivity|].
  rewrite append_cons. cbn [list_ascii_of_string app]. f_equal. exact IH.
Qed.

Lemma list_prefix_app (p l : list ascii) : Evg.list_prefix p (p ++ l) = true.
Proof.
  induction p as [|c p IH]; cbn; [reflexivity|].
  rewrite Ascii.eqb_refl. exact IH.
Qed.

Lemma endswith_key (c minute : string) :
  Evg.endswith (key_of c minute) minute = true.
Proof.
  unfold key_of, Evg.endswith.
  rewrite !list_ascii_app, !rev_app_distr, <- app_assoc.
  apply list_prefix_app.
Qed.

Lemma length_append (a b : string) :
  String.length (a ++ b) = (String.length a + String.length b)%nat.
Proof.
  induction a as [|c a IH]; [reflexivity|].
  rewrite append_cons. cbn [String.length Nat.add]. f_equal. exact IH.
Qed.

Lemma append_inj_l (t : string) : forall s1 s2 : string,
  (s1 ++ t)%string = (s2 ++ t)%string -> s1 = s2.
Proof.
  induction s1 as [|a s1 IH]; intros [|b s2] H;
    rewrite ?append_cons, ?append_nil in H.
  - reflexivity.
  - apply (f_equal String.length) in H. cbn [String.length] in H.
    rewrite length_append in H. lia.
  - apply (f_equal String.length) in H. cbn [String.length] in H.
    rewrite length_append in H. lia.
  - injection H as -> H. f_equal. apply IH, H.
Qed.

Lemma key_of_inj (c c' minute : string) :
  key_of c minute = key_of c' minute -> c = c'.
Proof. unfold key_of. apply append_inj_l. Qed.

Lemma cleanup_lookup_kept (counts : gmap string Z) (minute k : string) :
  Evg.endswith k minute = true ->
  _cleanup_old_entries counts minute !! k = counts !! k.
Proof.
  intros Hk. unfold _cleanup_old_entries.
  destruct (counts !! k) as [v|] eqn:Hc.
  - apply map_lookup_filter_Some. split; [exact Hc | exact Hk].
  - apply map_lookup_filter_None. left. exact Hc.
Qed.

Lemma dispatch_all_cons (m : RateLimitMiddleware) (c minute : string)
    (rest : list (string * string)) :
  dispatch_all m ((c, minute) :: rest)
  = (fst (dispatch m c minute)
       :: fst (dispatch_all (snd (dispatch m c minute)) rest),
     snd (dispatch_all (snd (dispatch m c minute)) rest)).
Proof.
  cbn [dispatch_all]. destruct (dispatch m c minute) as [o m']. cbn [fst snd].
  destruct (dispatch_all m' rest) as [os m'']. reflexivity.
Qed.

(** Within one minute, the requests of a client that are passed on are at
    most what is left of its allowance. *)
Lemma dispatch_all_bound (minute client : string) (clients : list string) :
  forall m,
    (0 <= default 0 (_request_counts m !! key_of client minute))%Z ->
    (Z.of_nat
       (forwarded_to client (map (fun c => (c, minute)) clients)
          (fst (dispatch_all m (map (fun c => (c, minute)) clients))))
     <= Z.max 0 (requests_per_minute m
                 - default 0 (_request_counts m !! key_of client minute)))%Z.
Proof.
  induction clients as [|c clients IH]; intros m Hcnt; [cbn; lia|].
  cbn [map]. rewrite dispatch_all_cons. cbn [fst forwarded_to].
  unfold dispatch.
  set (count := default 0%Z (_request_counts m !! key_of c minute)).
  destruct (Z.leb_spec (requests_per_minute m) count) as [Hfull|Hroom];
    cbn [fst snd outcome_eqb].
  - rewrite andb_false_r. cbn [Nat.add]. apply IH, Hcnt.
  - set (m' := {| requests_per_minute := requests_per_minute m;
                  _request_counts :=
                    _cleanup_old_entries
                      (<[key_of c minute := (count + 1)%Z]> (_request_counts m))
                      minute |}).
    rewrite andb_true_r.
    destruct (String.eqb_spec c client) as [->|Hne].
    + assert (Hm' : default 0%Z (_request_counts m' !! key_of client minute)
                    = (count + 1)%Z).
      { cbn [m' _request_counts].
        rewrite cleanup_lookup_kept by apply endswith_key.
        rewrite lookup_insert_eq. reflexivity. }
      specialize (IH m'). rewrite Hm' in IH. cbn [requests_per_minute m'] in IH.
      fold count in Hcnt. specialize (IH ltac:(lia)).
      fold count. lia.
    + assert (Hm' : default 0%Z (_request_counts m' !! key_of client minute)
                    = default 0%Z (_request_counts m !! key_of client minute)).
      { cbn [m' _request_counts].
        rewrite cleanup_lookup_kept by apply endswith_key.
        rewrite lookup_insert_ne; [reflexivity|].
        intros Heq. apply Hne. exact (key_of_inj _ _ _ Heq). }
      specialize (IH m'). rewrite Hm' in IH. cbn [requests_per_minute m'] in IH.
      specialize (IH Hcnt). lia.
Qed.

(** X19.  The rate limiter.  Of the requests that arrive within one minute
    at a new middleware, at most [requests_per_minute] of each client are
    passed on, however the clients interleave (none when the limit is zero
    or negative).  A request answered with 429 leaves the counters as they
    were; after a request that is passed on, only counters of the current
    minute are left. *)
Theorem rate_limit_bounds_each_client (limit : Z) (minute : string) :
  (forall (clients : list string) (client : string),
      let requests := map (fun c => (c, minute)) clients in
      (forwarded_to client requests (fst (dispatch_all (new limit) requests))
       <= Z.to_nat limit)%nat)
  /\ (forall m client_ip,
         fst (dispatch m client_ip minute) = TooManyRequests ->
         snd (dispatch m client_ip minute) = m)
  /\ (forall m client_ip k v,
         fst (dispatch m client_ip minute) = Forwarded ->
         _request_counts (snd (dispatch m client_ip minute)) !! k = Some v ->
         Evg.endswith k minute = true).
Proof.
  split; [|split].
  - intros clients client requests. subst requests.
    pose proof (dispatch_all_bound minute client clients (new limit)) as H.
    cbn [new _request_counts requests_per_minute] in H.
    rewrite lookup_empty in H. cbn [default] in H.
    specialize (H ltac:(lia)). lia.
  - intros m client_ip. unfold dispatch.
    destruct (_ <=? _)%Z; [reflexivity | discriminate].
  - intros m client_ip k v. unfold dispatch.
    destruct (_ <=? _)%Z; [discriminate|]. intros _. cbn [snd _request_counts].
    unfold _cleanup_old_entries. intros Hk.
    apply map_lookup_filter_Some in Hk as [_ Hk]. exact Hk.
Qed.

End RateLimitProperties.

Section DriftProperties.
Import Rounding PyFloat SignalProcessor.

Lemma fl_pos_inv (q : Q) : flt (FFin 0) (fl q) = true -> 0 < q.
Proof.
  intros H. destruct (Qlt_le_dec 0 q) as [Hpos|Hneg]; [exact Hpos|].
  exfalso. rewrite <- (Qopp_opp_eq q), fl_opp in H.
  pose proof (fl_ge0 (- q) ltac:(lra)) as H0.
  destruct (fl (- q)) as [r|n|]; cbn in *; try discriminate.
  - apply Qle_bool_iff in H0. apply negb_true_iff in H.
    assert (Hle : - r <= 0) by lra. apply Qle_bool_iff in Hle. congruence.
  - destruct n; discriminate.
Qed.

Lemma fsub_pos (c b : pyfloat) :
  fgt (fsub c b) (lit 0) = true -> flt b c = true.
Proof.
  unfold fgt, fsub. change (lit 0) with (FFin 0).
  destruct c as [x|n|], b as [y|m|]; cbn [fopp fadd]; try discriminate.
  - intros H. apply fl_pos_inv in H. cbn. apply negb_true_iff.
    destruct (Qle_bool x y) eqn:Hb; [|reflexivity].
    apply Qle_bool_iff in Hb. lra.
  - destruct m; cbn; [reflexivity | discriminate].
  - destruct n; cbn; [discriminate | reflexivity].
  - destruct n, m; cbn; try discriminate; reflexivity.
Qed.

(** X20.  The drift of the index from its baseline.  With a baseline set
    (its caller sets one before the call) [_compute_drift] always returns.  With a baseline of exactly zero the drift in percent is
    taken to be 0 and the trend is "stable", however far the current value
    is from it.  A trend "increasing" is only reported when the current
    value is above the baseline. *)
Theorem compute_drift_trend (baseline current : pyfloat) (t : datetime) :
  exists d,
    _compute_drift baseline current t = Ok d
    /\ drift_value d = fsub current baseline
    /\ (is_zero baseline = true ->
        drift_percent d = FFin 0 /\ trend d = "stable")
    /\ (trend d = "increasing" -> flt baseline current = true).
Proof.
  unfold _compute_drift.
  destruct (is_zero baseline) eqn:Hz; cbn [negb].
  - cbn [mbind result_bind]. eexists. split; [reflexivity|].
    cbn [drift_value drift_percent trend].
    split; [reflexivity|]. split.
    + intros _. split; reflexivity.
    + change (flt (fabs (FFin 0)) (lit 5)) with true. discriminate.
  - unfold fdiv. rewrite Hz. cbn [mbind result_bind].
    eexists. split; [reflexivity|].
    cbn [drift_value drift_percent trend].
    split; [reflexivity|]. split; [discriminate|].
    destruct (flt _ (lit 5)); [discriminate|].
    destruct (fgt (fsub current baseline) (lit 0)) eqn:Hg; [|discriminate].
    intros _. apply fsub_pos, Hg.
Qed.

End DriftProperties.

Section PacketProperties.
Import Rounding PyFloat OpenBci.

Lemma divisor_positive (gain : ChannelGain) :
  exists d, fl (inject_Z (gain_value gain * 2 ^ 23)) = FFin d /\ 0 < d.
Proof.
  destruct gain; eexists; (split; [vm_compute; reflexivity | reflexivity]).
Qed.

Lemma microvolts_not_negative (gain : ChannelGain) (raw : Z) :
  (0 <= raw)%Z ->
  exists q,
    fdiv (fmul (fl (inject_Z raw)) (lit 4.5))
         (fl (inject_Z (gain_value gain * 2 ^ 23))) = Some q
    /\ fle (FFin 0) (fmul q (lit 1000000)) = true.
Proof.
  intros Hraw.
  assert (Ha : fle (FFin 0) (fmul (fl (inject_Z raw)) (lit 4.5)) = true).
  { change (lit 4.5) with (FFin (9 # 2)).
    apply fmul_ge0; [|reflexivity]. apply fl_ge0.
    change 0 with (inject_Z 0). rewrite <- Zle_Qle. exact Hraw. }
  destruct (divisor_positive gain) as (d & -> & Hd).
  unfold fdiv. cbn [is_zero].
  assert (Hd0 : Qeq_bool d 0 = false).
  { destruct (Qeq_bool d 0) eqn:H0; [|reflexivity].
    apply Qeq_bool_iff in H0. lra. }
  rewrite Hd0. eexists. split; [reflexivity|].
  change (lit 1000000) with (FFin 1000000).
  apply fmul_ge0; [|reflexivity].
  destruct (fmul (fl (inject_Z raw)) (lit 4.5)) as [x|n|]; cbn in Ha;
    try discriminate.
  - apply Qle_bool_iff in Ha. apply fl_ge0.
    apply Qle_shift_div_l; [exact Hd | lra].
  - destruct n; [discriminate|]. cbn.
    assert (Hb : Qle_bool 0 d = true) by (apply Qle_bool_iff; lra).
    rewrite Hb. reflexivity.
Qed.

Lemma parse_channel_ok (gain : ChannelGain) (packet : list Z) (count : Z)
    (t : datetime) (i : nat) (x y z : Z) :
  slice packet (2 + i * 3) (2 + i * 3 + 3) = [x; y; z] ->
  is_byte x = true -> is_byte y = true -> is_byte z = true ->
  exists ch,
    parse_channel gain packet count t i = Ok ch
    /\ channel_index ch = (Z.of_nat i + 1)%Z
    /\ channel_sample_number ch = count
    /\ fle (FFin 0) (value_uv ch) = true.
Proof.
  unfold is_byte. intros Hs Hx Hy Hz.
  apply andb_true_iff in Hx as [Hx0 Hx1]. apply andb_true_iff in Hy as [Hy0 Hy1].
  apply andb_true_iff in Hz as [Hz0 Hz1].
  apply Z.leb_le in Hx0, Hy0, Hz0. apply Z.ltb_lt in Hx1, Hy1, Hz1.
  unfold parse_channel. rewrite Hs. cbn [unpack_int32_be mbind result_bind].
  set (u := (((0 * 256 + x) * 256 + y) * 256 + z)%Z).
  assert (Hu : (0 <= u < 2 ^ 24)%Z) by (subst u; lia).
  destruct (Z.ltb_spec u (2 ^ 31)) as [_|Hbig]; [|lia].
  destruct (microvolts_not_negative gain u (proj1 Hu)) as (q & -> & Hq).
  eexists. split; [reflexivity|]. cbn. auto.
Qed.

(** X21.  [_parse_packet] reads every 24-bit sample as an unsigned number.
    For a packet of bytes that starts with the sync byte 0xA0 and is long
    enough for six channels, it returns a sample with channels 1 to 6,
    counts it, and every value in microvolts is zero or positive, also when
    the sample's sign bit is set.  A packet with another first byte gives
    no sample and is not counted. *)
Theorem parse_packet_reads_samples_unsigned (gain : ChannelGain) (count : Z)
    (t : datetime) (packet : list Z) :
  forallb is_byte packet = true ->
  (20 <=? length packet)%nat = true ->
  hd_error packet = Some 160%Z ->
  (exists sample,
      _parse_packet gain count t packet = (Ok (Some sample), (count + 1)%Z)
      /\ map channel_index (channels sample) = [1; 2; 3; 4; 5; 6]%Z
      /\ Forall (fun ch => fle (FFin 0) (value_uv ch) = true)
                (channels sample)
      /\ sample_number sample = (count + 1)%Z)
  /\ (forall b rest,
         b <> 160%Z -> _parse_packet gain count t (b :: rest) = (Ok None, count)).
Proof.
  intros Hbytes Hlen Hsync. split.
  2:{ intros b rest Hb. unfold _parse_packet.
      destruct (Z.eqb_spec b 160) as [->|_]; [contradiction | reflexivity]. }
  do 20 (destruct packet as [|? packet]; [discriminate Hlen|]).
  clear Hlen. injection Hsync as ->.
  cbn [forallb] in Hbytes.
  repeat match type of Hbytes with
         | (_ && _) = true =>
             let H := fresh "Hbyte" in
             apply andb_true_iff in Hbytes as [H Hbytes]
         end.
  match goal with |- context [_parse_packet _ _ _ ?p] => set (pk := p) end.
  destruct (parse_channel_ok gain pk (count + 1)%Z t 0%nat _ _ _ eq_refl)
    as (c0 & E0 & I0 & _ & V0); [assumption..|].
  destruct (parse_channel_ok gain pk (count + 1)%Z t 1%nat _ _ _ eq_refl)
    as (c1 & E1 & I1 & _ & V1); [assumption..|].
  destruct (parse_channel_ok gain pk (count + 1)%Z t 2%nat _ _ _ eq_refl)
    as (c2 & E2 & I2 & _ & V2); [assumption..|].
  destruct (parse_channel_ok gain pk (count + 1)%Z t 3%nat _ _ _ eq_refl)
    as (c3 & E3 & I3 & _ & V3); [assumption..|].
  destruct (parse_channel_ok gain pk (count + 1)%Z t 4%nat _ _ _ eq_refl)
    as (c4 & E4 & I4 & _ & V4); [assumption..|].
  destruct (parse_channel_ok gain pk (count + 1)%Z t 5%nat _ _ _ eq_refl)
    as (c5 & E5 & I5 & _ & V5); [assumption..|].
  unfold _parse_packet. subst pk. cbv beta iota.
  change (negb (160 =? 160)%Z) with false. cbv beta iota zeta.
  match goal with |- context [parse_channel _ ?p] => set (pk := p) in * end.
  cbn [seq].
  cbn [mapM]. rewrite E0, E1, E2, E3, E4, E5. cbn [mbind result_bind mret result_ret].
  eexists. split; [reflexivity|].
  cbn [channels sample_number map]. rewrite I0, I1, I2, I3, I4, I5.
  split; [reflexivity|]. split; [|reflexivity].
  repeat constructor; assumption.
Qed.

End PacketProperties.

Lemma parse_packet_reads_samples_unsigned_witness :
  (exists sample,
      OpenBci._parse_packet OpenBci.GAIN_24 41%Z 0%Z OpenBci.negative_packet
      = (Ok (Some sample), (41 + 1)%Z)
      /\ map OpenBci.channel_index (OpenBci.channels sample)
         = [1; 2; 3; 4; 5; 6]%Z
      /\ Forall (fun ch =>
                   PyFloat.fle (PyFloat.FFin 0) (OpenBci.value_uv ch) = true)
                (OpenBci.channels sample)
      /\ OpenBci.sample_number sample = (41 + 1)%Z)
  /\ (forall b rest,
         b <> 160%Z ->
         OpenBci._parse_packet OpenBci.GAIN_24 41%Z 0%Z (b :: rest)
         = (Ok None, 41%Z)).
Proof.
  apply (parse_packet_reads_samples_unsigned OpenBci.GAIN_24 41%Z 0%Z
           OpenBci.negative_packet); reflexivity.
Defined.

